(** * The interactive editing engine of solar-case, embedded in Rocq

    A shallow embedding of [src/babylon/SceneController.ts]: the parametric
    building model, the viewport routing, the two-pass picking, the pointer
    state machine (resize, rotate, relocate), the height and slope setters,
    the camera fits and the overlay report; of the height drag of
    [App.tsx]; of the thumbnails of [ElevationSelector] and of the
    viewfinder of [MapSelector].  The properties of the specification
    come first, further properties of the code after them.

    Conventions of the embedding.
    - A JavaScript [number] is an exact rational ([Q]); [Math.min] and
      [Math.max] are [Qmin] and [Qmax]; decimal literals are written as in
      the source ([0.65], [0.001]).  Rounding, [NaN] and the infinities of
      IEEE doubles are outside the model; equalities between numbers are
      stated with [==].
    - [Math.cos], [Math.sin] and [Math.atan2] are parameters.
    - The controller object is a record threaded through every method; a
      reference to a root mesh ([selectedMesh], [draggingBuilding], the
      [parent] of a mesh) names a building of the [buildings] store or a
      preview ghost, so that a write through [selectedMesh.metadata] is seen
      by every alias.
    - A callback of the controller is a flag (is a listener installed?) and
      every invocation is appended to the [calls] log.
    - Babylon supplies ray casting; a pointer event therefore carries the
      outcome of casting its picking ray against a mesh and against a drag
      plane. *)

From Stdlib Require Import QArith Qminmax Lqa ZArith.
From stdpp Require Import base option list.

Local Open Scope Q_scope.

(** ** Numbers *)

Abbreviation number := Q.

(** [a || b] on numbers: [b] replaces a falsy (zero) [a]. *)
Definition or_default (a b : number) : number :=
  if Qeq_bool a 0 then b else a.

(** ** Vectors and the world matrix of a building root *)

Module Vector3.

Record t : Type := mk { x : number; y : number; z : number }.

Definition Zero : t := mk 0 0 0.
Definition Up : t := mk 0 1 0.

Definition add (a b : t) : t := mk (x a + x b) (y a + y b) (z a + z b).
Definition subtract (a b : t) : t := mk (x a - x b) (y a - y b) (z a - z b).

Definition set_x (v : t) (n : number) : t := mk n (y v) (z v).
Definition set_y (v : t) (n : number) : t := mk (x v) n (z v).
Definition set_z (v : t) (n : number) : t := mk (x v) (y v) n.

(** Component-wise numeric equality. *)
Definition equiv (a b : t) : Prop := x a == x b /\ y a == y b /\ z a == z b.

End Vector3.

Module Matrix.

(** A building root has no parent, unit scaling and a rotation about the
    vertical axis only, so its world matrix is, in Babylon's row-major
    layout,
<<
      c  0 -s  0
      0  1  0  0
      s  0  c  0
      tx ty tz 1
>>
    The inverse of such a matrix has the same shape. *)
Record t : Type := mk { c : number; s : number; tx : number; ty : number; tz : number }.

Definition determinant (m : t) : number := c m * c m + s m * s m.

Definition invert (m : t) : t :=
  let d := determinant m in
  let c' := c m / d in
  let s' := - (s m / d) in
  mk c' s'
     (- (tx m * c' + tz m * s'))
     (- ty m)
     (- (- (tx m * s') + tz m * c')).

(** [Vector3.TransformCoordinates]: rotation and translation. *)
Definition TransformCoordinates (v : Vector3.t) (m : t) : Vector3.t :=
  Vector3.mk (Vector3.x v * c m + Vector3.z v * s m + tx m)
             (Vector3.y v + ty m)
             (- (Vector3.x v * s m) + Vector3.z v * c m + tz m).

(** [Vector3.TransformNormal]: rotation only. *)
Definition TransformNormal (v : Vector3.t) (m : t) : Vector3.t :=
  Vector3.mk (Vector3.x v * c m + Vector3.z v * s m)
             (Vector3.y v)
             (- (Vector3.x v * s m) + Vector3.z v * c m).

End Matrix.

(** ** Data model *)

Inductive RoofType : Set := Flat | Gable.

Inductive MeshType : Set := handle | building | preview.

Inductive HandleType : Set :=
  | corner | roof | edge_width | edge_depth | rotate
  | height_eaves | height_ridge | guide.

Inductive GuideSubType : Set := eaves | ridge.

Inductive Tool : Set := select | add_flat | add_gable.

Inductive ViewportName : Set := none | plan | iso | elevation.

Inductive ElevationDir : Set := N | S | E | W.

Inductive Camera : Set := planCamera | isoCamera | elevationCamera.

(** A reference to a root mesh: building [i] of the store
    ([this.buildings[i]]), or preview ghost [k], the ghosts being numbered in
    the order [handlePointer] creates them. *)
Inductive Root : Set := Stored (i : nat) | Ghost (k : nat).

#[global] Instance Root_eq_dec : EqDecision Root.
Proof. solve_decision. Defined.

Definition RoofType_eqb (a b : RoofType) : bool :=
  match a, b with Flat, Flat | Gable, Gable => true | _, _ => false end.

Definition HandleType_eqb (a b : HandleType) : bool :=
  match a, b with
  | corner, corner | roof, roof | edge_width, edge_width
  | edge_depth, edge_depth | rotate, rotate | height_eaves, height_eaves
  | height_ridge, height_ridge | guide, guide => true
  | _, _ => false
  end.

Definition ViewportName_eqb (a b : ViewportName) : bool :=
  match a, b with
  | none, none | plan, plan | iso, iso | elevation, elevation => true
  | _, _ => false
  end.

Definition MASK_PLAN : Z := 1.
Definition MASK_ISO : Z := 2.
Definition MASK_ELEVATION : Z := 4.

(** Babylon's default [layerMask] of a freshly created mesh. *)
Definition MASK_DEFAULT : Z := 268435455.

Definition Camera_layerMask (cam : Camera) : Z :=
  match cam with
  | planCamera => MASK_PLAN
  | isoCamera => MASK_ISO
  | elevationCamera => MASK_ELEVATION
  end.

Module Mesh.

(** The [metadata] object of a pickable mesh; an absent key is [None]
    ([visualDashed]/[visualSolid] are present exactly on guide colliders). *)
Record Metadata : Type := mkMetadata {
  type : option MeshType;
  handleType : option HandleType;
  index : option nat;
  subType : option GuideSubType;
  baseScale : option number;
  isActive : option bool;
  visualLines : bool
}.

Definition noMetadata : Metadata :=
  mkMetadata None None None None None None false.

(** A mesh with geometry, that is, any mesh other than a root. [parent] is
    the root the mesh hangs under; [position] is local to it. A disposed
    mesh has left the scene; [this.handles] can still hold it. *)
Record t : Type := mk {
  position : Vector3.t;
  parent : option Root;
  isVisible : bool;
  isPickable : bool;
  layerMask : Z;
  metadata : Metadata;
  isDisposed : bool
}.

Definition set_isVisible (m : t) (visible : bool) : t :=
  mk (position m) (parent m) visible (isPickable m) (layerMask m) (metadata m)
    (isDisposed m).

Definition set_isPickable (m : t) (pickable : bool) : t :=
  mk (position m) (parent m) (isVisible m) pickable (layerMask m) (metadata m)
    (isDisposed m).

Definition set_layerMask (m : t) (mask : Z) : t :=
  mk (position m) (parent m) (isVisible m) (isPickable m) mask (metadata m)
    (isDisposed m).

(** [mesh.dispose()], as far as the controller can tell afterwards. *)
Definition dispose (m : t) : t :=
  mk (position m) (parent m) (isVisible m) (isPickable m) (layerMask m)
    (metadata m) true.

End Mesh.

(** [root.metadata] of a building root or of a preview root. *)
Record BuildingMetadata : Type := mkBuildingMetadata {
  roofType : RoofType;
  width : number;
  depth : number;
  height : number;
  slope : number
}.

(** A root mesh (of a building, or of a preview ghost) with the solids
    [rebuildMesh] hangs under it: [children] is [root.getChildren()] without
    the handles, which the controller keeps in [this.handles]. *)
Record Building : Type := mkBuilding {
  position : Vector3.t;
  rotationY : number;
  layerMask : Z;
  metadata : BuildingMetadata;
  children : list Mesh.t
}.

Definition set_width (md : BuildingMetadata) (w : number) : BuildingMetadata :=
  mkBuildingMetadata (roofType md) w (depth md) (height md) (slope md).
Definition set_depth (md : BuildingMetadata) (d : number) : BuildingMetadata :=
  mkBuildingMetadata (roofType md) (width md) d (height md) (slope md).
Definition set_height (md : BuildingMetadata) (h : number) : BuildingMetadata :=
  mkBuildingMetadata (roofType md) (width md) (depth md) h (slope md).
Definition set_slope (md : BuildingMetadata) (sl : number) : BuildingMetadata :=
  mkBuildingMetadata (roofType md) (width md) (depth md) (height md) sl.

Definition set_position (b : Building) (p : Vector3.t) : Building :=
  mkBuilding p (rotationY b) (layerMask b) (metadata b) (children b).
Definition set_rotationY (b : Building) (a : number) : Building :=
  mkBuilding (position b) a (layerMask b) (metadata b) (children b).
Definition set_layerMask (b : Building) (mask : Z) : Building :=
  mkBuilding (position b) (rotationY b) mask (metadata b) (children b).
Definition set_metadata (b : Building) (md : BuildingMetadata) : Building :=
  mkBuilding (position b) (rotationY b) (layerMask b) md (children b).
Definition set_children (b : Building) (cs : list Mesh.t) : Building :=
  mkBuilding (position b) (rotationY b) (layerMask b) (metadata b) cs.

(** The derived ridge height of the specification: eaves plus slope. *)
Definition ridgeHeight (md : BuildingMetadata) : number := height md + slope md.

(** ** The controller

    [Ortho] holds the four orthographic bounds of the elevation camera,
    [Engine] what the controller reads from the Babylon engine. *)

Record Ortho : Type := mkOrtho {
  orthoTop : number;
  orthoBottom : number;
  orthoLeft : number;
  orthoRight : number
}.

Record Canvas : Type := mkCanvas { clientWidth : number; clientHeight : number }.

Record Engine : Type := mkEngine {
  getRenderingCanvas : option Canvas;
  getRenderWidth : number;
  getRenderHeight : number
}.

(** Which callbacks have a listener installed. *)
Record Listeners : Type := mkListeners {
  has_onSelectionChange : bool;
  has_onSlopeChange : bool;
  has_onDimensionsChange : bool;
  has_onToolChange : bool;
  has_onActiveViewportChange : bool
}.

(** One invocation of a callback, with its arguments. *)
Inductive Call : Type :=
  | onSelectionChange (mesh : option Root)
  | onSlopeChange (slope : number)
  | onDimensionsChange (width depth height slope : number)
  | onToolChange (tool : Tool)
  | onActiveViewportChange (viewport : ViewportName).

(** The fields of the [SceneController] object. [previewMesh] refers to
    the current preview ghost by its number; [ghosts] holds the root of
    every preview ghost created so far, in the order of creation, because a
    ghost that has been selected is still referred to by [selectedMesh]
    (and by the solids and handles built under it) after it is disposed.
    [planOrthoTop] is [planCamera.orthoTop]; [isoControl] and
    [elevationControl] record whether the camera has input control attached;
    [calls] is the log of callback invocations, oldest first.  The hover
    feedback ([hoveredHandle], the scaling of a handle and the active flag
    of a guide line) only changes how the scene is drawn and is left out. *)
Record SceneController : Type := mkSceneController {
  buildings : list Building;
  activeTool : Tool;
  selectedMesh : option Root;
  previewMesh : option nat;
  ghosts : list Building;
  backgroundPlane : option Mesh.t;
  isDragging : bool;
  dragTarget : option Mesh.t;
  draggingBuilding : option Root;
  draggingHandleType : option HandleType;
  dragOrigin : option Vector3.t;
  handles : list Mesh.t;
  currentElevationDir : ElevationDir;
  elevationZoom : number;
  activeViewport : ViewportName;
  isAppDragging : bool;
  planOrthoTop : number;
  elevationOrtho : Ortho;
  elevationPosition : Vector3.t;
  elevationTarget : Vector3.t;
  isoControl : bool;
  elevationControl : bool;
  engine : Engine;
  listeners : Listeners;
  calls : list Call
}.

Definition set_buildings (this : SceneController) (v : list Building) : SceneController :=
  mkSceneController
    v (activeTool this) (selectedMesh this) (previewMesh this) (ghosts this)
    (backgroundPlane this) (isDragging this) (dragTarget this)
    (draggingBuilding this) (draggingHandleType this) (dragOrigin this)
    (handles this) (currentElevationDir this) (elevationZoom this)
    (activeViewport this) (isAppDragging this) (planOrthoTop this)
    (elevationOrtho this) (elevationPosition this) (elevationTarget this)
    (isoControl this) (elevationControl this) (engine this) (listeners this)
    (calls this).

Definition set_activeTool (this : SceneController) (v : Tool) : SceneController :=
  mkSceneController
    (buildings this) v (selectedMesh this) (previewMesh this) (ghosts this)
    (backgroundPlane this) (isDragging this) (dragTarget this)
    (draggingBuilding this) (draggingHandleType this) (dragOrigin this)
    (handles this) (currentElevationDir this) (elevationZoom this)
    (activeViewport this) (isAppDragging this) (planOrthoTop this)
    (elevationOrtho this) (elevationPosition this) (elevationTarget this)
    (isoControl this) (elevationControl this) (engine this) (listeners this)
    (calls this).

Definition set_selectedMesh (this : SceneController) (v : option Root) : SceneController :=
  mkSceneController
    (buildings this) (activeTool this) v (previewMesh this) (ghosts this)
    (backgroundPlane this) (isDragging this) (dragTarget this)
    (draggingBuilding this) (draggingHandleType this) (dragOrigin this)
    (handles this) (currentElevationDir this) (elevationZoom this)
    (activeViewport this) (isAppDragging this) (planOrthoTop this)
    (elevationOrtho this) (elevationPosition this) (elevationTarget this)
    (isoControl this) (elevationControl this) (engine this) (listeners this)
    (calls this).

Definition set_previewMesh (this : SceneController) (v : option nat) : SceneController :=
  mkSceneController
    (buildings this) (activeTool this) (selectedMesh this) v (ghosts this)
    (backgroundPlane this) (isDragging this) (dragTarget this)
    (draggingBuilding this) (draggingHandleType this) (dragOrigin this)
    (handles this) (currentElevationDir this) (elevationZoom this)
    (activeViewport this) (isAppDragging this) (planOrthoTop this)
    (elevationOrtho this) (elevationPosition this) (elevationTarget this)
    (isoControl this) (elevationControl this) (engine this) (listeners this)
    (calls this).

Definition set_ghosts (this : SceneController) (v : list Building) : SceneController :=
  mkSceneController
    (buildings this) (activeTool this) (selectedMesh this) (previewMesh this)
    v (backgroundPlane this) (isDragging this) (dragTarget this)
    (draggingBuilding this) (draggingHandleType this) (dragOrigin this)
    (handles this) (currentElevationDir this) (elevationZoom this)
    (activeViewport this) (isAppDragging this) (planOrthoTop this)
    (elevationOrtho this) (elevationPosition this) (elevationTarget this)
    (isoControl this) (elevationControl this) (engine this) (listeners this)
    (calls this).

Definition set_backgroundPlane (this : SceneController) (v : option Mesh.t) : SceneController :=
  mkSceneController
    (buildings this) (activeTool this) (selectedMesh this) (previewMesh this)
    (ghosts this) v (isDragging this) (dragTarget this)
    (draggingBuilding this) (draggingHandleType this) (dragOrigin this)
    (handles this) (currentElevationDir this) (elevationZoom this)
    (activeViewport this) (isAppDragging this) (planOrthoTop this)
    (elevationOrtho this) (elevationPosition this) (elevationTarget this)
    (isoControl this) (elevationControl this) (engine this) (listeners this)
    (calls this).

Definition set_isDragging (this : SceneController) (v : bool) : SceneController :=
  mkSceneController
    (buildings this) (activeTool this) (selectedMesh this) (previewMesh this)
    (ghosts this) (backgroundPlane this) v (dragTarget this)
    (draggingBuilding this) (draggingHandleType this) (dragOrigin this)
    (handles this) (currentElevationDir this) (elevationZoom this)
    (activeViewport this) (isAppDragging this) (planOrthoTop this)
    (elevationOrtho this) (elevationPosition this) (elevationTarget this)
    (isoControl this) (elevationControl this) (engine this) (listeners this)
    (calls this).

Definition set_dragTarget (this : SceneController) (v : option Mesh.t) : SceneController :=
  mkSceneController
    (buildings this) (activeTool this) (selectedMesh this) (previewMesh this)
    (ghosts this) (backgroundPlane this) (isDragging this) v
    (draggingBuilding this) (draggingHandleType this) (dragOrigin this)
    (handles this) (currentElevationDir this) (elevationZoom this)
    (activeViewport this) (isAppDragging this) (planOrthoTop this)
    (elevationOrtho this) (elevationPosition this) (elevationTarget this)
    (isoControl this) (elevationControl this) (engine this) (listeners this)
    (calls this).

Definition set_draggingBuilding (this : SceneController) (v : option Root) : SceneController :=
  mkSceneController
    (buildings this) (activeTool this) (selectedMesh this) (previewMesh this)
    (ghosts this) (backgroundPlane this) (isDragging this) (dragTarget this) v
    (draggingHandleType this) (dragOrigin this) (handles this)
    (currentElevationDir this) (elevationZoom this) (activeViewport this)
    (isAppDragging this) (planOrthoTop this) (elevationOrtho this)
    (elevationPosition this) (elevationTarget this) (isoControl this)
    (elevationControl this) (engine this) (listeners this) (calls this).

Definition set_draggingHandleType (this : SceneController) (v : option HandleType) : SceneController :=
  mkSceneController
    (buildings this) (activeTool this) (selectedMesh this) (previewMesh this)
    (ghosts this) (backgroundPlane this) (isDragging this) (dragTarget this)
    (draggingBuilding this) v (dragOrigin this) (handles this)
    (currentElevationDir this) (elevationZoom this) (activeViewport this)
    (isAppDragging this) (planOrthoTop this) (elevationOrtho this)
    (elevationPosition this) (elevationTarget this) (isoControl this)
    (elevationControl this) (engine this) (listeners this) (calls this).

Definition set_dragOrigin (this : SceneController) (v : option Vector3.t) : SceneController :=
  mkSceneController
    (buildings this) (activeTool this) (selectedMesh this) (previewMesh this)
    (ghosts this) (backgroundPlane this) (isDragging this) (dragTarget this)
    (draggingBuilding this) (draggingHandleType this) v (handles this)
    (currentElevationDir this) (elevationZoom this) (activeViewport this)
    (isAppDragging this) (planOrthoTop this) (elevationOrtho this)
    (elevationPosition this) (elevationTarget this) (isoControl this)
    (elevationControl this) (engine this) (listeners this) (calls this).

Definition set_handles (this : SceneController) (v : list Mesh.t) : SceneController :=
  mkSceneController
    (buildings this) (activeTool this) (selectedMesh this) (previewMesh this)
    (ghosts this) (backgroundPlane this) (isDragging this) (dragTarget this)
    (draggingBuilding this) (draggingHandleType this) (dragOrigin this) v
    (currentElevationDir this) (elevationZoom this) (activeViewport this)
    (isAppDragging this) (planOrthoTop this) (elevationOrtho this)
    (elevationPosition this) (elevationTarget this) (isoControl this)
    (elevationControl this) (engine this) (listeners this) (calls this).

Definition set_currentElevationDir (this : SceneController) (v : ElevationDir) : SceneController :=
  mkSceneController
    (buildings this) (activeTool this) (selectedMesh this) (previewMesh this)
    (ghosts this) (backgroundPlane this) (isDragging this) (dragTarget this)
    (draggingBuilding this) (draggingHandleType this) (dragOrigin this)
    (handles this) v (elevationZoom this) (activeViewport this)
    (isAppDragging this) (planOrthoTop this) (elevationOrtho this)
    (elevationPosition this) (elevationTarget this) (isoControl this)
    (elevationControl this) (engine this) (listeners this) (calls this).

Definition set_elevationZoom (this : SceneController) (v : number) : SceneController :=
  mkSceneController
    (buildings this) (activeTool this) (selectedMesh this) (previewMesh this)
    (ghosts this) (backgroundPlane this) (isDragging this) (dragTarget this)
    (draggingBuilding this) (draggingHandleType this) (dragOrigin this)
    (handles this) (currentElevationDir this) v (activeViewport this)
    (isAppDragging this) (planOrthoTop this) (elevationOrtho this)
    (elevationPosition this) (elevationTarget this) (isoControl this)
    (elevationControl this) (engine this) (listeners this) (calls this).

Definition set_activeViewport (this : SceneController) (v : ViewportName) : SceneController :=
  mkSceneController
    (buildings this) (activeTool this) (selectedMesh this) (previewMesh this)
    (ghosts this) (backgroundPlane this) (isDragging this) (dragTarget this)
    (draggingBuilding this) (draggingHandleType this) (dragOrigin this)
    (handles this) (currentElevationDir this) (elevationZoom this) v
    (isAppDragging this) (planOrthoTop this) (elevationOrtho this)
    (elevationPosition this) (elevationTarget this) (isoControl this)
    (elevationControl this) (engine this) (listeners this) (calls this).

Definition set_isAppDragging (this : SceneController) (v : bool) : SceneController :=
  mkSceneController
    (buildings this) (activeTool this) (selectedMesh this) (previewMesh this)
    (ghosts this) (backgroundPlane this) (isDragging this) (dragTarget this)
    (draggingBuilding this) (draggingHandleType this) (dragOrigin this)
    (handles this) (currentElevationDir this) (elevationZoom this)
    (activeViewport this) v (planOrthoTop this) (elevationOrtho this)
    (elevationPosition this) (elevationTarget this) (isoControl this)
    (elevationControl this) (engine this) (listeners this) (calls this).

Definition set_planOrthoTop (this : SceneController) (v : number) : SceneController :=
  mkSceneController
    (buildings this) (activeTool this) (selectedMesh this) (previewMesh this)
    (ghosts this) (backgroundPlane this) (isDragging this) (dragTarget this)
    (draggingBuilding this) (draggingHandleType this) (dragOrigin this)
    (handles this) (currentElevationDir this) (elevationZoom this)
    (activeViewport this) (isAppDragging this) v (elevationOrtho this)
    (elevationPosition this) (elevationTarget this) (isoControl this)
    (elevationControl this) (engine this) (listeners this) (calls this).

Definition set_elevationOrtho (this : SceneController) (v : Ortho) : SceneController :=
  mkSceneController
    (buildings this) (activeTool this) (selectedMesh this) (previewMesh this)
    (ghosts this) (backgroundPlane this) (isDragging this) (dragTarget this)
    (draggingBuilding this) (draggingHandleType this) (dragOrigin this)
    (handles this) (currentElevationDir this) (elevationZoom this)
    (activeViewport this) (isAppDragging this) (planOrthoTop this) v
    (elevationPosition this) (elevationTarget this) (isoControl this)
    (elevationControl this) (engine this) (listeners this) (calls this).

Definition set_elevationPosition (this : SceneController) (v : Vector3.t) : SceneController :=
  mkSceneController
    (buildings this) (activeTool this) (selectedMesh this) (previewMesh this)
    (ghosts this) (backgroundPlane this) (isDragging this) (dragTarget this)
    (draggingBuilding this) (draggingHandleType this) (dragOrigin this)
    (handles this) (currentElevationDir this) (elevationZoom this)
    (activeViewport this) (isAppDragging this) (planOrthoTop this)
    (elevationOrtho this) v (elevationTarget this) (isoControl this)
    (elevationControl this) (engine this) (listeners this) (calls this).

Definition set_elevationTarget (this : SceneController) (v : Vector3.t) : SceneController :=
  mkSceneController
    (buildings this) (activeTool this) (selectedMesh this) (previewMesh this)
    (ghosts this) (backgroundPlane this) (isDragging this) (dragTarget this)
    (draggingBuilding this) (draggingHandleType this) (dragOrigin this)
    (handles this) (currentElevationDir this) (elevationZoom this)
    (activeViewport this) (isAppDragging this) (planOrthoTop this)
    (elevationOrtho this) (elevationPosition this) v (isoControl this)
    (elevationControl this) (engine this) (listeners this) (calls this).

Definition set_isoControl (this : SceneController) (v : bool) : SceneController :=
  mkSceneController
    (buildings this) (activeTool this) (selectedMesh this) (previewMesh this)
    (ghosts this) (backgroundPlane this) (isDragging this) (dragTarget this)
    (draggingBuilding this) (draggingHandleType this) (dragOrigin this)
    (handles this) (currentElevationDir this) (elevationZoom this)
    (activeViewport this) (isAppDragging this) (planOrthoTop this)
    (elevationOrtho this) (elevationPosition this) (elevationTarget this) v
    (elevationControl this) (engine this) (listeners this) (calls this).

Definition set_elevationControl (this : SceneController) (v : bool) : SceneController :=
  mkSceneController
    (buildings this) (activeTool this) (selectedMesh this) (previewMesh this)
    (ghosts this) (backgroundPlane this) (isDragging this) (dragTarget this)
    (draggingBuilding this) (draggingHandleType this) (dragOrigin this)
    (handles this) (currentElevationDir this) (elevationZoom this)
    (activeViewport this) (isAppDragging this) (planOrthoTop this)
    (elevationOrtho this) (elevationPosition this) (elevationTarget this)
    (isoControl this) v (engine this) (listeners this) (calls this).

Definition set_engine (this : SceneController) (v : Engine) : SceneController :=
  mkSceneController
    (buildings this) (activeTool this) (selectedMesh this) (previewMesh this)
    (ghosts this) (backgroundPlane this) (isDragging this) (dragTarget this)
    (draggingBuilding this) (draggingHandleType this) (dragOrigin this)
    (handles this) (currentElevationDir this) (elevationZoom this)
    (activeViewport this) (isAppDragging this) (planOrthoTop this)
    (elevationOrtho this) (elevationPosition this) (elevationTarget this)
    (isoControl this) (elevationControl this) v (listeners this) (calls this).

Definition set_listeners (this : SceneController) (v : Listeners) : SceneController :=
  mkSceneController
    (buildings this) (activeTool this) (selectedMesh this) (previewMesh this)
    (ghosts this) (backgroundPlane this) (isDragging this) (dragTarget this)
    (draggingBuilding this) (draggingHandleType this) (dragOrigin this)
    (handles this) (currentElevationDir this) (elevationZoom this)
    (activeViewport this) (isAppDragging this) (planOrthoTop this)
    (elevationOrtho this) (elevationPosition this) (elevationTarget this)
    (isoControl this) (elevationControl this) (engine this) v (calls this).

Definition set_calls (this : SceneController) (v : list Call) : SceneController :=
  mkSceneController
    (buildings this) (activeTool this) (selectedMesh this) (previewMesh this)
    (ghosts this) (backgroundPlane this) (isDragging this) (dragTarget this)
    (draggingBuilding this) (draggingHandleType this) (dragOrigin this)
    (handles this) (currentElevationDir this) (elevationZoom this)
    (activeViewport this) (isAppDragging this) (planOrthoTop this)
    (elevationOrtho this) (elevationPosition this) (elevationTarget this)
    (isoControl this) (elevationControl this) (engine this) (listeners this) v.

(** Invoke a callback: nothing happens without a listener. *)
Definition invoke (installed : bool) (call : Call) (this : SceneController)
  : SceneController :=
  if installed then set_calls this (calls this ++ [call]) else this.

(** The root a reference stands for, if any. *)
Definition deref (this : SceneController) (r : Root) : option Building :=
  match r with
  | Stored i => buildings this !! i
  | Ghost k => ghosts this !! k
  end.

(** The root [selectedMesh] refers to, if any. *)
Definition selected (this : SceneController) : option Building :=
  match selectedMesh this with
  | Some r => deref this r
  | None => None
  end.

(** A write through a reference reaches the store or the ghosts. *)
Definition assign (r : Root) (b : Building) (this : SceneController)
  : SceneController :=
  match r with
  | Stored i => set_buildings this (<[i := b]> (buildings this))
  | Ghost k => set_ghosts this (<[k := b]> (ghosts this))
  end.

Definition MIN_SIZE : number := 1.

(** The local bounding box [minX, maxX] x [minZ, maxZ] of a building. *)
Record Bounds : Type := mkBounds {
  minX : number; maxX : number; minZ : number; maxZ : number
}.

Definition index_is (index : option nat) (n : nat) : bool :=
  match index with Some k => Nat.eqb k n | None => false end.

(** The bounds update of [handleResize] (the block "Update boundaries with
    strict clamping"): the box centred at the origin, with the edges the
    handle owns moved to the local pick point and clamped. The [if]s run in
    source order, each seeing the edges set before it. *)
Definition resizeBounds (handleType : option HandleType) (index : option nat)
    (localPickPoint : Vector3.t) (currentWidth currentDepth : number) : Bounds :=
  let halfWidth := currentWidth / 2 in
  let halfDepth := currentDepth / 2 in
  let minX := - halfWidth in
  let maxX := halfWidth in
  let minZ := - halfDepth in
  let maxZ := halfDepth in
  match handleType with
  | Some corner =>
      let minX := if index_is index 0 || index_is index 3
                  then Qmin (Vector3.x localPickPoint) (maxX - MIN_SIZE) else minX in
      let maxX := if index_is index 1 || index_is index 2
                  then Qmax (Vector3.x localPickPoint) (minX + MIN_SIZE) else maxX in
      let minZ := if index_is index 0 || index_is index 1
                  then Qmin (Vector3.z localPickPoint) (maxZ - MIN_SIZE) else minZ in
      let maxZ := if index_is index 2 || index_is index 3
                  then Qmax (Vector3.z localPickPoint) (minZ + MIN_SIZE) else maxZ in
      mkBounds minX maxX minZ maxZ
  | Some edge_width =>
      if index_is index 0
      then mkBounds (Qmin (Vector3.x localPickPoint) (maxX - MIN_SIZE)) maxX minZ maxZ
      else mkBounds minX (Qmax (Vector3.x localPickPoint) (minX + MIN_SIZE)) minZ maxZ
  | Some edge_depth =>
      if index_is index 0
      then mkBounds minX maxX (Qmin (Vector3.z localPickPoint) (maxZ - MIN_SIZE)) maxZ
      else mkBounds minX maxX minZ (Qmax (Vector3.z localPickPoint) (minZ + MIN_SIZE))
  | _ => mkBounds minX maxX minZ maxZ
  end.

(** ** Methods of the controller *)

Section Controller.

(** [Math.cos], [Math.sin] (inside Babylon's rotation matrix) and
    [Math.atan2]. *)
Variables cos sin : number -> number.
Variable atan2 : number -> number -> number.

(** [mesh.getWorldMatrix()] of a root. *)
Definition getWorldMatrix (b : Building) : Matrix.t :=
  Matrix.mk (cos (rotationY b)) (sin (rotationY b))
            (Vector3.x (position b)) (Vector3.y (position b))
            (Vector3.z (position b)).

(** A wall or roof solid under root [r], centred at height [y]. *)
Definition solid (r : Root) (y : number) : Mesh.t :=
  Mesh.mk (Vector3.mk 0 y 0) (Some r) true true MASK_DEFAULT
    (Mesh.mkMetadata (Some building) None None None None None false) false.

(** [rebuildMesh(root)]: the old solids are disposed, a wall box and a
    roof are built from the metadata (only their placement is kept). The
    handles under a selected root are disposed with its solids; every caller
    with a selected root goes on to [createHandles], which replaces them. *)
Definition rebuildMesh (r : Root) (root : Building) : Building :=
  let md := metadata root in
  let base := solid r (height md / 2) in
  let roof :=
    match roofType md with
    | Flat => solid r (height md + 0.25)
    | Gable => solid r (height md)
    end in
  set_children root [base; roof].

Definition standardHandle (r : Root) (pos : Vector3.t) (ht : HandleType)
    (idx : nat) (baseScale : number) : Mesh.t :=
  Mesh.mk pos (Some r) true true MASK_PLAN
    (Mesh.mkMetadata (Some handle) (Some ht) (Some idx) None (Some baseScale)
       None false) false.

Definition guideLine (r : Root) (subType : GuideSubType) (active : bool) : Mesh.t :=
  Mesh.mk Vector3.Zero (Some r) active true MASK_ELEVATION
    (Mesh.mkMetadata (Some handle) (Some guide) None (Some subType) None
       (Some active) false) false.

Definition guideCollider (r : Root) (y : number) (subType : GuideSubType) : Mesh.t :=
  Mesh.mk (Vector3.mk 0 y 0) (Some r) true true MASK_ELEVATION
    (Mesh.mkMetadata (Some handle) (Some guide) None (Some subType) None
       None true) false.

(** [createLevelGuide]: dashed X/Z lines, solid X/Z lines (hidden), and
    the two colliders, in the order they are pushed. *)
Definition createLevelGuide (r : Root) (y : number) (subType : GuideSubType)
  : list Mesh.t :=
  [ guideLine r subType true; guideLine r subType true;
    guideLine r subType false; guideLine r subType false;
    guideCollider r y subType; guideCollider r y subType ].

Definition createHandles (this : SceneController) : SceneController :=
  match selectedMesh this, selected this with
  | Some r, Some b =>
      let md := metadata b in
      let w := width md in
      let d := depth md in
      let yPos := height md + slope md + 1 in
      let currentOrtho := or_default (planOrthoTop this) 30 in
      let baseScale := currentOrtho / 30 in
      let corners :=
        imap (fun idx pos => standardHandle r pos corner idx baseScale)
          [ Vector3.mk (- w / 2) yPos (- d / 2);
            Vector3.mk (w / 2) yPos (- d / 2);
            Vector3.mk (w / 2) yPos (d / 2);
            Vector3.mk (- w / 2) yPos (d / 2) ] in
      let widthHandles :=
        imap (fun idx pos => standardHandle r pos edge_width idx baseScale)
          [ Vector3.mk (- w / 2) yPos 0; Vector3.mk (w / 2) yPos 0 ] in
      let depthHandles :=
        imap (fun idx pos => standardHandle r pos edge_depth idx baseScale)
          [ Vector3.mk 0 yPos (- d / 2); Vector3.mk 0 yPos (d / 2) ] in
      let rotateHandle :=
        standardHandle r (Vector3.mk 0 yPos (d / 2 + 4 * baseScale)) rotate 0
          baseScale in
      let guides :=
        createLevelGuide r (height md) eaves ++
        match roofType md with
        | Gable => createLevelGuide r (height md + slope md) ridge
        | Flat => []
        end in
      set_handles this
        (corners ++ widthHandles ++ depthHandles ++ [rotateHandle] ++ guides)
  | _, _ => set_handles this []
  end.

Definition updateElevationCamera (this : SceneController) : SceneController :=
  let target :=
    match selected this with
    | Some b => position b
    | None => Vector3.Zero
    end in
  let dist := 100 in
  let offset :=
    match currentElevationDir this with
    | N => Vector3.mk 0 0 dist
    | S => Vector3.mk 0 0 (- dist)
    | E => Vector3.mk dist 0 0
    | W => Vector3.mk (- dist) 0 0
    end in
  set_elevationTarget
    (set_elevationPosition this (Vector3.add target offset)) target.

Definition notifyDimensions (this : SceneController) : SceneController :=
  match selected this with
  | Some b =>
      let md := metadata b in
      invoke (has_onDimensionsChange (listeners this))
        (onDimensionsChange (width md) (depth md) (height md) (slope md)) this
  | None => this
  end.

Definition FULL_MASK : Z := Z.lor (Z.lor MASK_PLAN MASK_ISO) MASK_ELEVATION.
Definition PLAN_ISO_MASK : Z := Z.lor MASK_PLAN MASK_ISO.

Definition maskBuilding (mask : Z) (b : Building) : Building :=
  set_children (set_layerMask b mask)
    ((fun c => Mesh.set_layerMask c mask) <$> children b).

(** [selectBuilding(mesh)], on the root the picked mesh resolves to. The
    masks are set on the buildings of the store only. *)
Definition selectBuilding (root : option Root) (this : SceneController)
  : SceneController :=
  if decide (selectedMesh this = root) then this
  else
    let this := set_selectedMesh this root in
    let this :=
      set_buildings this
        (imap (fun j b =>
                 maskBuilding
                   (if decide (Some (Stored j) = root)
                    then FULL_MASK else PLAN_ISO_MASK) b)
              (buildings this)) in
    let this := createHandles this in
    let this := updateElevationCamera this in
    let this := notifyDimensions this in
    invoke (has_onSelectionChange (listeners this)) (onSelectionChange root) this.

Definition createBuilding (pos : Vector3.t) (type : RoofType)
    (this : SceneController) : SceneController :=
  let i := length (buildings this) in
  let md :=
    mkBuildingMetadata type 10 6
      (match type with Flat => 5 | Gable => 4 end)
      (match type with Flat => 25 | Gable => 2 end) in
  let root := mkBuilding (Vector3.set_y pos 0) 0 MASK_DEFAULT md [] in
  let root := rebuildMesh (Stored i) root in
  let root := maskBuilding PLAN_ISO_MASK root in
  let this := set_buildings this (buildings this ++ [root]) in
  selectBuilding (Some (Stored i)) this.

Definition same_handle (handleType : option HandleType) (index : option nat)
    (h : Mesh.t) : bool :=
  match handleType, Mesh.handleType (Mesh.metadata h) with
  | Some a, Some b => HandleType_eqb a b
  | _, _ => false
  end &&
  match index, Mesh.index (Mesh.metadata h) with
  | Some a, Some b => Nat.eqb a b
  | _, _ => false
  end.

Definition handleResize (pickPoint : Vector3.t) (this : SceneController)
  : SceneController :=
  match selectedMesh this, selected this, dragTarget this with
  | Some r, Some b, Some target =>
      let handleType := Mesh.handleType (Mesh.metadata target) in
      let index := Mesh.index (Mesh.metadata target) in
      (* Transform pickPoint to local space *)
      let inverseWorldMatrix := Matrix.invert (getWorldMatrix b) in
      let localPickPoint :=
        Matrix.TransformCoordinates pickPoint inverseWorldMatrix in
      (* Current local boundaries, updated with strict clamping *)
      let currentWidth := width (metadata b) in
      let currentDepth := depth (metadata b) in
      let bounds :=
        resizeBounds handleType index localPickPoint currentWidth currentDepth in
      (* Apply new dimensions *)
      let newWidth := maxX bounds - minX bounds in
      let newDepth := maxZ bounds - minZ bounds in
      let localShift :=
        Vector3.mk ((minX bounds + maxX bounds) / 2) 0
                   ((minZ bounds + maxZ bounds) / 2) in
      let worldShift := Matrix.TransformNormal localShift (getWorldMatrix b) in
      let b := set_metadata b (set_depth (set_width (metadata b) newWidth) newDepth) in
      let b := set_position b (Vector3.add (position b) worldShift) in
      let b := rebuildMesh r b in
      let this := assign r b this in
      let this := createHandles this in
      let this := notifyDimensions this in
      (* Update dragTarget to the new handle instance *)
      if isDragging this && bool_decide (is_Some handleType)
         && bool_decide (is_Some index)
      then
        match List.find (same_handle handleType index) (handles this) with
        | Some newHandle => set_dragTarget this (Some newHandle)
        | None => this
        end
      else this
  | _, _, _ => this
  end.

Definition setTool (tool : Tool) (this : SceneController) : SceneController :=
  let this := set_activeTool this tool in
  invoke (has_onToolChange (listeners this)) (onToolChange tool) this.

(** Write new metadata to the selected root [r], then rebuild its solids
    and the handles, as every setter does. *)
Definition commitMetadata (r : Root) (b : Building) (md : BuildingMetadata)
    (this : SceneController) : SceneController :=
  let b := rebuildMesh r (set_metadata b md) in
  createHandles (assign r b this).

Definition setSlope (slope : number) (this : SceneController) : SceneController :=
  match selectedMesh this, selected this with
  | Some r, Some b =>
      if RoofType_eqb (roofType (metadata b)) Gable then
        let limitedSlope := Qmax 0.5 (Qmin 30 slope) in
        let this := commitMetadata r b (set_slope (metadata b) limitedSlope) this in
        invoke (has_onSlopeChange (listeners this)) (onSlopeChange slope) this
      else this
  | _, _ => this
  end.

Definition setElevationView (direction : ElevationDir) (this : SceneController)
  : SceneController :=
  updateElevationCamera (set_currentElevationDir this direction).

Definition setEavesHeight (newHeight : number) (this : SceneController)
  : SceneController :=
  match selectedMesh this, selected this with
  | Some r, Some b =>
      let oldHeight := height (metadata b) in
      let oldSlope := slope (metadata b) in
      let top := oldHeight + oldSlope in
      (* Clamp height so it doesn't push the top up *)
      let maxAllowedHeight := top - 0.5 in
      let clampedHeight := Qmin newHeight maxAllowedHeight in
      let newSlope := top - clampedHeight in
      let md := set_slope (set_height (metadata b) clampedHeight) newSlope in
      notifyDimensions (commitMetadata r b md this)
  | _, _ => this
  end.

Definition setRidgeHeight (newTop : number) (this : SceneController)
  : SceneController :=
  match selectedMesh this, selected this with
  | Some r, Some b =>
      let height := height (metadata b) in
      let newSlope := newTop - height in
      let newSlope := if Qlt_le_dec newSlope 0.5 then 0.5 else newSlope in
      notifyDimensions (commitMetadata r b (set_slope (metadata b) newSlope) this)
  | _, _ => this
  end.

(** ** Viewport routing *)

(** The viewport under a canvas-relative pointer position, as computed at
    the top of [handlePointer] and in [refreshInput]. *)
Definition isPlanView (canvas : Canvas) (x : number) : bool :=
  if Qlt_le_dec x (clientWidth canvas * 0.65) then true else false.

Definition isElevationView (canvas : Canvas) (x y : number) : bool :=
  negb (isPlanView canvas x)
  && (if Qlt_le_dec (clientHeight canvas * 0.5) y then true else false).

Definition newViewport (canvas : Canvas) (x y : number) : ViewportName :=
  if isPlanView canvas x then plan
  else if isElevationView canvas x y then elevation
  else iso.

(** Detach both free cameras, then attach the one of the viewport. *)
Definition attachActive (viewport : ViewportName) (this : SceneController)
  : SceneController :=
  let this := set_isoControl this false in
  let this := set_elevationControl this false in
  match viewport with
  | iso => set_isoControl this true
  | elevation => set_elevationControl this true
  | _ => this
  end.

(** [refreshInput()]; [x] and [y] are [scene.pointerX], [scene.pointerY]. *)
Definition refreshInput (x y : number) (this : SceneController)
  : SceneController :=
  match getRenderingCanvas (engine this) with
  | None => this
  | Some canvas =>
      let viewport := newViewport canvas x y in
      let this := set_activeViewport this viewport in
      let this := attachActive viewport this in
      invoke (has_onActiveViewportChange (listeners this))
        (onActiveViewportChange viewport) this
  end.

(** ** Picking *)

(** What a successful [scene.pickWithRay] reports. *)
Record PickingInfo : Type := mkPickingInfo {
  distance : number;
  pickedPoint : Vector3.t;
  pickedMesh : Mesh.t
}.

(** One iteration of Babylon's [pickWithRay] loop over [scene.meshes]: a
    mesh rejected by the predicate or missed by the ray is skipped, and so
    is a hit that is not strictly nearer than the best one so far. [ray]
    gives the distance and point at which the picking ray meets a mesh. *)
Definition pickStep (ray : Mesh.t -> option (number * Vector3.t))
    (predicate : Mesh.t -> bool) (pickingInfo : option PickingInfo)
    (mesh : Mesh.t) : option PickingInfo :=
  if predicate mesh then
    match ray mesh with
    | None => pickingInfo
    | Some (d, p) =>
        match pickingInfo with
        | Some best =>
            if Qle_bool (distance best) d then pickingInfo
            else Some (mkPickingInfo d p mesh)
        | None => Some (mkPickingInfo d p mesh)
        end
    end
  else pickingInfo.

Definition pickWithRay (ray : Mesh.t -> option (number * Vector3.t))
    (predicate : Mesh.t -> bool) (meshes : list Mesh.t) : option PickingInfo :=
  fold_left (pickStep ray predicate) meshes None.

Definition isGuide (mesh : Mesh.t) : bool :=
  match Mesh.handleType (Mesh.metadata mesh) with
  | Some guide => true
  | _ => false
  end.

Definition isHandle (mesh : Mesh.t) : bool :=
  match Mesh.type (Mesh.metadata mesh) with
  | Some handle => true
  | _ => false
  end.

Definition isBuilding (mesh : Mesh.t) : bool :=
  match Mesh.type (Mesh.metadata mesh) with
  | Some building => true
  | _ => false
  end.

Definition maskVisible (camera : Camera) (mesh : Mesh.t) : bool :=
  negb (Z.land (Mesh.layerMask mesh) (Camera_layerMask camera) =? 0)%Z.

Definition isPlanCamera (camera : Camera) : bool :=
  match camera with planCamera => true | _ => false end.

(** Predicate of the priority pick: handles only, guides never in Plan. *)
Definition priorityPredicate (camera : Camera) (mesh : Mesh.t) : bool :=
  if isPlanCamera camera && isGuide mesh then false
  else
    (Mesh.isVisible mesh || isGuide mesh) && Mesh.isPickable mesh
    && isHandle mesh && maskVisible camera mesh.

(** Predicate of the fallback pick: everything the camera's mask shows. *)
Definition fallbackPredicate (camera : Camera) (mesh : Mesh.t) : bool :=
  maskVisible camera mesh.

(** The two-pass pick of [handlePointer]. *)
Definition pick (camera : Camera) (ray : Mesh.t -> option (number * Vector3.t))
    (meshes : list Mesh.t) : option PickingInfo :=
  match pickWithRay ray (priorityPredicate camera) meshes with
  | Some hit => Some hit
  | None => pickWithRay ray (fallbackPredicate camera) meshes
  end.

(** The ground grid of [createScene]: pickable, Iso only. *)
Definition ground : Mesh.t :=
  Mesh.mk Vector3.Zero None true true MASK_ISO Mesh.noMetadata false.

(** The plane [setBackgroundImage] lays under the buildings: not
    pickable, Plan only, without metadata. *)
Definition backgroundMesh : Mesh.t :=
  Mesh.mk (Vector3.mk 0 (- 0.1) 0) None true false MASK_PLAN Mesh.noMetadata
    false.

Definition inScene (mesh : Mesh.t) : bool := negb (Mesh.isDisposed mesh).

(** The meshes of [scene.meshes] a picking ray can meet: the ground, the
    background plane, the solids of every building and of every preview
    ghost, and the handles that are not disposed.  A pick with a predicate
    tests the predicate alone, so a mesh that is not pickable is listed as
    well.  The order is the one Babylon breaks a tie between two hits at the
    same distance with. *)
Definition sceneMeshes (this : SceneController) : list Mesh.t :=
  ground :: option_list (backgroundPlane this)
    ++ (buildings this ≫= children) ++ (ghosts this ≫= children)
    ++ List.filter inScene (handles this).

(** ** The render loop *)

(** The handle part of the callback on [onBeforeCameraRenderObservable],
    for one handle: the elevation camera shows the guide lines that are
    active and leaves the colliders alone, the other two cameras show every
    handle but the guides. *)
Definition showHandle (camera : Camera) (h : Mesh.t) : Mesh.t :=
  match camera with
  | elevationCamera =>
      (* In Elevation View, ONLY show guides *)
      if isGuide h then
        if Mesh.visualLines (Mesh.metadata h) then h
        else Mesh.set_isVisible h (default false (Mesh.isActive (Mesh.metadata h)))
      else Mesh.set_isVisible h false
  | _ =>
      (* In Plan/3D View, show everything EXCEPT guides *)
      Mesh.set_isVisible h (negb (isGuide h))
  end.

Definition beforeCameraRender (camera : Camera) (this : SceneController)
  : SceneController :=
  set_handles this (showHandle camera <$> handles this).

(** [scene.activeCameras], in the order they are rendered. *)
Definition activeCameras : list Camera := [planCamera; isoCamera; elevationCamera].

(** One frame of the render loop: the callback runs before each camera.
    What it writes besides ([visibility], [renderingGroupId]) is drawing
    state. *)
Definition render (this : SceneController) : SceneController :=
  fold_left (fun this camera => beforeCameraRender camera this) activeCameras this.

(** ** The pointer handler *)

Inductive PointerEventTypes : Set :=
  | POINTERDOWN | POINTERUP | POINTERMOVE | POINTERWHEEL
  | POINTERPICK | POINTERTAP | POINTERDOUBLETAP.

(** The drag plane of a move: the ground, or the plane through the
    selected building that faces the elevation camera. *)
Inductive DragPlane : Type :=
  | GroundPlane
  | FacingPlane (target eye : Vector3.t).

(** A pointer event. [castRay camera mesh] is where the picking ray of
    [camera] through the pointer meets [mesh]; [castPlane camera plane] is
    the point where it meets a drag plane at a non-zero distance. *)
Record PointerInfo : Type := mkPointerInfo {
  type : PointerEventTypes;
  offsetX : number;
  offsetY : number;
  button : Z;
  deltaY : number;
  castRay : Camera -> Mesh.t -> option (number * Vector3.t);
  castPlane : Camera -> DragPlane -> option Vector3.t
}.

(** The wheel branch: zoom of the Elevation view. *)
Definition zoomElevation (delta : number) (this : SceneController)
  : SceneController :=
  let zoomFactor := 0.001 in
  let zoom := elevationZoom this + delta * zoomFactor in
  (* Clamp zoom (smaller value = zoom in) *)
  let zoom := Qmax 0.1 (Qmin zoom 5) in
  let this := set_elevationZoom this zoom in
  (* Update ortho bounds *)
  let orthoSize := 30 * elevationZoom this in
  let ratio := getRenderWidth (engine this) / getRenderHeight (engine this) in
  set_elevationOrtho this
    (mkOrtho orthoSize (- orthoSize)
             (- orthoSize * 0.35 * ratio) (orthoSize * 0.35 * ratio)).

(** [mesh.absolutePosition] of a mesh hanging under a root. *)
Definition absolutePosition (this : SceneController) (mesh : Mesh.t) : Vector3.t :=
  match Mesh.parent mesh ≫= deref this with
  | Some b => Matrix.TransformCoordinates (Mesh.position mesh) (getWorldMatrix b)
  | None => Mesh.position mesh
  end.

Definition elevationLocked (handleType : option HandleType) : bool :=
  match handleType with
  | Some corner | Some edge_width | Some edge_depth | Some rotate => true
  | _ => false
  end.

(** Write through [selectedMesh], [draggingBuilding] or [previewMesh]. *)
Definition updateBuilding (r : Root) (f : Building -> Building)
    (this : SceneController) : SceneController :=
  match deref this r with
  | Some b => assign r (f b) this
  | None => this
  end.

(** [root.dispose()] of a preview root: its descendants are disposed with
    it, that is, its solids, which leave the scene, and, when it is the
    selected root, the handles, which [this.handles] keeps. *)
Definition disposeRoot (r : Root) (this : SceneController) : SceneController :=
  let this := updateBuilding r (fun root => set_children root []) this in
  set_handles this
    ((fun h => if bool_decide (Mesh.parent h = Some r) then Mesh.dispose h else h)
       <$> handles this).

(** [if (this.previewMesh) { this.previewMesh.dispose(); this.previewMesh = null; }] *)
Definition disposePreview (this : SceneController) : SceneController :=
  match previewMesh this with
  | Some k => set_previewMesh (disposeRoot (Ghost k) this) None
  | None => this
  end.

(** The preview root [handlePointer] creates as ghost [k]: the default
    dimensions, solids that are not pickable, Plan and Iso only. *)
Definition previewRoot (k : nat) (roofType : RoofType) : Building :=
  let root :=
    mkBuilding Vector3.Zero 0 MASK_DEFAULT
      (mkBuildingMetadata roofType 10 6 4 2) [] in
  let root := rebuildMesh (Ghost k) root in
  let root :=
    set_children root
      ((fun c => Mesh.set_isPickable c false) <$> children root) in
  (* Preview is visible in Plan and Iso *)
  maskBuilding PLAN_ISO_MASK root.

(** The add-tool branch of a move: a ghost of the tool's roof type is
    created unless there is one, replacing a ghost of the other roof type,
    and the ghost is put where the pick landed. *)
Definition movePreview (roofType' : RoofType) (hit : option PickingInfo)
    (this : SceneController) : SceneController :=
  (* Create preview mesh *)
  let current :=
    match previewMesh this ≫= (fun k => ghosts this !! k) with
    | Some ghost => RoofType_eqb (roofType (metadata ghost)) roofType'
    | None => false
    end in
  let this :=
    if current then this
    else
      let this := disposePreview this in
      let k := length (ghosts this) in
      set_previewMesh
        (set_ghosts this (ghosts this ++ [previewRoot k roofType'])) (Some k) in
  match hit, previewMesh this with
  | Some hit, Some k =>
      updateBuilding (Ghost k)
        (fun ghost => set_position ghost (Vector3.set_y (pickedPoint hit) 0)) this
  | _, _ => this
  end.

Definition pointerDown (isPlan : bool) (evtButton : Z)
    (hit : option PickingInfo) (this : SceneController) : SceneController :=
  if negb (evtButton =? 0)%Z then this
  else
    match activeTool this, hit with
    | _, None => this
    | add_flat, Some hit =>
        disposePreview
          (setTool select (createBuilding (pickedPoint hit) Flat this))
    | add_gable, Some hit =>
        disposePreview
          (setTool select (createBuilding (pickedPoint hit) Gable this))
    | select, Some hit =>
        let mesh := pickedMesh hit in
        match Mesh.type (Mesh.metadata mesh) with
        | Some handle =>
            let handleType := Mesh.handleType (Mesh.metadata mesh) in
            (* Scaling and rotation handles are disabled in Elevation *)
            if ViewportName_eqb (activeViewport this) elevation
               && elevationLocked handleType
            then this
            else
              let this := set_isDragging this true in
              let this := set_dragTarget this (Some mesh) in
              let this :=
                set_draggingHandleType this (Some (default corner handleType)) in
              let this := set_isoControl this false in
              set_dragOrigin this
                (Some (Vector3.subtract (absolutePosition this mesh)
                         (pickedPoint hit)))
        | Some building =>
            let this := selectBuilding (Mesh.parent mesh) this in
            (* Relocate the building, in the Plan view only *)
            match isPlan, selectedMesh this, selected this with
            | true, Some r, Some b =>
                let this := set_isDragging this true in
                let this := set_draggingBuilding this (Some r) in
                let this := set_dragTarget this None in
                let this := set_isoControl this false in
                set_dragOrigin this
                  (Some (Vector3.subtract (Vector3.set_y (position b) 0)
                           (pickedPoint hit)))
            | _, _, _ => this
            end
        | _ => selectBuilding None this
        end
    end.

Definition pointerUp (this : SceneController) : SceneController :=
  if isDragging this then
    let this := set_isDragging this false in
    let this := set_dragTarget this None in
    let this := set_draggingBuilding this None in
    let this := set_draggingHandleType this None in
    let this := set_dragOrigin this None in
    set_isoControl this true
  else this.

(** The drag point of a move: the picking ray against the drag plane of
    the active view, shifted by [dragOrigin]. *)
Definition currentDragPoint (camera : Camera) (pointerInfo : PointerInfo)
    (this : SceneController) : option Vector3.t :=
  (* Determine the drag plane based on the view *)
  let dragPlane :=
    match ViewportName_eqb (activeViewport this) elevation, selected this with
    | true, Some b => FacingPlane (position b) (elevationPosition this)
    | _, _ => GroundPlane
    end in
  let dragPoint := castPlane pointerInfo camera dragPlane in
  match dragPoint, dragOrigin this with
  | Some p, Some o => Some (Vector3.add p o)
  | _, _ => dragPoint
  end.

(** The move branch, after the hover feedback: an add tool moves the
    preview ghost to the pick, the select tool carries on a drag. *)
Definition pointerMove (camera : Camera) (pointerInfo : PointerInfo)
    (hit : option PickingInfo) (this : SceneController) : SceneController :=
  match activeTool this with
  | add_flat => movePreview Flat hit this
  | add_gable => movePreview Gable hit this
  | select =>
      if isDragging this then
        match dragTarget this, currentDragPoint camera pointerInfo this with
        | Some _, Some dragPoint =>
            match draggingHandleType this with
            | Some corner | Some edge_width | Some edge_depth =>
                notifyDimensions
                  (updateElevationCamera (handleResize dragPoint this))
            | Some rotate =>
                match selectedMesh this, selected this with
                | Some r, Some b =>
                    let dx := Vector3.x dragPoint - Vector3.x (position b) in
                    let dz := Vector3.z dragPoint - Vector3.z (position b) in
                    let angle := atan2 dx dz in
                    updateBuilding r (fun b => set_rotationY b angle) this
                | _, _ => this
                end
            | Some height_eaves => setEavesHeight (Vector3.y dragPoint) this
            | Some height_ridge => setRidgeHeight (Vector3.y dragPoint) this
            | _ => this
            end
        | _, dragPoint =>
            match draggingBuilding this, dragPoint with
            | Some j, Some dragPoint =>
                (* Relocate building logic *)
                let move b :=
                  set_position b
                    (Vector3.set_z
                       (Vector3.set_x (position b) (Vector3.x dragPoint))
                       (Vector3.z dragPoint)) in
                updateElevationCamera (updateBuilding j move this)
            | _, _ => this
            end
        end
      else this
  end.

Definition handlePointer (pointerInfo : PointerInfo) (this : SceneController)
  : SceneController :=
  match getRenderingCanvas (engine this) with
  | None => this
  | Some canvas =>
      let isPlan := isPlanView canvas (offsetX pointerInfo) in
      let isElevation :=
        isElevationView canvas (offsetX pointerInfo) (offsetY pointerInfo) in
      (* Input switching, blocked while the application drags a guide *)
      let viewport :=
        newViewport canvas (offsetX pointerInfo) (offsetY pointerInfo) in
      let this :=
        if negb (isAppDragging this)
           && negb (ViewportName_eqb (activeViewport this) viewport)
        then
          let this := set_activeViewport this viewport in
          let this :=
            invoke (has_onActiveViewportChange (listeners this))
              (onActiveViewportChange viewport) this in
          attachActive viewport this
        else this in
      (* Pick the active camera for ray casting *)
      let camera :=
        if isPlan then planCamera
        else if isElevation then elevationCamera
        else isoCamera in
      match type pointerInfo, isElevation with
      | POINTERWHEEL, true => zoomElevation (deltaY pointerInfo) this
      | _, _ =>
          let hit := pick camera (castRay pointerInfo camera) (sceneMeshes this) in
          match type pointerInfo with
          | POINTERDOWN => pointerDown isPlan (button pointerInfo) hit this
          | POINTERUP => pointerUp this
          | POINTERMOVE => pointerMove camera pointerInfo hit this
          | _ => this
          end
      end
  end.

End Controller.

(** * The plan camera fit, the overlay report and the UI components *)

(** ** Fitting the plan camera ([updatePlanViewportAspectRatio],
    [setBackgroundImage]) *)

(** The ratio [updatePlanViewportAspectRatio] reports: the plan viewport
    takes 0.65 of the render width and all of the render height. *)
Definition planViewportAspectRatio (engine : Engine) : number :=
  let planViewportWidth := getRenderWidth engine * 0.65 in
  let planViewportHeight := getRenderHeight engine * 1.0 in
  planViewportWidth / planViewportHeight.

(** The four ortho bounds [setBackgroundImage] writes to the plan camera
    for an image of [width] x [height] metres. *)
Definition backgroundOrtho (engine : Engine) (width height : number) : Ortho :=
  let ratio := getRenderWidth engine / getRenderHeight engine in
  (* The plan viewport is 0.65 wide *)
  let viewportRatio := ratio * 0.65 in
  let imageAspect := width / height in
  let newOrthoTop :=
    if Qlt_le_dec viewportRatio imageAspect
    then (* Width constrained *) ((width / 2) * 1.1) / viewportRatio
    else (* Height constrained *) (height / 2) * 1.1 in
  mkOrtho newOrthoTop (- newOrthoTop)
          (- newOrthoTop * viewportRatio) (newOrthoTop * viewportRatio).

(** [setBackgroundImage]: the old background plane is disposed and a new
    one laid out, and the plan camera is fitted to the image; of its four
    bounds the record keeps [orthoTop], which [createHandles] reads. *)
Definition setBackgroundImage (width height : number) (this : SceneController)
  : SceneController :=
  let this := set_backgroundPlane this (Some backgroundMesh) in
  set_planOrthoTop this (orthoTop (backgroundOrtho (engine this) width height)).

(** ** The overlay report ([updateGuidePositions]) *)

(** What [onGuidesPositionChange] receives. *)
Record GuideReport : Type := mkGuideReport {
  eavesPixel : option (number * number);
  ridgePixel : option (number * number);
  pixelsPerMeter : number
}.

(** [updateGuidePositions]. [installed] tells whether
    [onGuidesPositionChange] has a listener, [project] is Babylon's
    [Vector3.Project] through the elevation camera, [canvasHeight] is
    [canvas.height] and [devicePixelRatio] is [window.devicePixelRatio].
    The result is the report passed to the listener, [None] when it is not
    invoked. The elevation viewport is half the canvas high. *)
Definition updateGuidePositions (installed : bool)
    (project : Vector3.t -> Vector3.t) (canvasHeight devicePixelRatio : number)
    (this : SceneController) : option GuideReport :=
  if negb installed then None
  else
    match selected this with
    | None => Some (mkGuideReport None None 1)
    | Some b =>
        match getRenderingCanvas (engine this) with
        | None => None
        | Some _ =>
            let md := metadata b in
            let center := position b in
            let eavesPos :=
              Vector3.mk (Vector3.x center) (height md) (Vector3.z center) in
            let ridgeY :=
              match roofType md with
              | Flat => height md + 0.5
              | Gable => height md + slope md
              end in
            let ridgePos :=
              Vector3.mk (Vector3.x center) ridgeY (Vector3.z center) in
            let eavesScreen := project eavesPos in
            let ridgeScreen := project ridgePos in
            let dpr := or_default devicePixelRatio 1 in
            (* Pixels per metre, in CSS pixels *)
            let orthoHeight :=
              orthoTop (elevationOrtho this) - orthoBottom (elevationOrtho this) in
            let cssViewportHeight := (canvasHeight * 0.5) / dpr in
            let pixelsPerMeter := cssViewportHeight / orthoHeight in
            let toCssCoords (p : Vector3.t) :=
              (Vector3.x p / dpr, (canvasHeight - Vector3.y p) / dpr) in
            Some (mkGuideReport (Some (toCssCoords eavesScreen))
                    (Some (toCssCoords ridgeScreen)) pixelsPerMeter)
        end
    end.

(** ** Picking a guide ([pickGuide]) *)

(** [pickGuide(x, y)]. [ray] gives where the picking ray of the elevation
    camera through (x, y) meets a mesh; [scene.pick] with a predicate tests
    the predicate alone. *)
Definition pickGuide (ray : Mesh.t -> option (number * Vector3.t))
    (this : SceneController) : option GuideSubType :=
  (* Only pick if in Elevation View mode *)
  if negb (ViewportName_eqb (activeViewport this) elevation) then None
  else
    match pickWithRay ray isGuide (sceneMeshes this) with
    | Some hit => Mesh.subType (Mesh.metadata (pickedMesh hit))
    | None => None
    end.

(** ** The height drag of the application component *)

Module App.

Inductive DragMode : Set := debug | projected.

(** The React state the drag handlers of [App] close over. *)
Record t : Type := mk {
  draggingHandle : option GuideSubType;
  dragMode : DragMode;
  dragStartY : number;
  initialHeight : number;
  eavesHeight : number;
  ridgeHeight : number;
  roofType : RoofType;
  pixelsPerMeter : number
}.

(** The height [handleMove] asks the controller for: the start height
    plus the pointer travel in metres, clamped for the dragged guide. *)
Definition requestedHeight (app : t) (clientY : number) : number :=
  let pixelsPerMeter := or_default (pixelsPerMeter app) 1 in
  let pixelsPerMeter :=
    match dragMode app with
    | debug => 200 / 30
    | projected => pixelsPerMeter
    end in
  let deltaPixels := dragStartY app - clientY in
  let deltaMeters := deltaPixels / pixelsPerMeter in
  let newHeight := initialHeight app + deltaMeters in
  match draggingHandle app with
  | Some eaves =>
      (* Eaves max is ridge - 0.5 (unless flat) *)
      let maxEaves := Qmax 1 (ridgeHeight app - 0.5) in
      let maxEaves := match roofType app with Flat => 30 | Gable => maxEaves end in
      Qmax 1 (Qmin maxEaves newHeight)
  | _ =>
      (* Ridge min is eaves + 0.5 *)
      let minRidge := Qmin 30 (eavesHeight app + 0.5) in
      Qmax minRidge (Qmin 30 newHeight)
  end.

(** [handleMove] of the drag effect, on the controller. *)
Definition handleMove (app : t) (clientY : number) (controller : SceneController)
  : SceneController :=
  match draggingHandle app with
  | None => controller
  | Some eaves => setEavesHeight (requestedHeight app clientY) controller
  | Some ridge => setRidgeHeight (requestedHeight app clientY) controller
  end.

(** [startDrag] and [handleUp], on the controller: the application-drag
    flag is raised, then lowered and the input state refreshed at the
    pointer position [x], [y] of the scene. *)
Definition startDrag (controller : SceneController) : SceneController :=
  set_isAppDragging controller true.

Definition handleUp (x y : number) (controller : SceneController)
  : SceneController :=
  refreshInput x y (set_isAppDragging controller false).

(** [onSelectionChange] as [App] installs it: the React state takes the
    heights and the roof type of the newly selected building. *)
Definition onSelectionChange (mesh : option Building) (app : t) : t :=
  match mesh with
  | None => app
  | Some mesh =>
      match metadata mesh with
      | mkBuildingMetadata rType _ _ h s =>
          let s := or_default s 0 in
          mk (draggingHandle app) (dragMode app) (dragStartY app)
            (initialHeight app) h
            (match rType with Flat => 30 | Gable => h + s end)
            rType (pixelsPerMeter app)
      end
  end.

(** [onDimensionsChange] as [App] installs it: the React state follows
    the heights the controller reports; a flat roof shows its ridge at 30. *)
Definition onDimensionsChange (w d h s : number) (app : t) : t :=
  mk (draggingHandle app) (dragMode app) (dragStartY app)
    (initialHeight app) h
    (match roofType app with Flat => 30 | Gable => h + s end)
    (roofType app) (pixelsPerMeter app).

(** [startDrag], on the React state: the dragged guide, the mode, and
    where the drag starts from. *)
Definition beginDrag (type : GuideSubType) (clientY : number) (mode : DragMode)
    (app : t) : t :=
  let initial :=
    match type with
    | eaves => eavesHeight app
    | ridge => ridgeHeight app
    end in
  mk (Some type) mode clientY initial (eavesHeight app)
    (ridgeHeight app) (roofType app) (pixelsPerMeter app).

(** [handleCanvasDown]: a press on the canvas that hits a guide starts
    a projected drag of that guide. *)
Definition handleCanvasDown (ray : Mesh.t -> option (number * Vector3.t))
    (clientY : number) (app : t) (controller : SceneController)
  : t * SceneController :=
  match pickGuide ray controller with
  | Some type => (beginDrag type clientY projected app, startDrag controller)
  | None => (app, controller)
  end.

End App.

(** ** The elevation thumbnails ([ElevationSelector]) *)

Module ElevationSelector.

Record Props : Type := mkProps {
  width : number;
  depth : number;
  height : number;
  slope : number;
  roofType : RoofType
}.

(** The two closed SVG paths of a thumbnail, as their corner points. *)
Record Thumbnail : Type := mkThumbnail {
  basePath : list (number * number);
  roofPath : list (number * number)
}.

Definition BOX_SIZE : number := 180.
Definition PADDING : number := 20.

Definition SCALE (props : Props) : number :=
  let availableSize := BOX_SIZE - (PADDING * 2) in
  let totalH :=
    height props + match roofType props with Flat => 0.5 | Gable => slope props end in
  let maxDim := Qmax (Qmax (width props) (depth props)) totalH in
  let fitScale := availableSize / maxDim in
  Qmin 7.5 fitScale.

Definition renderThumbnail (props : Props) (viewDir : ElevationDir) : Thumbnail :=
  let isLongitudinal :=
    match viewDir with N | S => true | E | W => false end in
  let viewWidth := if isLongitudinal then width props else depth props in
  let isGableFace := negb isLongitudinal in
  let SCALE := SCALE props in
  let centerX := BOX_SIZE / 2 in
  let bottomY := BOX_SIZE - PADDING in
  (* Scaled dimensions *)
  let wPx := viewWidth * SCALE in
  let hPx := height props * SCALE in
  let sPx := slope props * SCALE in
  let roofH_Flat := 0.5 * SCALE in
  (* Base rectangle, centred *)
  let baseX := centerX - wPx / 2 in
  let baseY := bottomY - hPx in
  let basePath :=
    [ (baseX, bottomY); (baseX + wPx, bottomY); (baseX + wPx, baseY);
      (baseX, baseY) ] in
  let roofPath :=
    match roofType props with
    | Flat =>
        let roofY := baseY - roofH_Flat in
        let overhang := 0.5 * SCALE in
        [ (baseX - overhang, baseY); (baseX + wPx + overhang, baseY);
          (baseX + wPx + overhang, roofY); (baseX - overhang, roofY) ]
    | Gable =>
        if isGableFace then
          let apexX := centerX in
          let apexY := baseY - sPx in
          [ (baseX, baseY); (baseX + wPx, baseY); (apexX, apexY) ]
        else
          let roofTopY := baseY - sPx in
          [ (baseX, baseY); (baseX + wPx, baseY); (baseX + wPx, roofTopY);
            (baseX, roofTopY) ]
    end in
  mkThumbnail basePath roofPath.

End ElevationSelector.

(** ** The viewfinder of the map selector ([MapSelector]) *)

Module MapSelector.

(** The viewfinder size, in percent of the map width and height. *)
Record Viewfinder : Type := mkViewfinder { w : number; h : number }.

(** The initial viewfinder. *)
Definition initialViewfinder (planViewportAspectRatio : number) : Viewfinder :=
  mkViewfinder 60 (60 / planViewportAspectRatio).

(** [handleMove] of [startResize]: the width follows the pointer, the
    height is derived from the aspect ratio. [vw] is the map width. *)
Definition resize (planViewportAspectRatio startX startW vw clientX : number)
  : Viewfinder :=
  let dx := clientX - startX in
  let dW := (dx / vw) * 100 * 2 in
  let newW := Qmax 20 (Qmin 90 (startW + dW)) in
  let newH := newW / planViewportAspectRatio in
  mkViewfinder newW newH.

(** The crop rectangle of [handleConfirm], in pixels of the captured
    canvas. *)
Record Crop : Type := mkCrop {
  cropX : number; cropY : number; cropW : number; cropH : number
}.

Definition crop (vw vh canvasWidth canvasHeight : number) (viewfinderSize : Viewfinder)
  : Crop :=
  let scaleX := canvasWidth / vw in
  let scaleY := canvasHeight / vh in
  let cssCropW := (vw * w viewfinderSize) / 100 in
  let cssCropH := (vh * h viewfinderSize) / 100 in
  let cssCropX := (vw - cssCropW) / 2 in
  let cssCropY := (vh - cssCropH) / 2 in
  mkCrop (cssCropX * scaleX) (cssCropY * scaleY)
         (cssCropW * scaleX) (cssCropH * scaleY).

(** The real-world size handed to [onConfirm], from the size of the
    visible map in metres. *)
Definition finalMeters (mapWidthMeters mapHeightMeters : number)
    (viewfinderSize : Viewfinder) : number * number :=
  (mapWidthMeters * (w viewfinderSize / 100),
   mapHeightMeters * (h viewfinderSize / 100)).

End MapSelector.

(** * Notions used in the statements *)

(** [view] gathers what only the routing and zoom code writes: the active
    viewport, the elevation zoom and ortho bounds, the engine and the
    application-drag flag. Every other method leaves it alone. *)
Definition view (this : SceneController) :=
  (activeViewport this, elevationZoom this, elevationOrtho this, engine this,
   isAppDragging this).

(** The controller after the input-switching block of [handlePointer]. *)
Definition switchInput (viewport : ViewportName) (this : SceneController)
  : SceneController :=
  if negb (isAppDragging this)
     && negb (ViewportName_eqb (activeViewport this) viewport)
  then
    attachActive viewport
      (invoke (has_onActiveViewportChange (listeners (set_activeViewport this viewport)))
         (onActiveViewportChange viewport) (set_activeViewport this viewport))
  else this.

(** The camera [handlePointer] casts its rays with. *)
Definition cameraAt (canvas : Canvas) (x y : number) : Camera :=
  if isPlanView canvas x then planCamera
  else if isElevationView canvas x y then elevationCamera
  else isoCamera.

(** The root [handleResize] writes back for the selected root [b],
    given the local bounds [bo] it computed. *)
Definition resized (cos sin : number -> number) (r : Root) (b : Building)
    (bo : Bounds) : Building :=
  rebuildMesh r
    (set_position
       (set_metadata b
          (set_depth (set_width (metadata b) (maxX bo - minX bo))
             (maxZ bo - minZ bo)))
       (Vector3.add (position b)
          (Matrix.TransformNormal
             (Vector3.mk ((minX bo + maxX bo) / 2) 0 ((minZ bo + maxZ bo) / 2))
             (getWorldMatrix cos sin b)))).

(** The bounds [handleResize] computes for a pick point. *)
Definition boundsFor (cos sin : number -> number) (target : Mesh.t)
    (pickPoint : Vector3.t) (b : Building) : Bounds :=
  resizeBounds (Mesh.handleType (Mesh.metadata target))
    (Mesh.index (Mesh.metadata target))
    (Matrix.TransformCoordinates pickPoint
       (Matrix.invert (getWorldMatrix cos sin b)))
    (width (metadata b)) (depth (metadata b)).

(** The size invariant of the data model: every building is at least
    [MIN_SIZE] wide and deep. *)
Definition min_sized (b : Building) : Prop :=
  MIN_SIZE <= width (metadata b) /\ MIN_SIZE <= depth (metadata b).

Definition all_min_sized (this : SceneController) : Prop :=
  Forall min_sized (buildings this).

(** One resize move: the handle [move.1] is the drag target and the drag
    point is [move.2]. *)
Definition resizeMove (cos sin : number -> number)
    (move : Mesh.t * Vector3.t) (this : SceneController) : SceneController :=
  handleResize cos sin move.2 (set_dragTarget this (Some move.1)).

(** The height invariants of the data model: eaves at least 1, slope at
    least 0.5, ridge at most 30. *)
Definition healthy (md : BuildingMetadata) : Prop :=
  1 <= height md /\ 0.5 <= slope md /\ height md + slope md <= 30.

(** A point of a thumbnail lies within [lo, hi] on both axes. *)
Definition within (lo hi : number) (p : number * number) : Prop :=
  (lo <= p.1 /\ p.1 <= hi) /\ (lo <= p.2 /\ p.2 <= hi).

(** Pointer events in a row. *)
Definition handlePointers (cos sin : number -> number)
    (atan2 : number -> number -> number) (events : list PointerInfo)
    (this : SceneController) : SceneController :=
  fold_left (fun s e => handlePointer cos sin atan2 e s) events this.

(** ** Commands and runs

    Everything that drives the controller from outside: pointer events, the
    commands of its public interface, the frames of the render loop, and the
    three drag handlers of the application component. *)
Inductive Command : Type :=
  | Pointer (pointerInfo : PointerInfo)
  | SetTool (tool : Tool)
  | SetSlope (slope : number)
  | SetElevationView (direction : ElevationDir)
  | SetEavesHeight (newHeight : number)
  | SetRidgeHeight (newTop : number)
  | SetBackgroundImage (width height : number)
  | RefreshInput (x y : number)
  | Render
  | AppStartDrag
  | AppHandleMove (app : App.t) (clientY : number)
  | AppHandleUp (x y : number).

Definition execute (cos sin : number -> number)
    (atan2 : number -> number -> number) (command : Command)
    (this : SceneController) : SceneController :=
  match command with
  | Pointer pointerInfo => handlePointer cos sin atan2 pointerInfo this
  | SetTool tool => setTool tool this
  | SetSlope slope => setSlope slope this
  | SetElevationView direction => setElevationView direction this
  | SetEavesHeight newHeight => setEavesHeight newHeight this
  | SetRidgeHeight newTop => setRidgeHeight newTop this
  | SetBackgroundImage width height => setBackgroundImage width height this
  | RefreshInput x y => refreshInput x y this
  | Render => render this
  | AppStartDrag => App.startDrag this
  | AppHandleMove app clientY => App.handleMove app clientY this
  | AppHandleUp x y => App.handleUp x y this
  end.

(** ** The shape of the scene *)

(** A solid of root [r]: it hangs under the root, is tagged as a
    building, and is in the scene. *)
Definition solid_ok (r : Root) (c : Mesh.t) : Prop :=
  Mesh.parent c = Some r
  /\ Mesh.type (Mesh.metadata c) = Some building
  /\ Mesh.handleType (Mesh.metadata c) = None
  /\ Mesh.isDisposed c = false.

(** The handle kinds [createHandles] gives to the meshes it builds. *)
Definition sceneKind (kind : option HandleType) : bool :=
  match kind with
  | Some corner | Some edge_width | Some edge_depth | Some rotate | Some guide =>
      true
  | _ => false
  end.

(** A handle of the selection [sel]: it hangs under the selected root, is
    tagged as a handle of one of the kinds of [createHandles], and is shown
    by the elevation camera alone when it is a guide, by the plan camera
    alone otherwise. *)
Definition handle_ok (sel : option Root) (h : Mesh.t) : Prop :=
  Mesh.parent h = sel
  /\ Mesh.type (Mesh.metadata h) = Some handle
  /\ sceneKind (Mesh.handleType (Mesh.metadata h)) = true
  /\ Mesh.layerMask h = (if isGuide h then MASK_ELEVATION else MASK_PLAN).

(** Building [j] of the store under the selection [sel]: its solids are
    its own, and unless it is the selected one, root and solids carry the
    Plan + Iso mask. *)
Definition building_ok (sel : option Root) (j : nat) (b : Building) : Prop :=
  Forall (solid_ok (Stored j)) (children b)
  /\ (sel <> Some (Stored j) ->
      layerMask b = PLAN_ISO_MASK
      /\ Forall (fun c => Mesh.layerMask c = PLAN_ISO_MASK) (children b)).

(** The background plane, if any, is the one [setBackgroundImage] lays. *)
Definition plane_ok (p : option Mesh.t) : Prop :=
  p = None \/ p = Some backgroundMesh.

(** The shape of the scene: [selectedMesh], [draggingBuilding] and
    [previewMesh] refer to roots that exist, the solids of a root hang under
    it, a building of the store that is not selected carries the Plan + Iso
    mask, and the handles hang under the selected root. *)
Definition structured (this : SceneController) : Prop :=
  (forall r, selectedMesh this = Some r -> is_Some (deref this r))
  /\ (forall k, previewMesh this = Some k -> is_Some (ghosts this !! k))
  /\ (forall j b, buildings this !! j = Some b ->
        building_ok (selectedMesh this) j b)
  /\ (forall k g, ghosts this !! k = Some g ->
        Forall (solid_ok (Ghost k)) (children g))
  /\ Forall (handle_ok (selectedMesh this)) (handles this)
  /\ plane_ok (backgroundPlane this).

(** What [structured] reads of a controller. *)
Definition structure (this : SceneController) :=
  (buildings this, selectedMesh this, previewMesh this, ghosts this,
   handles this, backgroundPlane this).

(** ** Footprints

    The fields of the controller, named, so that what a method leaves
    alone can be stated once and used for every reading of the state. *)
Module Field.

Inductive t : Set :=
  | buildings | activeTool | selectedMesh | previewMesh | ghosts
  | backgroundPlane | isDragging | dragTarget
  | draggingBuilding | draggingHandleType | dragOrigin | handles
  | currentElevationDir | elevationZoom | activeViewport | isAppDragging
  | planOrthoTop | elevationOrtho | elevationPosition | elevationTarget
  | isoControl | elevationControl | engine | listeners | calls.

#[global] Instance eq_dec : EqDecision t.
Proof. solve_decision. Defined.

End Field.

Definition Field_type (f : Field.t) : Type :=
  match f with
  | Field.buildings => list Building
  | Field.activeTool => Tool
  | Field.selectedMesh => option Root
  | Field.previewMesh => option nat
  | Field.ghosts => list Building
  | Field.backgroundPlane => option Mesh.t
  | Field.isDragging => bool
  | Field.dragTarget => option Mesh.t
  | Field.draggingBuilding => option Root
  | Field.draggingHandleType => option HandleType
  | Field.dragOrigin => option Vector3.t
  | Field.handles => list Mesh.t
  | Field.currentElevationDir => ElevationDir
  | Field.elevationZoom => number
  | Field.activeViewport => ViewportName
  | Field.isAppDragging => bool
  | Field.planOrthoTop => number
  | Field.elevationOrtho => Ortho
  | Field.elevationPosition => Vector3.t
  | Field.elevationTarget => Vector3.t
  | Field.isoControl => bool
  | Field.elevationControl => bool
  | Field.engine => Engine
  | Field.listeners => Listeners
  | Field.calls => list Call
  end.

Definition field (f : Field.t) : SceneController -> Field_type f :=
  match f with
  | Field.buildings => buildings
  | Field.activeTool => activeTool
  | Field.selectedMesh => selectedMesh
  | Field.previewMesh => previewMesh
  | Field.ghosts => ghosts
  | Field.backgroundPlane => backgroundPlane
  | Field.isDragging => isDragging
  | Field.dragTarget => dragTarget
  | Field.draggingBuilding => draggingBuilding
  | Field.draggingHandleType => draggingHandleType
  | Field.dragOrigin => dragOrigin
  | Field.handles => handles
  | Field.currentElevationDir => currentElevationDir
  | Field.elevationZoom => elevationZoom
  | Field.activeViewport => activeViewport
  | Field.isAppDragging => isAppDragging
  | Field.planOrthoTop => planOrthoTop
  | Field.elevationOrtho => elevationOrtho
  | Field.elevationPosition => elevationPosition
  | Field.elevationTarget => elevationTarget
  | Field.isoControl => isoControl
  | Field.elevationControl => elevationControl
  | Field.engine => engine
  | Field.listeners => listeners
  | Field.calls => calls
  end.

(** [a] and [b] hold the same value in every field outside [touched]. *)
Definition same_outside (touched : list Field.t) (a b : SceneController) : Prop :=
  forall f, f ∉ touched -> field f a = field f b.

(** ** The drag state *)

(** The five fields of a drag. *)
Definition dragState (this : SceneController) :=
  (isDragging this, dragTarget this, draggingBuilding this,
   draggingHandleType this, dragOrigin this).

(** The drag fields are consistent: the kind of the dragged handle is one
    [createHandles] gives, and outside a drag every field is cleared. *)
Definition drag_ok (this : SceneController) : Prop :=
  (draggingHandleType this = None
   \/ sceneKind (draggingHandleType this) = true)
  /\ (isDragging this = false -> dragState this = (false, None, None, None, None)).

(** The roof type, eaves height and slope of every building, in the order
    of the store. *)
Definition levels (this : SceneController) : list (RoofType * number * number) :=
  (fun b => (roofType (metadata b), height (metadata b), slope (metadata b)))
    <$> buildings this.

(** The levels [createBuilding] gives a new building. *)
Definition newLevels (type : RoofType) : RoofType * number * number :=
  (type, match type with Flat => 5 | Gable => 4 end,
   match type with Flat => 25 | Gable => 2 end).

(** A building at least [MIN_SIZE] wide and deep whose ridge is at least
    half a metre above its eaves. *)
Definition sized (b : Building) : Prop :=
  MIN_SIZE <= width (metadata b) /\ MIN_SIZE <= depth (metadata b)
  /\ 0.5 <= slope (metadata b).

(** ** The aim of the elevation camera *)

(** The offset [updateElevationCamera] puts between its target and the
    camera, by elevation direction. *)
Definition elevationOffset (direction : ElevationDir) : Vector3.t :=
  let dist := 100 in
  match direction with
  | N => Vector3.mk 0 0 dist
  | S => Vector3.mk 0 0 (- dist)
  | E => Vector3.mk dist 0 0
  | W => Vector3.mk (- dist) 0 0
  end.

(** The elevation camera, as the controller last placed it, looks at the
    selected building (at the origin without a selection) from the side
    its direction names. *)
Definition aimed (this : SceneController) : Prop :=
  elevationTarget this = default Vector3.Zero (position <$> selected this)
  /\ elevationPosition this
     = Vector3.add (elevationTarget this)
         (elevationOffset (currentElevationDir this)).

(** What [aimed] reads of a controller. *)
Definition aim (this : SceneController) :=
  (position <$> selected this, currentElevationDir this,
   elevationPosition this, elevationTarget this).

(** A preview ghost is selected. *)
Definition ghostSelected (this : SceneController) : bool :=
  match selectedMesh this with
  | Some (Ghost _) => true
  | _ => false
  end.

(** The elevation camera stands where its direction puts it, and looks at
    the selection unless that is a preview ghost. *)
Definition followed (this : SceneController) : Prop :=
  elevationPosition this
  = Vector3.add (elevationTarget this)
      (elevationOffset (currentElevationDir this))
  /\ (ghostSelected this = false ->
      elevationTarget this = default Vector3.Zero (position <$> selected this)).

(** ** The zoom of the elevation camera *)

(** The zoom is within its range and the vertical ortho bounds of the
    elevation camera are 30 m times the zoom. *)
Definition zoomed (this : SceneController) : Prop :=
  0.1 <= elevationZoom this <= 5
  /\ orthoTop (elevationOrtho this) == 30 * elevationZoom this
  /\ orthoBottom (elevationOrtho this) == - (30 * elevationZoom this).

(** ** The input state *)

(** The active viewport, whether the elevation camera has control, and
    whether the application is dragging a guide. *)
Definition input (this : SceneController) :=
  (activeViewport this, elevationControl this, isAppDragging this).

(** The commands that end an application drag or refresh the input. *)
Definition releasesInput (command : Command) : bool :=
  match command with
  | RefreshInput _ _ | AppHandleUp _ _ => true
  | _ => false
  end.

(** The commands that set a height or the slope of the selection. *)
Definition writesDimensions (command : Command) : bool :=
  match command with
  | SetSlope _ | SetEavesHeight _ | SetRidgeHeight _ | AppHandleMove _ _ => true
  | _ => false
  end.

(** The kinds and indices of the nine handles [createHandles] places
    around a building: four corners, two handles per edge direction and
    the rotate handle. *)
Definition handleSlot (kind : HandleType) (index : nat) : bool :=
  match kind with
  | corner => (index <? 4)%nat
  | edge_width | edge_depth => (index <? 2)%nat
  | rotate => (index =? 0)%nat
  | _ => false
  end.

(** ** Placing a building *)

(** The add tool of a roof type. *)
Definition addTool (type : RoofType) : Tool :=
  match type with Flat => add_flat | Gable => add_gable end.

(** The building [createBuilding] stores for a pick point: at ground
    level, not rotated, with the default dimensions of its roof type, its
    solids built, and selected. *)
Definition newBuilding (i : nat) (pos : Vector3.t) (type : RoofType) : Building :=
  maskBuilding FULL_MASK
    (maskBuilding PLAN_ISO_MASK
       (rebuildMesh (Stored i)
          (mkBuilding (Vector3.set_y pos 0) 0 MASK_DEFAULT
             (mkBuildingMetadata type 10 6
                (match type with Flat => 5 | Gable => 4 end)
                (match type with Flat => 25 | Gable => 2 end)) []))).

(** ** Fresh handles *)

(** What [createHandles] reads of the selection. *)
Definition selection (this : SceneController) :=
  (selectedMesh this, metadata <$> selected this).

(** What only [createHandles] writes of a handle: everything but the
    visibility and the active flag, which the hover feedback and the
    render loop toggle, and the disposal of a handle with the root it
    hangs under. *)
Definition placement (h : Mesh.t) :=
  (Mesh.position h, Mesh.parent h, Mesh.isPickable h, Mesh.layerMask h,
   Mesh.type (Mesh.metadata h), Mesh.handleType (Mesh.metadata h),
   Mesh.index (Mesh.metadata h), Mesh.subType (Mesh.metadata h),
   Mesh.baseScale (Mesh.metadata h), Mesh.visualLines (Mesh.metadata h)).

(** The handles are placed as [createHandles] would place them now, for
    the current selection and its current dimensions, at some ortho size
    of the plan camera. *)
Definition fresh (this : SceneController) : Prop :=
  exists top,
    placement <$> handles this
    = placement <$> handles (createHandles (set_planOrthoTop this top)).

(** ** Corners *)

(** The local position [createHandles] gives corner handle [index] of a
    box [w] wide and [d] deep, at height [y]. *)
Definition cornerLocal (index : nat) (w d y : number) : Vector3.t :=
  match index with
  | 0%nat => Vector3.mk (- w / 2) y (- d / 2)
  | 1%nat => Vector3.mk (w / 2) y (- d / 2)
  | 2%nat => Vector3.mk (w / 2) y (d / 2)
  | _ => Vector3.mk (- w / 2) y (d / 2)
  end.

(** The pointer leaves the dragged corner [MIN_SIZE] away from the two
    opposite edges of a box [w] wide and [d] deep. *)
Definition unclamped (index : nat) (p : Vector3.t) (w d : number) : Prop :=
  (if Nat.eqb index 0 || Nat.eqb index 3
   then Vector3.x p <= w / 2 - MIN_SIZE else - (w / 2) + MIN_SIZE <= Vector3.x p)
  /\ (if Nat.eqb index 0 || Nat.eqb index 1
      then Vector3.z p <= d / 2 - MIN_SIZE else - (d / 2) + MIN_SIZE <= Vector3.z p).

(** * Concrete controllers and events *)

(** ** The controller after construction

    The state [createScene] leaves behind: no building, the select tool,
    zoom 1, both orthographic cameras at ortho size 30, the Iso camera in
    control, the elevation camera 100 m south of the origin. *)
Definition initialController (engine : Engine) (listeners : Listeners)
  : SceneController :=
  let orthoSize := 30 in
  let ratio := getRenderWidth engine / getRenderHeight engine in
  mkSceneController
    [] select None None [] None
    false None None None None
    [] S 1.0 none false
    orthoSize
    (mkOrtho orthoSize (- orthoSize)
       (- orthoSize * 0.35 * ratio) (orthoSize * 0.35 * ratio))
    (Vector3.mk 0 0 (-100)) Vector3.Zero
    true false engine listeners [].

(** The controller after a run of commands on the freshly built one. *)
Definition run (cos sin : number -> number) (atan2 : number -> number -> number)
    (engine : Engine) (listeners : Listeners) (commands : list Command)
  : SceneController :=
  fold_left (fun s c => execute cos sin atan2 c s) commands
    (initialController engine listeners).

(** A 1000 x 600 canvas rendered at the same size, every listener installed. *)
Definition demoEngine : Engine := mkEngine (Some (mkCanvas 1000 600)) 1000 600.
Definition allListeners : Listeners := mkListeners true true true true true.

(** The controller after adding one gable (resp. flat) building at the
    origin: width 10, depth 6, eaves 4 (5), slope 2 (25), selected. *)
Definition gableDemo : SceneController :=
  createBuilding Vector3.Zero Gable (initialController demoEngine allListeners).
Definition flatDemo : SceneController :=
  createBuilding Vector3.Zero Flat (initialController demoEngine allListeners).

(** The building [gableDemo] holds: the default gable, selected, hence
    shown by all three cameras. *)
Definition gableAtOrigin : Building :=
  maskBuilding FULL_MASK
    (rebuildMesh (Stored 0)
       (mkBuilding Vector3.Zero 0 MASK_DEFAULT
          (mkBuildingMetadata Gable 10 6 4 2) [])).

Definition flatAtOrigin : Building :=
  maskBuilding FULL_MASK
    (rebuildMesh (Stored 0)
       (mkBuilding Vector3.Zero 0 MASK_DEFAULT
          (mkBuildingMetadata Flat 10 6 5 25) [])).

(** A yaw is fed to these rational stand-ins of [Math.cos] and [Math.sin]
    in the concrete examples: the point of the unit circle with half-angle
    tangent [t]. *)
Definition demoCos (t : number) : number := (1 - t * t) / (1 + t * t).
Definition demoSin (t : number) : number := 2 * t / (1 + t * t).
Definition demoAtan2 (dx dz : number) : number := dx / (dz + 1).

(** A wheel event over the Elevation viewport of the 1000 x 600 canvas. *)
Definition wheelEvent (delta : number) : PointerInfo :=
  mkPointerInfo POINTERWHEEL 800 400 0 delta (fun _ _ => None) (fun _ _ => None).

(** A corner handle of the demo gable, a wall solid in front of it, and a
    ray that meets the wall at distance 5 and the handle at distance 10. *)
Definition demoHandle : Mesh.t :=
  standardHandle (Stored 0) (Vector3.mk (-5) 7 (-3)) corner 0 1.

Definition demoWall : Mesh.t := Mesh.set_layerMask (solid (Stored 0) 2) FULL_MASK.

Definition demoRay (mesh : Mesh.t) : option (number * Vector3.t) :=
  if isHandle mesh then Some (10, Vector3.mk (-5) 7 (-3))
  else if isBuilding mesh then Some (5, Vector3.mk (-5) 12 (-3))
  else None.

(** The right edge handle of the demo gable. *)
Definition demoEdge : Mesh.t :=
  standardHandle (Stored 0) (Vector3.mk 5 7 0) edge_width 1 1.

(** A demo gable turned by the yaw of half-angle tangent 1/2 (cosine 3/5,
    sine 4/5) and moved to (2, 0, 7), with corner handle 0 as drag target. *)
Definition turnedGable : Building :=
  set_position (set_rotationY gableAtOrigin (1 # 2)) (Vector3.mk 2 0 7).

Definition turnedDemo : SceneController :=
  set_dragTarget (updateBuilding (Stored 0) (fun _ => turnedGable) gableDemo)
    (Some demoHandle).

(** The rotate handle of the demo gable is pressed in the Plan view, at its
    centre; then the pointer moves so that its ray meets the ground at
    (3, 0, 4). *)
Definition demoRotateHandle : Mesh.t :=
  Eval vm_compute in default ground (handles gableDemo !! 8%nat).

Definition pressRotate : PointerInfo :=
  mkPointerInfo POINTERDOWN 300 300 0 0
    (fun _ mesh =>
       match Mesh.handleType (Mesh.metadata mesh) with
       | Some rotate => Some (93, Vector3.mk 0 7 7)
       | _ => None
       end)
    (fun _ _ => None).

Definition moveTo (p : Vector3.t) : PointerInfo :=
  mkPointerInfo POINTERMOVE 400 200 0 0 (fun _ _ => None) (fun _ _ => Some p).

Definition rotatingDemo : SceneController :=
  handlePointer demoCos demoSin demoAtan2 pressRotate gableDemo.

(** The drag point of that move: the ground point shifted by the (zero)
    offset between the handle and the point it was pressed at. *)
Definition demoDragPoint : Vector3.t :=
  Eval vm_compute in
    default Vector3.Zero
      (currentDragPoint planCamera (moveTo (Vector3.mk 3 0 4)) rotatingDemo).

(** Corner handle 0 of the demo gable is pressed in the Plan view, then
    dragged to the ground point (-3, 0, -1): the pointer handler ends with
    a building 8 wide and 4 deep at (1, 0, 1), still dragging corner 0. *)
Definition pressCorner : PointerInfo :=
  mkPointerInfo POINTERDOWN 200 300 0 0
    (fun _ mesh =>
       match Mesh.handleType (Mesh.metadata mesh), Mesh.index (Mesh.metadata mesh) with
       | Some corner, Some 0%nat => Some (93, Vector3.mk (-5) 7 (-3))
       | _, _ => None
       end)
    (fun _ _ => None).

(** ** Further examples *)

(** An eaves drag on the demo gable: started at eaves 4 with the pointer
    at 300, the pointer is pulled 5000 pixels up at 10 pixels per metre. *)
Definition demoApp : App.t :=
  App.mk (Some eaves) App.projected 300 4 4 6 Gable 10.

(** A house 400 m wide, seen from the south and from the east. *)
Definition wideHouse : ElevationSelector.Props :=
  ElevationSelector.mkProps 400 6 4 2 Gable.

(** A press in the Iso viewport of the 1000 x 600 canvas whose ray meets
    the ground at [p] and nothing else. *)
Definition pressGround (p : Vector3.t) : PointerInfo :=
  mkPointerInfo POINTERDOWN 800 100 0 0
    (fun _ mesh =>
       match Mesh.type (Mesh.metadata mesh), Mesh.parent mesh with
       | None, None => Some (50, p)
       | _, _ => None
       end)
    (fun _ _ => None).

(** A gable is added at (0, 0, 0), then a flat building at (20, 0, 5),
    which ends up selected. *)
Definition twoBuildings : list Command :=
  [ SetTool add_gable; Pointer (pressGround Vector3.Zero);
    SetTool add_flat; Pointer (pressGround (Vector3.mk 20 3 5)) ].

Definition demoRun : SceneController :=
  run demoCos demoSin demoAtan2 demoEngine allListeners twoBuildings.

(** The flat building of the demo run and its wall solid. *)
Definition demoFlat : Building :=
  Eval vm_compute in default flatAtOrigin (buildings demoRun !! 1%nat).
Definition demoFlatWall : Mesh.t :=
  Eval vm_compute in default ground (children demoFlat !! 0%nat).

(** On the two demo buildings: a ray through the plan camera that meets
    every mesh of the scene at the same distance picks corner handle 0 of
    the selected building. *)
Definition demoPick : PickingInfo :=
  Eval vm_compute in
    default (mkPickingInfo 0 Vector3.Zero ground)
      (pick planCamera (fun _ => Some (1, Vector3.Zero)) (sceneMeshes demoRun)).

(** The pointer is released in the Plan view. *)
Definition release : PointerInfo :=
  mkPointerInfo POINTERUP 200 300 0 0 (fun _ _ => None) (fun _ _ => None).

(** A gable is added at the origin, then its corner handle 0 is pressed
    in the Plan view. *)
Definition cornerPress : list Command :=
  [ SetTool add_gable; Pointer (pressGround Vector3.Zero); Pointer pressCorner ].

(** During a guide drag of the application on the demo gable, the pointer
    wanders over the Plan view, the wheel turns over the Elevation view, a
    height arrives from the overlay and the tool is changed. *)
Definition duringAppDrag : list Command :=
  [ Pointer (moveTo (Vector3.mk 3 0 4)); Pointer (wheelEvent 1000);
    AppHandleMove demoApp (-4700); SetTool add_flat; Pointer release ].

(** The controller after [cornerPress], its gable and the pressed corner
    handle. *)
Definition pressedDemo : SceneController :=
  run demoCos demoSin demoAtan2 demoEngine allListeners cornerPress.

Definition pressedGable : Building :=
  Eval vm_compute in default gableAtOrigin (buildings pressedDemo !! 0%nat).

Definition pressedCorner : Mesh.t :=
  Eval vm_compute in default ground (dragTarget pressedDemo).

(** The gable of the demo run, and a hit on its wall at (1, 2, 1). *)
Definition demoGable : Building :=
  Eval vm_compute in default gableAtOrigin (buildings demoRun !! 0%nat).

Definition demoGableWall : Mesh.t :=
  Eval vm_compute in default ground (children demoGable !! 0%nat).

Definition wallHit : PickingInfo :=
  mkPickingInfo 90 (Vector3.mk 1 2 1) demoGableWall.

(** The fresh controller with the gable tool, and a hit on the ground. *)
Definition gableToolDemo : SceneController :=
  setTool add_gable (initialController demoEngine allListeners).

Definition groundHit : PickingInfo :=
  mkPickingInfo 50 (Vector3.mk 20 3 5) ground.

(** A gable is added at the origin and the pointer comes over the
    Elevation viewport; a ray that meets the ridge guides only. *)
Definition guideRun : list Command :=
  [ SetTool add_gable; Pointer (pressGround Vector3.Zero); Pointer (wheelEvent 0) ].

Definition ridgeRay (mesh : Mesh.t) : option (number * Vector3.t) :=
  match Mesh.subType (Mesh.metadata mesh) with
  | Some ridge => Some (10, Vector3.mk 0 6 0)
  | _ => None
  end.

(** The ridge guide is pressed in the Elevation viewport, and released
    there. *)
Definition pressRidge : PointerInfo :=
  mkPointerInfo POINTERDOWN 800 400 0 0 (fun _ => ridgeRay) (fun _ _ => None).

Definition releaseOverElevation : PointerInfo :=
  mkPointerInfo POINTERUP 800 400 0 0 (fun _ _ => None) (fun _ _ => None).

Definition guideDrag : SceneController :=
  run demoCos demoSin demoAtan2 demoEngine allListeners
    (guideRun ++ [Pointer pressRidge]).

(** ** A preview ghost *)

(** The pointer moves over the Iso viewport on a ray that meets the ground
    at [p] and nothing else. *)
Definition hoverGround (p : Vector3.t) : PointerInfo :=
  mkPointerInfo POINTERMOVE 800 100 0 0
    (fun _ mesh =>
       match Mesh.type (Mesh.metadata mesh), Mesh.parent mesh with
       | None, None => Some (50, p)
       | _, _ => None
       end)
    (fun _ _ => None).

(** A press in the Iso viewport whose ray meets the solids of the first
    preview ghost and nothing else. *)
Definition pressGhost : PointerInfo :=
  mkPointerInfo POINTERDOWN 800 100 0 0
    (fun _ mesh =>
       match Mesh.type (Mesh.metadata mesh), Mesh.parent mesh with
       | Some building, Some (Ghost 0) => Some (40, Vector3.mk 7 2 3)
       | _, _ => None
       end)
    (fun _ _ => None).

(** With the gable tool the pointer comes over the ground at (7, 0, 3),
    where the preview ghost appears; the toolbar sets the tool back to
    select and the ghost is pressed. After that, either the gable tool is
    taken again and the pointer comes over the ground at (1, 0, 1), or the
    eaves of the ghost are raised to 5 and the ground is pressed. *)
Definition ghostRun : list Command :=
  [ SetTool add_gable; Pointer (hoverGround (Vector3.mk 7 0 3));
    SetTool select; Pointer pressGhost ].

Definition ghostDemo : SceneController :=
  run demoCos demoSin demoAtan2 demoEngine allListeners ghostRun.

Definition ghostMoved : SceneController :=
  run demoCos demoSin demoAtan2 demoEngine allListeners
    (ghostRun ++ [SetTool add_gable; Pointer (hoverGround (Vector3.mk 1 0 1))]).

Definition ghostLeft : SceneController :=
  run demoCos demoSin demoAtan2 demoEngine allListeners
    (ghostRun ++ [SetEavesHeight 5; Pointer (pressGround Vector3.Zero)]).

(** ** A handle under a roof *)

(** A flat building is added at the origin and raised to eaves 20, so
    that its roof slab ends at 20.5; then a gable is added at (3, 0, 1),
    whose corner handle 0, a sphere of diameter 0.75 at (-2, 7, -2), hangs
    within the walls of the flat building. *)
Definition overlapRun : list Command :=
  [ SetTool add_flat; Pointer (pressGround Vector3.Zero); SetEavesHeight 20;
    SetTool add_gable; Pointer (pressGround (Vector3.mk 3 0 1)) ].

(** The picking ray of the plan camera, 100 m above the ground, straight
    down through (-17/8, -9/4): it meets the roof of the flat building at
    20.5, its walls at 20, corner handle 0 of the gable at 7.25 and the
    ground, and passes the gable by. *)
Definition overlapRay (mesh : Mesh.t) : option (number * Vector3.t) :=
  let hitAt (y : number) :=
    Some (100 - y, Vector3.mk (- (17 # 8)) y (- (9 # 4))) in
  match Mesh.type (Mesh.metadata mesh), Mesh.parent mesh with
  | Some handle, _ =>
      match Mesh.handleType (Mesh.metadata mesh), Mesh.index (Mesh.metadata mesh) with
      | Some corner, Some 0%nat => hitAt 7.25
      | _, _ => None
      end
  | Some building, Some (Stored 0) =>
      hitAt (if Qeq_bool (Vector3.y (Mesh.position mesh)) 10 then 20 else 20.5)
  | None, None => hitAt 0
  | _, _ => None
  end.

(** The left button goes down in the Plan viewport on that ray. *)
Definition pressOverlap : PointerInfo :=
  mkPointerInfo POINTERDOWN 200 300 0 0 (fun _ => overlapRay) (fun _ _ => None).

(** The handles a pick is expected to prefer: tagged as handles,
    pickable, shown by the mask of the camera, and met by the ray. *)
Definition expectedHandle (camera : Camera)
    (ray : Mesh.t -> option (number * Vector3.t)) (mesh : Mesh.t) : bool :=
  isHandle mesh && Mesh.isPickable mesh && maskVisible camera mesh
  && bool_decide (is_Some (ray mesh)).

(** The controller after [overlapRun], before a frame is rendered and
    after one. *)
Definition overlapDemo : SceneController :=
  run demoCos demoSin demoAtan2 demoEngine allListeners overlapRun.

Definition renderedDemo : SceneController :=
  run demoCos demoSin demoAtan2 demoEngine allListeners (overlapRun ++ [Render]).

(** What a pick reports: the tag, kind, index and root of the mesh, and
    the distance. *)
Definition report (hit : option PickingInfo) :=
  (fun hit =>
     (Mesh.type (Mesh.metadata (pickedMesh hit)),
      Mesh.handleType (Mesh.metadata (pickedMesh hit)),
      Mesh.index (Mesh.metadata (pickedMesh hit)),
      Mesh.parent (pickedMesh hit), Qred (distance hit))) <$> hit.

(** * Properties *)

(** ** Framing: what the bookkeeping methods leave alone *)

Lemma invoke_buildings installed call this :
  buildings (invoke installed call this) = buildings this.
Proof. by destruct installed. Qed.

Lemma invoke_selectedMesh installed call this :
  selectedMesh (invoke installed call this) = selectedMesh this.
Proof. by destruct installed. Qed.

Lemma invoke_selected installed call this :
  selected (invoke installed call this) = selected this.
Proof. by destruct installed. Qed.

Lemma createHandles_buildings this :
  buildings (createHandles this) = buildings this.
Proof. unfold createHandles. by repeat case_match. Qed.

Lemma createHandles_selectedMesh this :
  selectedMesh (createHandles this) = selectedMesh this.
Proof. unfold createHandles. by repeat case_match. Qed.

Lemma createHandles_ghosts this :
  ghosts (createHandles this) = ghosts this.
Proof. unfold createHandles. by repeat case_match. Qed.

(** What a reference stands for depends on the store and the ghosts. *)
Lemma deref_ext a b r :
  buildings a = buildings b -> ghosts a = ghosts b -> deref a r = deref b r.
Proof. intros Hb Hg. destruct r; simpl; congruence. Qed.

Lemma selected_ext a b :
  selectedMesh a = selectedMesh b -> buildings a = buildings b ->
  ghosts a = ghosts b -> selected a = selected b.
Proof.
  intros Hs Hb Hg. unfold selected. rewrite Hs.
  destruct (selectedMesh b); [by apply deref_ext | done].
Qed.

Lemma createHandles_selected this :
  selected (createHandles this) = selected this.
Proof.
  apply selected_ext;
    [apply createHandles_selectedMesh | apply createHandles_buildings
    | apply createHandles_ghosts].
Qed.

Lemma createHandles_calls this : calls (createHandles this) = calls this.
Proof. unfold createHandles. by repeat case_match. Qed.

Lemma createHandles_listeners this :
  listeners (createHandles this) = listeners this.
Proof. unfold createHandles. by repeat case_match. Qed.

Lemma notifyDimensions_buildings this :
  buildings (notifyDimensions this) = buildings this.
Proof. unfold notifyDimensions. case_match; [apply invoke_buildings | done]. Qed.

Lemma notifyDimensions_selectedMesh this :
  selectedMesh (notifyDimensions this) = selectedMesh this.
Proof. unfold notifyDimensions. case_match; [apply invoke_selectedMesh | done]. Qed.

Lemma notifyDimensions_selected this :
  selected (notifyDimensions this) = selected this.
Proof.
  unfold notifyDimensions.
  destruct (selected this) eqn:E; [by rewrite invoke_selected | done].
Qed.

Lemma invoke_ghosts installed call this :
  ghosts (invoke installed call this) = ghosts this.
Proof. by destruct installed. Qed.

Lemma notifyDimensions_ghosts this :
  ghosts (notifyDimensions this) = ghosts this.
Proof. unfold notifyDimensions. case_match; [apply invoke_ghosts | done]. Qed.

Lemma updateElevationCamera_buildings this :
  buildings (updateElevationCamera this) = buildings this.
Proof. done. Qed.

Lemma updateElevationCamera_selectedMesh this :
  selectedMesh (updateElevationCamera this) = selectedMesh this.
Proof. done. Qed.

(** A write through a reference is what the reference reads back. *)
Lemma deref_assign this r b0 b :
  deref this r = Some b0 -> deref (assign r b this) r = Some b.
Proof.
  destruct r; simpl; intros Hb0; apply list_lookup_insert_eq;
    by eapply lookup_lt_Some.
Qed.

Lemma assign_selectedMesh r b this :
  selectedMesh (assign r b this) = selectedMesh this.
Proof. by destruct r. Qed.

Lemma assign_listeners r b this :
  listeners (assign r b this) = listeners this.
Proof. by destruct r. Qed.

Lemma assign_calls r b this : calls (assign r b this) = calls this.
Proof. by destruct r. Qed.

(** A write through [selectedMesh] is what [selected] reads back. *)
Lemma selected_insert this r b0 b :
  selectedMesh this = Some r ->
  deref this r = Some b0 ->
  selected (assign r b this) = Some b.
Proof.
  intros Hsel Hb0. unfold selected. rewrite assign_selectedMesh, Hsel.
  by eapply deref_assign.
Qed.

Lemma commitMetadata_selected this r b0 b md :
  selectedMesh this = Some r ->
  deref this r = Some b0 ->
  selected (commitMetadata r b md this) = Some (rebuildMesh r (set_metadata b md)).
Proof.
  intros Hsel Hb0. unfold commitMetadata.
  rewrite createHandles_selected. by eapply selected_insert.
Qed.

Lemma selected_Some this b :
  selected this = Some b ->
  exists r, selectedMesh this = Some r /\ deref this r = Some b.
Proof. unfold selected. destruct (selectedMesh this); naive_solver. Qed.

(** What the two height setters store, for a controller with a selection. *)
Lemma setEavesHeight_selected this b h :
  selected this = Some b ->
  let top := height (metadata b) + slope (metadata b) in
  let clampedHeight := Qmin h (top - 0.5) in
  selected (setEavesHeight h this)
  = Some (rebuildMesh (default (Stored 0) (selectedMesh this))
            (set_metadata b
               (set_slope (set_height (metadata b) clampedHeight)
                  (top - clampedHeight)))).
Proof.
  intros Hb. destruct (selected_Some _ _ Hb) as (i & Hi & Hl).
  unfold setEavesHeight. rewrite Hi, Hb. simpl.
  rewrite notifyDimensions_selected. by eapply commitMetadata_selected.
Qed.

Lemma setRidgeHeight_selected this b r :
  selected this = Some b ->
  let newSlope := r - height (metadata b) in
  selected (setRidgeHeight r this)
  = Some (rebuildMesh (default (Stored 0) (selectedMesh this))
            (set_metadata b
               (set_slope (metadata b)
                  (if Qlt_le_dec newSlope 0.5 then 0.5 else newSlope)))).
Proof.
  intros Hb. destruct (selected_Some _ _ Hb) as (i & Hi & Hl).
  unfold setRidgeHeight. rewrite Hi, Hb. simpl.
  rewrite notifyDimensions_selected. by eapply commitMetadata_selected.
Qed.

Lemma rebuildMesh_metadata i b : metadata (rebuildMesh i b) = metadata b.
Proof. done. Qed.

(** The [if] of [setRidgeHeight] is [Math.max]. *)
Lemma floor_is_max (a : number) :
  (if Qlt_le_dec a 0.5 then 0.5 else a) == Qmax 0.5 a.
Proof.
  destruct (Qlt_le_dec a 0.5); destruct (Q.max_spec 0.5 a) as [[? ->]|[? ->]]; lra.
Qed.

(** ** C1: the height setters keep eaves and ridge half a metre apart *)

(** C1. For a selected Gable building, [setEavesHeight h] stores the eaves
    height [min h (ridgeHeight - 0.5)] and the slope [ridgeHeight - eaves'],
    so the ridge height does not move; [setRidgeHeight r] stores the slope
    [max 0.5 (r - eavesHeight)] and leaves the eaves height alone. After
    either call, for every argument, [slope >= 0.5] and
    [eavesHeight <= ridgeHeight - 0.5]. *)
Theorem height_setters_clamp this b h r :
  selected this = Some b ->
  roofType (metadata b) = Gable ->
  (exists b1, selected (setEavesHeight h this) = Some b1
     /\ height (metadata b1) == Qmin h (ridgeHeight (metadata b) - 0.5)
     /\ slope (metadata b1) == ridgeHeight (metadata b) - height (metadata b1)
     /\ ridgeHeight (metadata b1) == ridgeHeight (metadata b)
     /\ 0.5 <= slope (metadata b1)
     /\ height (metadata b1) <= ridgeHeight (metadata b1) - 0.5)
  /\
  (exists b2, selected (setRidgeHeight r this) = Some b2
     /\ slope (metadata b2) == Qmax 0.5 (r - height (metadata b))
     /\ height (metadata b2) = height (metadata b)
     /\ 0.5 <= slope (metadata b2)
     /\ height (metadata b2) <= ridgeHeight (metadata b2) - 0.5).
Proof.
  intros Hb _. split.
  - eexists. split; [by apply setEavesHeight_selected |].
    rewrite rebuildMesh_metadata. unfold ridgeHeight. simpl.
    set (top := height (metadata b) + slope (metadata b)).
    pose proof (Q.le_min_r h (top - 0.5)).
    repeat split; try reflexivity; lra.
  - eexists. split; [by apply setRidgeHeight_selected |].
    rewrite rebuildMesh_metadata. unfold ridgeHeight. simpl.
    pose proof (floor_is_max (r - height (metadata b))) as Hmax.
    pose proof (Q.le_max_l 0.5 (r - height (metadata b))).
    repeat split; try done; lra.
Qed.

Lemma gableDemo_selected : selected gableDemo = Some gableAtOrigin.
Proof. reflexivity. Qed.

(** The scenario of the specification: a fresh gable (eaves 4, slope 2),
    [setEavesHeight 10], [setRidgeHeight 3]. *)
Lemma height_setters_clamp_witness :
  (exists b1, selected (setEavesHeight 10 gableDemo) = Some b1
     /\ height (metadata b1) == Qmin 10 (ridgeHeight (mkBuildingMetadata Gable 10 6 4 2) - 0.5)
     /\ slope (metadata b1) == ridgeHeight (mkBuildingMetadata Gable 10 6 4 2) - height (metadata b1)
     /\ ridgeHeight (metadata b1) == ridgeHeight (mkBuildingMetadata Gable 10 6 4 2)
     /\ 0.5 <= slope (metadata b1)
     /\ height (metadata b1) <= ridgeHeight (metadata b1) - 0.5)
  /\
  (exists b2, selected (setRidgeHeight 3 gableDemo) = Some b2
     /\ slope (metadata b2) == Qmax 0.5 (3 - 4)
     /\ height (metadata b2) = 4
     /\ 0.5 <= slope (metadata b2)
     /\ height (metadata b2) <= ridgeHeight (metadata b2) - 0.5).
Proof.
  exact (height_setters_clamp gableDemo _ 10 3 gableDemo_selected eq_refl).
Defined.

(** ** C2: the bounds 1 and 30 are the caller's, not the setters' *)

(** C2, refuted as stated: on the default gable (eaves 4, ridge 6)
    [setEavesHeight (-5)] stores the eaves height -5, below 1, and
    [setRidgeHeight 100] stores the slope 96, a ridge at 100, above 30. *)
Lemma height_bounds_not_enforced :
  (exists b, selected gableDemo = Some b
     /\ 1 <= height (metadata b) /\ height (metadata b) + slope (metadata b) <= 30)
  /\ (exists b1, selected (setEavesHeight (-5) gableDemo) = Some b1
        /\ height (metadata b1) == -5 /\ ~ 1 <= height (metadata b1))
  /\ (exists b2, selected (setRidgeHeight 100 gableDemo) = Some b2
        /\ height (metadata b2) + slope (metadata b2) == 100
        /\ ~ height (metadata b2) + slope (metadata b2) <= 30).
Proof.
  split; [| split]; eexists; (split; [reflexivity |]); vm_compute;
    repeat split; congruence.
Qed.

(** C2, amended. For a selected building with [eavesHeight >= 1],
    [slope >= 0.5] and [ridgeHeight <= 30]: [setEavesHeight h] keeps
    [ridgeHeight <= 30] for every [h] and keeps [eavesHeight >= 1] exactly
    when [h >= 1]; [setRidgeHeight r] keeps [eavesHeight >= 1] for every [r]
    and keeps [ridgeHeight <= 30] exactly when [r <= 30]. *)
Theorem height_setters_bounds this b h r :
  selected this = Some b ->
  1 <= height (metadata b) ->
  0.5 <= slope (metadata b) ->
  ridgeHeight (metadata b) <= 30 ->
  (exists b1, selected (setEavesHeight h this) = Some b1
     /\ ridgeHeight (metadata b1) <= 30
     /\ (1 <= height (metadata b1) <-> 1 <= h))
  /\
  (exists b2, selected (setRidgeHeight r this) = Some b2
     /\ 1 <= height (metadata b2)
     /\ (ridgeHeight (metadata b2) <= 30 <-> r <= 30)).
Proof.
  unfold ridgeHeight. intros Hb He Hs Hr. split.
  - eexists. split; [by apply setEavesHeight_selected |].
    rewrite rebuildMesh_metadata. simpl.
    destruct (Q.min_spec h (height (metadata b) + slope (metadata b) - 0.5))
      as [[? Hm]|[? Hm]]; repeat split; intros; lra.
  - eexists. split; [by apply setRidgeHeight_selected |].
    rewrite rebuildMesh_metadata. simpl.
    destruct (Qlt_le_dec (r - height (metadata b)) 0.5);
      repeat split; intros; lra.
Qed.

Lemma height_setters_bounds_witness :
  (exists b1, selected (setEavesHeight 3 gableDemo) = Some b1
     /\ ridgeHeight (metadata b1) <= 30
     /\ (1 <= height (metadata b1) <-> 1 <= 3))
  /\
  (exists b2, selected (setRidgeHeight 12 gableDemo) = Some b2
     /\ 1 <= height (metadata b2)
     /\ (ridgeHeight (metadata b2) <= 30 <-> 12 <= 30)).
Proof.
  apply (height_setters_bounds gableDemo gableAtOrigin 3 12 gableDemo_selected);
    vm_compute; congruence.
Defined.

(** ** C8 and C10: [setSlope] and the setters without a selection *)

Lemma clamp_slope_range (s : number) :
  0.5 <= Qmax 0.5 (Qmin 30 s) <= 30.
Proof.
  destruct (Q.max_spec 0.5 (Qmin 30 s)) as [[? ->]|[? ->]];
    destruct (Q.min_spec 30 s) as [[? Hm]|[? Hm]]; lra.
Qed.

(** The clamp of the source, [max 0.5 (min 30 s)], is the clamp
    [min 30 (max 0.5 s)]. *)
Lemma clamp_slope_commutes (s : number) :
  Qmax 0.5 (Qmin 30 s) == Qmin 30 (Qmax 0.5 s).
Proof.
  destruct (Q.max_spec 0.5 (Qmin 30 s)) as [[? ->]|[? ->]];
    destruct (Q.min_spec 30 s) as [[? Hm]|[? Hm]];
    destruct (Q.min_spec 30 (Qmax 0.5 s)) as [[? ->]|[? ->]];
    destruct (Q.max_spec 0.5 s) as [[? Hx]|[? Hx]]; lra.
Qed.

Lemma setSlope_gable this b s :
  selected this = Some b ->
  roofType (metadata b) = Gable ->
  selected (setSlope s this)
  = Some (rebuildMesh (default (Stored 0) (selectedMesh this))
            (set_metadata b (set_slope (metadata b) (Qmax 0.5 (Qmin 30 s)))))
  /\ calls (setSlope s this)
     = calls this
       ++ (if has_onSlopeChange (listeners this) then [onSlopeChange s] else []).
Proof.
  intros Hb Hg. destruct (selected_Some _ _ Hb) as (i & Hi & Hl).
  unfold setSlope. rewrite Hi, Hb, Hg. simpl. split.
  - rewrite invoke_selected. by eapply commitMetadata_selected.
  - unfold commitMetadata. rewrite createHandles_listeners, assign_listeners.
    destruct (has_onSlopeChange (listeners this)); simpl;
      rewrite createHandles_calls, assign_calls; [done |].
    by rewrite app_nil_r.
Qed.

(** C8. Without a selection [setSlope], [setEavesHeight] and
    [setRidgeHeight] return the controller unchanged, whatever the argument;
    [setSlope] also does so when the selected building is not a Gable, and
    otherwise stores the slope clamped to [0.5, 30]: [setSlope 40] stores 30. *)
Theorem setters_noop_and_slope_clamp this s h r :
  (selected this = None ->
     setSlope s this = this /\ setEavesHeight h this = this
     /\ setRidgeHeight r this = this)
  /\ (forall b, selected this = Some b -> roofType (metadata b) <> Gable ->
        setSlope s this = this)
  /\ (forall b, selected this = Some b -> roofType (metadata b) = Gable ->
        exists b', selected (setSlope s this) = Some b'
          /\ slope (metadata b') == Qmax 0.5 (Qmin 30 s)
          /\ 0.5 <= slope (metadata b') <= 30
          /\ (exists b40, selected (setSlope 40 this) = Some b40
                /\ slope (metadata b40) == 30)).
Proof.
  split; [| split].
  - intros Hnone. unfold setSlope, setEavesHeight, setRidgeHeight.
    rewrite Hnone. by destruct (selectedMesh this).
  - intros b Hb Hflat. unfold setSlope. rewrite Hb.
    destruct (selectedMesh this); [| done].
    by destruct (roofType (metadata b)).
  - intros b Hb Hg.
    destruct (setSlope_gable this b s Hb Hg) as [-> _].
    destruct (setSlope_gable this b 40 Hb Hg) as [-> _].
    eexists. split; [done |]. rewrite !rebuildMesh_metadata. simpl.
    split; [reflexivity |]. split; [apply clamp_slope_range |].
    eexists. split; [done |]. by vm_compute.
Qed.

(** C8 on concrete controllers: nothing selected (the initial controller),
    a selected flat building, a selected gable. *)
Lemma setters_noop_and_slope_clamp_witness :
  let empty := initialController demoEngine allListeners in
  (setSlope 40 empty = empty /\ setEavesHeight 7 empty = empty
   /\ setRidgeHeight 7 empty = empty)
  /\ setSlope 40 flatDemo = flatDemo
  /\ (exists b', selected (setSlope 40 gableDemo) = Some b'
        /\ slope (metadata b') == Qmax 0.5 (Qmin 30 40)
        /\ 0.5 <= slope (metadata b') <= 30
        /\ (exists b40, selected (setSlope 40 gableDemo) = Some b40
              /\ slope (metadata b40) == 30)).
Proof.
  intros empty. split; [| split].
  - exact (proj1 (setters_noop_and_slope_clamp empty 40 7 7) eq_refl).
  - refine (proj1 (proj2 (setters_noop_and_slope_clamp flatDemo 40 7 7))
              flatAtOrigin eq_refl _).
    discriminate.
  - exact (proj2 (proj2 (setters_noop_and_slope_clamp gableDemo 40 7 7))
             gableAtOrigin eq_refl eq_refl).
Defined.

(** C10. With a Gable building selected and a listener installed,
    [setSlope s] stores the clamped slope [min 30 (max 0.5 s)] but invokes
    [onSlopeChange] with the argument [s] itself; when [s] lies outside
    [0.5, 30] the reported slope is not the stored one. *)
Theorem setSlope_reports_unclamped this b s :
  selected this = Some b ->
  roofType (metadata b) = Gable ->
  has_onSlopeChange (listeners this) = true ->
  exists b', selected (setSlope s this) = Some b'
    /\ slope (metadata b') == Qmin 30 (Qmax 0.5 s)
    /\ calls (setSlope s this) = calls this ++ [onSlopeChange s]
    /\ (~ (0.5 <= s <= 30) -> ~ s == slope (metadata b')).
Proof.
  intros Hb Hg Hl.
  destruct (setSlope_gable this b s Hb Hg) as [-> ->]. rewrite Hl.
  eexists. split; [done |]. rewrite rebuildMesh_metadata. simpl.
  split; [apply clamp_slope_commutes |]. split; [done |].
  pose proof (clamp_slope_range s). intros Hout Heq. lra.
Qed.

Lemma setSlope_reports_unclamped_witness :
  exists b', selected (setSlope 40 gableDemo) = Some b'
    /\ slope (metadata b') == Qmin 30 (Qmax 0.5 40)
    /\ calls (setSlope 40 gableDemo) = calls gableDemo ++ [onSlopeChange 40]
    /\ (~ (0.5 <= 40 <= 30) -> ~ 40 == slope (metadata b')).
Proof.
  exact (setSlope_reports_unclamped gableDemo gableAtOrigin 40
           gableDemo_selected eq_refl eq_refl).
Defined.

(** ** Framing of the view state *)

Lemma invoke_view installed call this : view (invoke installed call this) = view this.
Proof. by destruct installed. Qed.

Lemma createHandles_view this : view (createHandles this) = view this.
Proof. unfold createHandles. by repeat case_match. Qed.

Lemma updateElevationCamera_view this : view (updateElevationCamera this) = view this.
Proof. done. Qed.

Lemma notifyDimensions_view this : view (notifyDimensions this) = view this.
Proof. unfold notifyDimensions. case_match; [apply invoke_view | done]. Qed.

(** The setters of the other fields. *)
Lemma set_buildings_view this v : view (set_buildings this v) = view this.
Proof. done. Qed.
Lemma set_activeTool_view this v : view (set_activeTool this v) = view this.
Proof. done. Qed.
Lemma set_selectedMesh_view this v : view (set_selectedMesh this v) = view this.
Proof. done. Qed.
Lemma set_isDragging_view this v : view (set_isDragging this v) = view this.
Proof. done. Qed.
Lemma set_dragTarget_view this v : view (set_dragTarget this v) = view this.
Proof. done. Qed.
Lemma set_draggingBuilding_view this v : view (set_draggingBuilding this v) = view this.
Proof. done. Qed.
Lemma set_draggingHandleType_view this v : view (set_draggingHandleType this v) = view this.
Proof. done. Qed.
Lemma set_dragOrigin_view this v : view (set_dragOrigin this v) = view this.
Proof. done. Qed.
Lemma set_handles_view this v : view (set_handles this v) = view this.
Proof. done. Qed.
Lemma set_isoControl_view this v : view (set_isoControl this v) = view this.
Proof. done. Qed.
Lemma set_elevationControl_view this v : view (set_elevationControl this v) = view this.
Proof. done. Qed.
Lemma set_calls_view this v : view (set_calls this v) = view this.
Proof. done. Qed.

Lemma set_ghosts_view this v : view (set_ghosts this v) = view this.
Proof. done. Qed.
Lemma set_previewMesh_view this v : view (set_previewMesh this v) = view this.
Proof. done. Qed.
Lemma set_backgroundPlane_view this v :
  view (set_backgroundPlane this v) = view this.
Proof. done. Qed.

Lemma assign_view r b this : view (assign r b this) = view this.
Proof. by destruct r. Qed.

Lemma updateBuilding_view r f this : view (updateBuilding r f this) = view this.
Proof. unfold updateBuilding. case_match; [apply assign_view | done]. Qed.

Create Rewrite HintDb view_frame.
#[local] Hint Rewrite invoke_view createHandles_view updateElevationCamera_view
  notifyDimensions_view updateBuilding_view assign_view
  set_ghosts_view set_previewMesh_view set_backgroundPlane_view
  set_buildings_view set_activeTool_view set_selectedMesh_view
  set_isDragging_view set_dragTarget_view set_draggingBuilding_view
  set_draggingHandleType_view set_dragOrigin_view set_handles_view
  set_isoControl_view set_elevationControl_view set_calls_view : view_frame.

Lemma selectBuilding_view root this : view (selectBuilding root this) = view this.
Proof.
  unfold selectBuilding. case_decide; [done |]. by autorewrite with view_frame.
Qed.
#[local] Hint Rewrite selectBuilding_view : view_frame.

Lemma createBuilding_view pos ty this : view (createBuilding pos ty this) = view this.
Proof. unfold createBuilding. by autorewrite with view_frame. Qed.

Lemma setTool_view tool this : view (setTool tool this) = view this.
Proof. unfold setTool. by autorewrite with view_frame. Qed.

Lemma commitMetadata_view i b md this : view (commitMetadata i b md this) = view this.
Proof. unfold commitMetadata. by autorewrite with view_frame. Qed.
#[local] Hint Rewrite createBuilding_view setTool_view commitMetadata_view : view_frame.

Lemma setEavesHeight_view h this : view (setEavesHeight h this) = view this.
Proof. unfold setEavesHeight. repeat case_match; by autorewrite with view_frame. Qed.

Lemma setRidgeHeight_view r this : view (setRidgeHeight r this) = view this.
Proof. unfold setRidgeHeight. repeat case_match; by autorewrite with view_frame. Qed.

Lemma setSlope_view s this : view (setSlope s this) = view this.
Proof. unfold setSlope. repeat case_match; by autorewrite with view_frame. Qed.

Lemma handleResize_view cos sin p this :
  view (handleResize cos sin p this) = view this.
Proof.
  unfold handleResize.
  repeat case_match; by autorewrite with view_frame.
Qed.
#[local] Hint Rewrite setEavesHeight_view setRidgeHeight_view setSlope_view
  handleResize_view : view_frame.

Lemma disposeRoot_view r this : view (disposeRoot r this) = view this.
Proof. unfold disposeRoot. by autorewrite with view_frame. Qed.
#[local] Hint Rewrite disposeRoot_view : view_frame.

Lemma disposePreview_view this : view (disposePreview this) = view this.
Proof. unfold disposePreview. case_match; by autorewrite with view_frame. Qed.
#[local] Hint Rewrite disposePreview_view : view_frame.

Lemma movePreview_view type hit this :
  view (movePreview type hit this) = view this.
Proof.
  unfold movePreview. repeat case_match; by autorewrite with view_frame.
Qed.
#[local] Hint Rewrite movePreview_view : view_frame.

Lemma render_view this : view (render this) = view this.
Proof. done. Qed.

Lemma pointerDown_view cos sin isPlan evtButton hit this :
  view (pointerDown cos sin isPlan evtButton hit this) = view this.
Proof.
  unfold pointerDown.
  repeat case_match; try done; by autorewrite with view_frame.
Qed.

Lemma pointerUp_view this : view (pointerUp this) = view this.
Proof. unfold pointerUp. case_match; by autorewrite with view_frame. Qed.

Lemma pointerMove_view cos sin atan2 camera info hit this :
  view (pointerMove cos sin atan2 camera info hit this) = view this.
Proof.
  unfold pointerMove.
  repeat case_match; try done; by autorewrite with view_frame.
Qed.

Lemma attachActive_view viewport this :
  view (attachActive viewport this) = view this.
Proof. unfold attachActive. destruct viewport; by autorewrite with view_frame. Qed.

Lemma view_activeViewport a b : view a = view b -> activeViewport a = activeViewport b.
Proof. unfold view. congruence. Qed.

Lemma view_elevationZoom a b : view a = view b -> elevationZoom a = elevationZoom b.
Proof. unfold view. congruence. Qed.

Lemma ViewportName_eqb_eq a b : ViewportName_eqb a b = true <-> a = b.
Proof. by destruct a, b. Qed.

(** ** C6: routing a pointer to a viewport *)

Lemma newViewport_plan canvas x y :
  x < clientWidth canvas * 0.65 -> newViewport canvas x y = plan.
Proof.
  intros Hx. unfold newViewport, isPlanView.
  destruct (Qlt_le_dec x (clientWidth canvas * 0.65)); [done | lra].
Qed.

Lemma newViewport_iso canvas x y :
  clientWidth canvas * 0.65 <= x -> y <= clientHeight canvas * 0.5 ->
  newViewport canvas x y = iso.
Proof.
  intros Hx Hy. unfold newViewport, isElevationView, isPlanView.
  destruct (Qlt_le_dec x (clientWidth canvas * 0.65)); [lra |].
  destruct (Qlt_le_dec (clientHeight canvas * 0.5) y); [lra | done].
Qed.

Lemma newViewport_elevation canvas x y :
  clientWidth canvas * 0.65 <= x -> clientHeight canvas * 0.5 < y ->
  newViewport canvas x y = elevation.
Proof.
  intros Hx Hy. unfold newViewport, isElevationView, isPlanView.
  destruct (Qlt_le_dec x (clientWidth canvas * 0.65)); [lra |].
  destruct (Qlt_le_dec (clientHeight canvas * 0.5) y); [done | lra].
Qed.

Lemma refreshInput_activeViewport canvas x y this :
  getRenderingCanvas (engine this) = Some canvas ->
  activeViewport (refreshInput x y this) = newViewport canvas x y.
Proof.
  intros Hc. unfold refreshInput. rewrite Hc.
  erewrite view_activeViewport; [| apply invoke_view].
  erewrite view_activeViewport; [| apply attachActive_view]. done.
Qed.

Lemma handlePointer_unfold cos sin atan2 info this canvas :
  getRenderingCanvas (engine this) = Some canvas ->
  let x := offsetX info in
  let y := offsetY info in
  let this' := switchInput (newViewport canvas x y) this in
  let camera :=
    if isPlanView canvas x then planCamera
    else if isElevationView canvas x y then elevationCamera else isoCamera in
  handlePointer cos sin atan2 info this
  = match type info, isElevationView canvas x y with
    | POINTERWHEEL, true => zoomElevation (deltaY info) this'
    | _, _ =>
        let hit := pick camera (castRay info camera) (sceneMeshes this') in
        match type info with
        | POINTERDOWN => pointerDown cos sin (isPlanView canvas x) (button info) hit this'
        | POINTERUP => pointerUp this'
        | POINTERMOVE => pointerMove cos sin atan2 camera info hit this'
        | _ => this'
        end
    end.
Proof. intros Hc. unfold handlePointer. by rewrite Hc. Qed.

Lemma switchInput_activeViewport viewport this :
  isAppDragging this = false ->
  activeViewport (switchInput viewport this) = viewport.
Proof.
  intros Hd. unfold switchInput. rewrite Hd. simpl.
  destruct (ViewportName_eqb (activeViewport this) viewport) eqn:Hv; simpl.
  - by apply ViewportName_eqb_eq.
  - erewrite view_activeViewport; [| apply attachActive_view].
    erewrite view_activeViewport; [| apply invoke_view]. done.
Qed.

Lemma switchInput_elevationZoom viewport this :
  elevationZoom (switchInput viewport this) = elevationZoom this.
Proof.
  unfold switchInput. case_match; [| done].
  erewrite view_elevationZoom; [| apply attachActive_view].
  erewrite view_elevationZoom; [| apply invoke_view]. done.
Qed.

(** Apart from the wheel branch, [handlePointer] leaves the view state as
    the input switch set it. *)
Lemma handlePointer_view cos sin atan2 info this canvas :
  getRenderingCanvas (engine this) = Some canvas ->
  ~ (type info = POINTERWHEEL
     /\ isElevationView canvas (offsetX info) (offsetY info) = true) ->
  view (handlePointer cos sin atan2 info this)
  = view (switchInput (newViewport canvas (offsetX info) (offsetY info)) this).
Proof.
  intros Hc Hw. rewrite (handlePointer_unfold _ _ _ _ _ _ Hc). cbv zeta.
  destruct (type info) eqn:Ht;
    rewrite ?pointerDown_view, ?pointerUp_view, ?pointerMove_view; try done.
  destruct (isElevationView canvas (offsetX info) (offsetY info)); [| done].
  by destruct Hw.
Qed.

Lemma handlePointer_activeViewport cos sin atan2 info this canvas :
  getRenderingCanvas (engine this) = Some canvas ->
  isAppDragging this = false ->
  activeViewport (handlePointer cos sin atan2 info this)
  = newViewport canvas (offsetX info) (offsetY info).
Proof.
  intros Hc Hd.
  assert (activeViewport
            (switchInput (newViewport canvas (offsetX info) (offsetY info)) this)
          = newViewport canvas (offsetX info) (offsetY info)) as Hs.
  { by apply switchInput_activeViewport. }
  destruct (type info) eqn:Ht;
    destruct (isElevationView canvas (offsetX info) (offsetY info)) eqn:He;
    try (erewrite view_activeViewport;
         [exact Hs | apply handlePointer_view; [done | intros [? ?]; congruence]]).
  rewrite (handlePointer_unfold _ _ _ _ _ _ Hc). cbv zeta. rewrite Ht, He.
  exact Hs.
Qed.

(** C6, refuted as stated: on a 1000 x 600 canvas the pointer (700, 300)
    has [x >= 0.65 * width] and [y = 0.5 * height], and it is routed to Iso,
    not to Elevation, by [refreshInput] and by [handlePointer] alike. *)
Lemma boundary_row_routes_to_iso :
  0.65 * 1000 <= 700 /\ 300 == 0.5 * 600
  /\ newViewport (mkCanvas 1000 600) 700 300 = iso
  /\ activeViewport
       (refreshInput 700 300 (initialController demoEngine allListeners)) = iso
  /\ activeViewport
       (handlePointer demoCos demoSin demoAtan2
          (mkPointerInfo POINTERMOVE 700 300 0 0 (fun _ _ => None) (fun _ _ => None))
          (initialController demoEngine allListeners)) = iso.
Proof. vm_compute. repeat split; congruence. Qed.

(** C6, amended. The viewport is a total function of the canvas-relative
    pointer: Plan when [x < 0.65 * width]; otherwise Elevation when
    [y > 0.5 * height] and Iso when [y <= 0.5 * height] (the boundary row
    [y = 0.5 * height] belongs to Iso). [refreshInput] makes it the active
    viewport, and so does [handlePointer] unless the application is
    dragging. *)
Theorem viewport_routing canvas (x y : number) :
  (x < clientWidth canvas * 0.65 -> newViewport canvas x y = plan)
  /\ (clientWidth canvas * 0.65 <= x -> y <= clientHeight canvas * 0.5 ->
      newViewport canvas x y = iso)
  /\ (clientWidth canvas * 0.65 <= x -> clientHeight canvas * 0.5 < y ->
      newViewport canvas x y = elevation)
  /\ (forall this, getRenderingCanvas (engine this) = Some canvas ->
        activeViewport (refreshInput x y this) = newViewport canvas x y)
  /\ (forall cos sin atan2 info this,
        getRenderingCanvas (engine this) = Some canvas ->
        isAppDragging this = false ->
        offsetX info = x -> offsetY info = y ->
        activeViewport (handlePointer cos sin atan2 info this)
        = newViewport canvas x y).
Proof.
  repeat split.
  - apply newViewport_plan.
  - apply newViewport_iso.
  - apply newViewport_elevation.
  - intros. by apply refreshInput_activeViewport.
  - intros cos sin atan2 info this Hc Hd <- <-.
    by apply handlePointer_activeViewport.
Qed.

(** C6 on the 1000 x 600 canvas: one pointer per region. *)
Lemma viewport_routing_witness :
  newViewport (mkCanvas 1000 600) 100 500 = plan
  /\ newViewport (mkCanvas 1000 600) 700 300 = iso
  /\ newViewport (mkCanvas 1000 600) 700 301 = elevation
  /\ activeViewport
       (refreshInput 700 301 (initialController demoEngine allListeners))
     = newViewport (mkCanvas 1000 600) 700 301.
Proof.
  split; [| split; [| split]].
  - apply (viewport_routing (mkCanvas 1000 600) 100 500). by vm_compute.
  - apply (viewport_routing (mkCanvas 1000 600) 700 300); vm_compute; congruence.
  - apply (viewport_routing (mkCanvas 1000 600) 700 301); by vm_compute.
  - by apply (viewport_routing (mkCanvas 1000 600) 700 301).
Defined.

(** ** C7: zooming the Elevation view *)

Lemma zoomElevation_zoom delta this :
  elevationZoom (zoomElevation delta this)
  = Qmax 0.1 (Qmin (elevationZoom this + delta * 0.001) 5).
Proof. done. Qed.

Lemma zoomElevation_orthoTop delta this :
  orthoTop (elevationOrtho (zoomElevation delta this))
  = 30 * elevationZoom (zoomElevation delta this).
Proof. done. Qed.

Lemma zoomElevation_orthoBottom delta this :
  orthoBottom (elevationOrtho (zoomElevation delta this))
  = - (30 * elevationZoom (zoomElevation delta this)).
Proof. done. Qed.

Lemma zoom_clamp_range (zoom : number) :
  0.1 <= Qmax 0.1 (Qmin zoom 5) <= 5.
Proof.
  destruct (Q.max_spec 0.1 (Qmin zoom 5)) as [[? ->]|[? ->]];
    destruct (Q.min_spec zoom 5) as [[? Hm]|[? Hm]]; lra.
Qed.

(** One pointer event keeps the zoom within its bounds. *)
Lemma handlePointer_zoom_range cos sin atan2 info this :
  0.1 <= elevationZoom this <= 5 ->
  0.1 <= elevationZoom (handlePointer cos sin atan2 info this) <= 5.
Proof.
  intros Hz.
  destruct (getRenderingCanvas (engine this)) as [canvas |] eqn:Hc;
    [| unfold handlePointer; by rewrite Hc].
  destruct (type info) eqn:Ht;
    destruct (isElevationView canvas (offsetX info) (offsetY info)) eqn:He;
    try (erewrite view_elevationZoom;
         [| apply handlePointer_view; [done | intros [? ?]; congruence]];
         by rewrite switchInput_elevationZoom).
  rewrite (handlePointer_unfold _ _ _ _ _ _ Hc). cbv zeta. rewrite Ht, He.
  rewrite zoomElevation_zoom. apply zoom_clamp_range.
Qed.

(** C7. A wheel event over the Elevation viewport with [deltaY = 1000] at
    zoom 1 sets the zoom to [min 5 (1 + 1000 * 0.001) = 2] and the ortho
    size of the elevation camera to 60, twice the base 30; and whatever the
    sequence of pointer events, a zoom within [0.1, 5] stays within it. *)
Theorem elevation_zoom cos sin atan2 :
  (forall info this canvas,
     getRenderingCanvas (engine this) = Some canvas ->
     type info = POINTERWHEEL ->
     isElevationView canvas (offsetX info) (offsetY info) = true ->
     deltaY info == 1000 ->
     elevationZoom this == 1 ->
     elevationZoom (handlePointer cos sin atan2 info this) == Qmin 5 (1 + 1000 * 0.001)
     /\ elevationZoom (handlePointer cos sin atan2 info this) == 2
     /\ orthoTop (elevationOrtho (handlePointer cos sin atan2 info this)) == 2 * 30
     /\ orthoBottom (elevationOrtho (handlePointer cos sin atan2 info this)) == - (2 * 30))
  /\ (forall events this,
        0.1 <= elevationZoom this <= 5 ->
        0.1 <= elevationZoom
                 (fold_left (fun s e => handlePointer cos sin atan2 e s) events this)
            <= 5).
Proof.
  split.
  - intros info this canvas Hc Ht He Hd Hz.
    rewrite (handlePointer_unfold _ _ _ _ _ _ Hc). cbv zeta. rewrite Ht, He.
    rewrite zoomElevation_orthoTop, zoomElevation_orthoBottom, zoomElevation_zoom.
    rewrite switchInput_elevationZoom.
    assert (Qmax 0.1 (Qmin (elevationZoom this + deltaY info * 0.001) 5) == 2) as Hr.
    { destruct (Q.max_spec 0.1 (Qmin (elevationZoom this + deltaY info * 0.001) 5))
        as [[? ->]|[? ->]];
        destruct (Q.min_spec (elevationZoom this + deltaY info * 0.001) 5)
          as [[? Hm]|[? Hm]]; lra. }
    assert (Qmin 5 (1 + 1000 * 0.001) == 2) as Hs by reflexivity.
    repeat split; lra.
  - intros events. induction events as [| e events IH]; intros this Hz; [done |].
    simpl. apply IH. by apply handlePointer_zoom_range.
Qed.

(** C7 on the freshly constructed controller: one scroll of 1000, then a
    run of three scrolls that hit both ends of the range. *)
Lemma elevation_zoom_witness :
  elevationZoom
    (handlePointer demoCos demoSin demoAtan2 (wheelEvent 1000)
       (initialController demoEngine allListeners)) == 2
  /\ 0.1 <= elevationZoom
              (fold_left (fun s e => handlePointer demoCos demoSin demoAtan2 e s)
                 [wheelEvent 9000; wheelEvent (-20000); wheelEvent 300]
                 (initialController demoEngine allListeners)) <= 5.
Proof.
  split.
  - refine (proj1 (proj2 (proj1 (elevation_zoom demoCos demoSin demoAtan2)
                            (wheelEvent 1000)
                            (initialController demoEngine allListeners)
                            (mkCanvas 1000 600) eq_refl eq_refl eq_refl _ _)));
      reflexivity.
  - apply (proj2 (elevation_zoom demoCos demoSin demoAtan2)). vm_compute.
    split; congruence.
Defined.

(** ** C5: the two passes of the pick *)

Section Picking.

Variable ray : Mesh.t -> option (number * Vector3.t).
Variable predicate : Mesh.t -> bool.

(** A pick reported by the loop was already the best one, or is a mesh of
    the list that the predicate accepts and the ray meets. *)
Lemma pick_loop_sound meshes acc hit :
  fold_left (pickStep ray predicate) meshes acc = Some hit ->
  acc = Some hit
  \/ (pickedMesh hit ∈ meshes /\ predicate (pickedMesh hit) = true
      /\ ray (pickedMesh hit) = Some (distance hit, pickedPoint hit)).
Proof.
  revert acc. induction meshes as [| m meshes IH]; intros acc Hfold; [by left |].
  simpl in Hfold. apply IH in Hfold as [Hacc | (Hin & Hp & Hr)].
  - unfold pickStep in Hacc.
    destruct (predicate m) eqn:Hp; [| by left].
    destruct (ray m) as [[d p] |] eqn:Hr; [| by left].
    destruct acc as [best |].
    + destruct (Qle_bool (distance best) d); [by left |].
      right. injection Hacc as <-. simpl. by rewrite elem_of_cons; auto.
    + right. injection Hacc as <-. simpl. by rewrite elem_of_cons; auto.
  - right. rewrite elem_of_cons. auto.
Qed.

(** The loop never drops a pick. *)
Lemma pick_loop_keeps meshes acc :
  is_Some acc -> is_Some (fold_left (pickStep ray predicate) meshes acc).
Proof.
  revert acc. induction meshes as [| m meshes IH]; intros acc Hacc; [done |].
  simpl. apply IH. unfold pickStep. destruct Hacc as [best ->].
  repeat case_match; eauto.
Qed.

(** An accepted mesh that the ray meets makes the loop report a pick. *)
Lemma pick_loop_complete meshes acc m :
  m ∈ meshes -> predicate m = true -> is_Some (ray m) ->
  is_Some (fold_left (pickStep ray predicate) meshes acc).
Proof.
  revert acc. induction meshes as [| m' meshes IH]; intros acc Hin Hp Hr.
  - by apply elem_of_nil in Hin.
  - apply elem_of_cons in Hin as [<- | Hin]; [| by apply IH].
    simpl. apply pick_loop_keeps. unfold pickStep. rewrite Hp.
    destruct Hr as [[d p] ->]. repeat case_match; eauto.
Qed.

(** The reported pick is a nearest one. *)
Lemma pick_loop_nearest meshes acc hit :
  fold_left (pickStep ray predicate) meshes acc = Some hit ->
  (forall best, acc = Some best -> distance hit <= distance best)
  /\ (forall m d p, m ∈ meshes -> predicate m = true -> ray m = Some (d, p) ->
        distance hit <= d).
Proof.
  revert acc. induction meshes as [| m meshes IH]; intros acc Hfold.
  - simpl in Hfold. subst acc. split.
    + intros best [= <-]. lra.
    + intros m d p Hin. by apply elem_of_nil in Hin.
  - simpl in Hfold. apply IH in Hfold as [Hacc Hrest]. split.
    + intros best ->. unfold pickStep in Hacc.
      destruct (predicate m); [| by apply Hacc].
      destruct (ray m) as [[d p] |]; [| by apply Hacc].
      destruct (Qle_bool (distance best) d) eqn:Hle; [by apply Hacc |].
      specialize (Hacc _ eq_refl). simpl in Hacc.
      assert (~ distance best <= d) by (rewrite <- Qle_bool_iff; congruence).
      lra.
    + intros m' d p Hin Hp Hr.
      apply elem_of_cons in Hin as [-> | Hin]; [| by eapply Hrest].
      unfold pickStep in Hacc. rewrite Hp, Hr in Hacc.
      destruct acc as [best |].
      * destruct (Qle_bool (distance best) d) eqn:Hle.
        -- specialize (Hacc _ eq_refl). apply Qle_bool_iff in Hle. lra.
        -- by specialize (Hacc _ eq_refl).
      * by specialize (Hacc _ eq_refl).
Qed.

End Picking.

Lemma priorityPredicate_spec camera mesh :
  priorityPredicate camera mesh = true
  <-> ((Mesh.isVisible mesh = true \/ isGuide mesh = true)
       /\ Mesh.isPickable mesh = true
       /\ isHandle mesh = true
       /\ Z.land (Mesh.layerMask mesh) (Camera_layerMask camera) <> 0%Z)
      /\ ~ (camera = planCamera /\ isGuide mesh = true).
Proof.
  unfold priorityPredicate, maskVisible.
  destruct (Z.eqb_spec (Z.land (Mesh.layerMask mesh) (Camera_layerMask camera)) 0);
    destruct camera, (isGuide mesh), (Mesh.isVisible mesh), (Mesh.isPickable mesh),
      (isHandle mesh); simpl; intuition congruence.
Qed.

Lemma isHandle_not_building mesh : isHandle mesh = true -> isBuilding mesh = false.
Proof. unfold isHandle, isBuilding. by repeat case_match. Qed.

(** The pick has two passes and the first looks at handles only. Whenever
    the picking ray meets a handle that the priority pass accepts (metadata
    type [handle], pickable, shown by the mask of the active camera, and
    visible at that moment unless it is a guide, whose colliders stay
    pickable while invisible), [pick] returns a handle: the nearest accepted
    one, never a building, however many building solids the ray meets
    before it. And the priority pass under the Plan camera accepts no
    guide. Whether a handle is visible when an event arrives is up to the
    render loop. *)
Lemma pick_prefers_handles camera
    (ray : Mesh.t -> option (number * Vector3.t)) (meshes : list Mesh.t) :
  (forall h, h ∈ meshes -> priorityPredicate camera h = true -> is_Some (ray h) ->
     exists hit, pick camera ray meshes = Some hit
       /\ pickedMesh hit ∈ meshes
       /\ ray (pickedMesh hit) = Some (distance hit, pickedPoint hit)
       /\ priorityPredicate camera (pickedMesh hit) = true
       /\ isHandle (pickedMesh hit) = true
       /\ isBuilding (pickedMesh hit) = false
       /\ (forall h' d p, h' ∈ meshes -> priorityPredicate camera h' = true ->
             ray h' = Some (d, p) -> distance hit <= d))
  /\ (forall hit,
        pickWithRay ray (priorityPredicate planCamera) meshes = Some hit ->
        isGuide (pickedMesh hit) = false)
  /\ (forall m, isGuide m = true -> priorityPredicate planCamera m = false).
Proof.
  split; [| split].
  - intros h Hin Hp Hr. unfold pick.
    destruct (pick_loop_complete ray _ meshes None h Hin Hp Hr) as [hit Hhit].
    fold (pickWithRay ray (priorityPredicate camera) meshes) in Hhit.
    rewrite Hhit. exists hit. split; [done |].
    destruct (pick_loop_sound _ _ _ _ _ Hhit) as [? | (Hm & Hpm & Hrm)]; [done |].
    assert (isHandle (pickedMesh hit) = true) as Hh
      by (apply priorityPredicate_spec in Hpm; tauto).
    repeat split; try done.
    + by apply isHandle_not_building.
    + apply (pick_loop_nearest _ _ _ _ _ Hhit).
  - intros hit Hhit.
    destruct (pick_loop_sound _ _ _ _ _ Hhit) as [? | (_ & Hpm & _)]; [done |].
    apply priorityPredicate_spec in Hpm as [_ Hplan].
    destruct (isGuide (pickedMesh hit)); [| done]. by destruct Hplan.
  - intros m Hg. unfold priorityPredicate. by rewrite Hg.
Qed.

Lemma pick_prefers_handles_witness :
  exists hit, pick planCamera demoRay [demoWall; demoHandle] = Some hit
    /\ pickedMesh hit ∈ [demoWall; demoHandle]
    /\ demoRay (pickedMesh hit) = Some (distance hit, pickedPoint hit)
    /\ priorityPredicate planCamera (pickedMesh hit) = true
    /\ isHandle (pickedMesh hit) = true
    /\ isBuilding (pickedMesh hit) = false
    /\ (forall h' d p, h' ∈ [demoWall; demoHandle] ->
          priorityPredicate planCamera h' = true ->
          demoRay h' = Some (d, p) -> distance hit <= d).
Proof.
  apply (proj1 (pick_prefers_handles planCamera demoRay [demoWall; demoHandle])
           demoHandle).
  - rewrite !elem_of_cons. auto.
  - reflexivity.
  - by eexists.
Defined.

(** ** C3 and C4: resizing by a corner or edge handle *)

(** Split every [Qmin] and [Qmax] of the goal into its two cases. *)
Ltac split_minmax :=
  repeat match goal with
    | |- context [Qmin ?a ?b] =>
        let H := fresh "Hmin" in
        destruct (Q.min_spec a b) as [[? H] | [? H]];
        revert H; generalize (Qmin a b); intros ? H
    | |- context [Qmax ?a ?b] =>
        let H := fresh "Hmax" in
        destruct (Q.max_spec a b) as [[? H] | [? H]];
        revert H; generalize (Qmax a b); intros ? H
    end.

(** Halving, in the form linear arithmetic understands. *)
Ltac halves := unfold Qdiv in *; change (/ 2) with (1 # 2) in *.

(** The clamped box is at least [MIN_SIZE] wide and deep: an edge never
    passes the opposite one. *)
Lemma resizeBounds_min_size handleType index p (w d : number) :
  MIN_SIZE <= w -> MIN_SIZE <= d ->
  minX (resizeBounds handleType index p w d)
    <= maxX (resizeBounds handleType index p w d) - MIN_SIZE
  /\ minZ (resizeBounds handleType index p w d)
       <= maxZ (resizeBounds handleType index p w d) - MIN_SIZE.
Proof.
  unfold resizeBounds. intros Hw Hd.
  destruct handleType as [[] |]; simpl;
    repeat match goal with
      | |- context [index_is index ?n] => destruct (index_is index n); simpl
      end;
    unfold MIN_SIZE in *; split_minmax; halves; lra.
Qed.

(** Corner 0 owns the left and the back edge: they stop one metre short
    of the right and the front edge, which stay where they are. *)
Lemma resizeBounds_corner0 p (w d : number) :
  minX (resizeBounds (Some corner) (Some 0%nat) p w d) == Qmin (Vector3.x p) (w / 2 - 1)
  /\ maxX (resizeBounds (Some corner) (Some 0%nat) p w d) == w / 2
  /\ minZ (resizeBounds (Some corner) (Some 0%nat) p w d) == Qmin (Vector3.z p) (d / 2 - 1)
  /\ maxZ (resizeBounds (Some corner) (Some 0%nat) p w d) == d / 2.
Proof. unfold resizeBounds. simpl. unfold MIN_SIZE. repeat split; reflexivity. Qed.

(** [handleResize] writes the resized root back through [selectedMesh]. *)
Lemma handleResize_buildings cos sin pickPoint this r b target :
  selectedMesh this = Some r ->
  deref this r = Some b ->
  dragTarget this = Some target ->
  let this' :=
    assign r (resized cos sin r b (boundsFor cos sin target pickPoint b)) this in
  buildings (handleResize cos sin pickPoint this) = buildings this'
  /\ ghosts (handleResize cos sin pickPoint this) = ghosts this'
  /\ selectedMesh (handleResize cos sin pickPoint this) = Some r.
Proof.
  intros Hi Hb Ht. unfold handleResize, selected. rewrite Hi, Hb, Ht.
  cbv zeta.
  repeat case_match; cbn [buildings ghosts selectedMesh set_dragTarget];
    rewrite ?notifyDimensions_buildings, ?notifyDimensions_ghosts,
      ?notifyDimensions_selectedMesh, ?createHandles_buildings,
      ?createHandles_ghosts, ?createHandles_selectedMesh, ?assign_selectedMesh;
    done.
Qed.

Lemma handleResize_idle cos sin pickPoint this :
  selected this = None \/ dragTarget this = None ->
  handleResize cos sin pickPoint this = this.
Proof.
  unfold handleResize. intros [-> | ->]; by repeat case_match.
Qed.

Lemma handleResize_selected cos sin pickPoint this b target :
  selected this = Some b ->
  dragTarget this = Some target ->
  selected (handleResize cos sin pickPoint this)
  = Some (resized cos sin (default (Stored 0) (selectedMesh this)) b
            (boundsFor cos sin target pickPoint b)).
Proof.
  intros Hb Ht. destruct (selected_Some _ _ Hb) as (i & Hi & Hl).
  destruct (handleResize_buildings cos sin pickPoint this i b target Hi Hl Ht)
    as (Hbs & Hgs & Hsel).
  unfold selected. rewrite Hsel, Hi. simpl.
  erewrite deref_ext; [by eapply deref_assign | done | done].
Qed.

Lemma resized_min_sized cos sin i b target pickPoint :
  min_sized b ->
  min_sized (resized cos sin i b (boundsFor cos sin target pickPoint b)).
Proof.
  intros [Hw Hd]. unfold min_sized, resized, boundsFor. simpl.
  destruct (resizeBounds_min_size (Mesh.handleType (Mesh.metadata target))
              (Mesh.index (Mesh.metadata target))
              (Matrix.TransformCoordinates pickPoint
                 (Matrix.invert (getWorldMatrix cos sin b)))
              _ _ Hw Hd) as [Hx Hz].
  split; lra.
Qed.

Lemma handleResize_min_sized cos sin pickPoint this :
  all_min_sized this -> all_min_sized (handleResize cos sin pickPoint this).
Proof.
  intros Hall.
  destruct (selected this) as [b |] eqn:Hb;
    [| by rewrite handleResize_idle; auto].
  destruct (dragTarget this) as [target |] eqn:Ht;
    [| by rewrite handleResize_idle; auto].
  destruct (selected_Some _ _ Hb) as (r & Hi & Hl).
  destruct (handleResize_buildings cos sin pickPoint this r b target Hi Hl Ht)
    as (Hbs & _ & _).
  unfold all_min_sized. rewrite Hbs. destruct r as [i | k]; [| done]. simpl.
  apply Forall_insert; [done |].
  apply resized_min_sized. by eapply Forall_lookup_1.
Qed.

(** C3. Starting from buildings that respect the size invariant (as every
    created building does), any sequence of resize moves, with any handle
    and any drag point, leaves every width and depth at least
    [MIN_SIZE = 1]. Each move clamps the edges it owns on their own, and
    the box never turns inside out: [minX <= maxX - 1] and
    [minZ <= maxZ - 1]; for corner 0, the left edge stops at [maxX - 1] and
    the back edge at [maxZ - 1] while the right and front edges stay. *)
Theorem resize_keeps_min_size cos sin (moves : list (Mesh.t * Vector3.t)) this :
  all_min_sized this ->
  all_min_sized (fold_left (fun s m => resizeMove cos sin m s) moves this)
  /\ (forall handleType index p b,
        min_sized b ->
        minX (resizeBounds handleType index p (width (metadata b)) (depth (metadata b)))
          <= maxX (resizeBounds handleType index p (width (metadata b)) (depth (metadata b)))
             - MIN_SIZE
        /\ minZ (resizeBounds handleType index p (width (metadata b)) (depth (metadata b)))
             <= maxZ (resizeBounds handleType index p (width (metadata b)) (depth (metadata b)))
                - MIN_SIZE)
  /\ (forall p (w d : number),
        minX (resizeBounds (Some corner) (Some 0%nat) p w d) <= w / 2 - 1
        /\ maxX (resizeBounds (Some corner) (Some 0%nat) p w d) == w / 2
        /\ minZ (resizeBounds (Some corner) (Some 0%nat) p w d) <= d / 2 - 1
        /\ maxZ (resizeBounds (Some corner) (Some 0%nat) p w d) == d / 2).
Proof.
  intros Hall. split; [| split].
  - revert this Hall. induction moves as [| m moves IH]; intros this Hall; [done |].
    simpl. apply IH. unfold resizeMove. by apply handleResize_min_sized.
  - intros handleType index p b [Hw Hd]. by apply resizeBounds_min_size.
  - intros p w d.
    destruct (resizeBounds_corner0 p w d) as (Ha & Hb & Hc & Hd).
    pose proof (Q.le_min_r (Vector3.x p) (w / 2 - 1)).
    pose proof (Q.le_min_r (Vector3.z p) (d / 2 - 1)).
    repeat split; try done; lra.
Qed.

Lemma gableDemo_min_sized : all_min_sized gableDemo.
Proof. repeat constructor; vm_compute; congruence. Qed.

(** C3 on the demo gable: corner 0 is dragged far beyond the opposite
    corner, then the right edge far beyond the left one. *)
Lemma resize_keeps_min_size_witness :
  all_min_sized
    (fold_left (fun s m => resizeMove demoCos demoSin m s)
       [(demoHandle, Vector3.mk 100 0 100); (demoEdge, Vector3.mk (-50) 0 0)]
       gableDemo).
Proof.
  exact (proj1 (resize_keeps_min_size demoCos demoSin
                  [(demoHandle, Vector3.mk 100 0 100); (demoEdge, Vector3.mk (-50) 0 0)]
                  gableDemo gableDemo_min_sized)).
Defined.

(** The same run, evaluated: both dimensions end at exactly [MIN_SIZE]. *)
Example resize_clamps_to_min_size :
  (fun b => (Qred (width (metadata b)), Qred (depth (metadata b))))
    <$> selected
          (fold_left (fun s m => resizeMove demoCos demoSin m s)
             [(demoHandle, Vector3.mk 100 0 100); (demoEdge, Vector3.mk (-50) 0 0)]
             gableDemo)
  = Some (1, 1).
Proof. reflexivity. Qed.

(** Rotations act on equal vectors equally. *)
Lemma TransformNormal_equiv v v' m :
  Vector3.equiv v v' ->
  Vector3.equiv (Matrix.TransformNormal v m) (Matrix.TransformNormal v' m).
Proof.
  intros (Hx & Hy & Hz). unfold Vector3.equiv, Matrix.TransformNormal. simpl.
  rewrite Hx, Hy, Hz. repeat split; reflexivity.
Qed.

(** C4. On a building 10 wide and 6 deep (local bounds [-5, 5] x [-3, 3]),
    dragging corner handle 0 to the point whose local coordinates are
    [x = -3], [z = -1] gives the width [5 - (-3) = 8] and the depth
    [3 - (-1) = 4], and moves the building by the rotation of the local
    centre [((-3 + 5) / 2, 0, (-1 + 3) / 2)] of the new bounds: the new
    origin is that centre, so the rebuilt box, centred at the origin of the
    new frame, is the box [-3, 5] x [-1, 3] of the old frame. *)
Theorem corner_drag_scenario cos sin this b target pickPoint :
  selected this = Some b ->
  dragTarget this = Some target ->
  Mesh.handleType (Mesh.metadata target) = Some corner ->
  Mesh.index (Mesh.metadata target) = Some 0%nat ->
  width (metadata b) == 10 ->
  depth (metadata b) == 6 ->
  Vector3.x (Matrix.TransformCoordinates pickPoint
               (Matrix.invert (getWorldMatrix cos sin b))) == -3 ->
  Vector3.z (Matrix.TransformCoordinates pickPoint
               (Matrix.invert (getWorldMatrix cos sin b))) == -1 ->
  exists b', selected (handleResize cos sin pickPoint this) = Some b'
    /\ width (metadata b') == 5 - (-3)
    /\ width (metadata b') == 8
    /\ depth (metadata b') == 3 - (-1)
    /\ depth (metadata b') == 4
    /\ rotationY b' = rotationY b
    /\ Vector3.equiv (position b')
         (Vector3.add (position b)
            (Matrix.TransformNormal
               (Vector3.mk ((-3 + 5) / 2) 0 ((-1 + 3) / 2))
               (getWorldMatrix cos sin b)))
    /\ Vector3.equiv (position b')
         (Matrix.TransformCoordinates
            (Vector3.mk ((-3 + 5) / 2) 0 ((-1 + 3) / 2))
            (getWorldMatrix cos sin b))
    /\ (forall q,
          Vector3.equiv
            (Matrix.TransformCoordinates q (getWorldMatrix cos sin b'))
            (Matrix.TransformCoordinates
               (Vector3.add q (Vector3.mk ((-3 + 5) / 2) 0 ((-1 + 3) / 2)))
               (getWorldMatrix cos sin b))).
Proof.
  intros Hb Ht Hcorner Hindex Hw Hd Hx Hz.
  eexists. split; [by apply handleResize_selected with (target := target) |].
  unfold boundsFor. rewrite Hcorner, Hindex.
  set (p := Matrix.TransformCoordinates pickPoint
              (Matrix.invert (getWorldMatrix cos sin b))) in *.
  destruct (resizeBounds_corner0 p (width (metadata b)) (depth (metadata b)))
    as (Hminx & Hmaxx & Hminz & Hmaxz).
  set (bo := resizeBounds (Some corner) (Some 0%nat) p
               (width (metadata b)) (depth (metadata b))) in *.
  assert (minX bo == -3) as Ex.
  { rewrite Hminx. destruct (Q.min_spec (Vector3.x p) (width (metadata b) / 2 - 1))
      as [[? ->] | [? ->]]; halves; lra. }
  assert (maxX bo == 5) as Ex' by (rewrite Hmaxx; halves; lra).
  assert (minZ bo == -1) as Ez.
  { rewrite Hminz. destruct (Q.min_spec (Vector3.z p) (depth (metadata b) / 2 - 1))
      as [[? ->] | [? ->]]; halves; lra. }
  assert (maxZ bo == 3) as Ez' by (rewrite Hmaxz; halves; lra).
  clearbody bo.
  unfold resized, Vector3.equiv, getWorldMatrix; simpl.
  rewrite Ex, Ex', Ez, Ez'.
  repeat split; intros; simpl; rewrite ?Ex, ?Ex', ?Ez, ?Ez';
    try reflexivity; ring.
Qed.

(** C4 on the turned gable; (-3/5, 0, 44/5) is the world point whose local
    coordinates are (-3, 0, -1). *)
Lemma corner_drag_scenario_witness :
  exists b', selected (handleResize demoCos demoSin
                         (Vector3.mk (-3 # 5) 0 (44 # 5)) turnedDemo) = Some b'
    /\ width (metadata b') == 5 - (-3)
    /\ width (metadata b') == 8
    /\ depth (metadata b') == 3 - (-1)
    /\ depth (metadata b') == 4
    /\ rotationY b' = rotationY turnedGable
    /\ Vector3.equiv (position b')
         (Vector3.add (position turnedGable)
            (Matrix.TransformNormal
               (Vector3.mk ((-3 + 5) / 2) 0 ((-1 + 3) / 2))
               (getWorldMatrix demoCos demoSin turnedGable)))
    /\ Vector3.equiv (position b')
         (Matrix.TransformCoordinates
            (Vector3.mk ((-3 + 5) / 2) 0 ((-1 + 3) / 2))
            (getWorldMatrix demoCos demoSin turnedGable))
    /\ (forall q,
          Vector3.equiv
            (Matrix.TransformCoordinates q (getWorldMatrix demoCos demoSin b'))
            (Matrix.TransformCoordinates
               (Vector3.add q (Vector3.mk ((-3 + 5) / 2) 0 ((-1 + 3) / 2)))
               (getWorldMatrix demoCos demoSin turnedGable))).
Proof.
  apply (corner_drag_scenario demoCos demoSin turnedDemo turnedGable demoHandle
           (Vector3.mk (-3 # 5) 0 (44 # 5)));
    reflexivity.
Defined.

(** The same drag, evaluated: the building ends 8 by 4 at (17/5, 0, 34/5). *)
Example corner_drag_evaluated :
  (fun b => (Qred (width (metadata b)), Qred (depth (metadata b)),
             Qred (Vector3.x (position b)), Qred (Vector3.z (position b))))
    <$> selected (handleResize demoCos demoSin
                    (Vector3.mk (-3 # 5) 0 (44 # 5)) turnedDemo)
  = Some (8, 4, 17 # 5, 34 # 5).
Proof. reflexivity. Qed.

(** ** C9: rotation is absolute *)

(** The input switch only touches the active viewport, the camera controls
    and the callback log. *)
Lemma switchInput_ghosts viewport this :
  ghosts (switchInput viewport this) = ghosts this.
Proof.
  unfold switchInput, attachActive, invoke.
  by repeat case_match.
Qed.

Lemma switchInput_drag_state viewport this :
  buildings (switchInput viewport this) = buildings this
  /\ selectedMesh (switchInput viewport this) = selectedMesh this
  /\ activeTool (switchInput viewport this) = activeTool this
  /\ isDragging (switchInput viewport this) = isDragging this
  /\ dragTarget (switchInput viewport this) = dragTarget this
  /\ draggingHandleType (switchInput viewport this) = draggingHandleType this.
Proof.
  unfold switchInput, attachActive, invoke.
  by repeat case_match.
Qed.

Lemma switchInput_updateBuilding viewport i f this :
  switchInput viewport (updateBuilding i f this)
  = updateBuilding i f (switchInput viewport this).
Proof.
  unfold switchInput, updateBuilding, attachActive, invoke.
  destruct i as [i | k]; simpl.
  - destruct (buildings this !! i) eqn:Hb; simpl;
      repeat case_match; simpl in *; simplify_eq; try done.
  - destruct (ghosts this !! k) eqn:Hb; simpl;
      repeat case_match; simpl in *; simplify_eq; try done.
Qed.

Lemma updateBuilding_selected r f this b :
  selectedMesh this = Some r ->
  deref this r = Some b ->
  selected (updateBuilding r f this) = Some (f b)
  /\ selectedMesh (updateBuilding r f this) = Some r.
Proof.
  intros Hi Hb. unfold updateBuilding. rewrite Hb.
  split; [| by rewrite assign_selectedMesh].
  by eapply selected_insert.
Qed.



(** A prior yaw does not move the drag point. *)
Lemma currentDragPoint_yaw camera info this r b yaw :
  selectedMesh this = Some r ->
  deref this r = Some b ->
  currentDragPoint camera info (updateBuilding r (fun b => set_rotationY b yaw) this)
  = currentDragPoint camera info this.
Proof.
  intros Hi Hb. unfold currentDragPoint.
  destruct (updateBuilding_selected r (fun b => set_rotationY b yaw) this b Hi Hb)
    as [-> _].
  assert (selected this = Some b) as -> by (unfold selected; by rewrite Hi).
  unfold updateBuilding. rewrite Hb. by destruct r.
Qed.

(** The rotate branch of a move. *)
Lemma pointerMove_rotate cos sin atan2 camera info hit this r b target dragPoint :
  activeTool this = select ->
  isDragging this = true ->
  dragTarget this = Some target ->
  draggingHandleType this = Some rotate ->
  selectedMesh this = Some r ->
  deref this r = Some b ->
  currentDragPoint camera info this = Some dragPoint ->
  selected (pointerMove cos sin atan2 camera info hit this)
  = Some (set_rotationY b
            (atan2 (Vector3.x dragPoint - Vector3.x (position b))
                   (Vector3.z dragPoint - Vector3.z (position b)))).
Proof.
  intros Htool Hdrag Ht Hrot Hi Hb Hp. unfold pointerMove.
  rewrite Htool, Hdrag, Ht, Hp, Hrot, Hi.
  assert (selected this = Some b) as -> by (unfold selected; by rewrite Hi).
  exact (proj1 (updateBuilding_selected r _ this b Hi Hb)).
Qed.

(** C9. While the rotate handle is dragged, a move that yields the drag
    point [dragPoint] sets the yaw of the selected building to
    [atan2 dx dz], [(dx, dz)] being the vector from the building's position
    to the drag point, whatever the yaw was before: from any two prior yaws
    the move ends in the same yaw. *)
Theorem rotate_is_absolute cos sin atan2 info this canvas r b target dragPoint
    (yaw1 yaw2 : number) :
  getRenderingCanvas (engine this) = Some canvas ->
  type info = POINTERMOVE ->
  activeTool this = select ->
  isDragging this = true ->
  dragTarget this = Some target ->
  draggingHandleType this = Some rotate ->
  selectedMesh this = Some r ->
  deref this r = Some b ->
  currentDragPoint (cameraAt canvas (offsetX info) (offsetY info)) info
    (switchInput (newViewport canvas (offsetX info) (offsetY info)) this)
  = Some dragPoint ->
  rotationY
    <$> selected (handlePointer cos sin atan2 info
                    (updateBuilding r (fun b => set_rotationY b yaw1) this))
  = Some (atan2 (Vector3.x dragPoint - Vector3.x (position b))
                (Vector3.z dragPoint - Vector3.z (position b)))
  /\ rotationY
       <$> selected (handlePointer cos sin atan2 info
                       (updateBuilding r (fun b => set_rotationY b yaw2) this))
     = rotationY
         <$> selected (handlePointer cos sin atan2 info
                         (updateBuilding r (fun b => set_rotationY b yaw1) this)).
Proof.
  intros Hc Hty Htool Hdrag Ht Hrot Hi Hb Hp.
  set (viewport := newViewport canvas (offsetX info) (offsetY info)) in *.
  set (camera := cameraAt canvas (offsetX info) (offsetY info)) in *.
  destruct (switchInput_drag_state viewport this)
    as (Sb & Ssel & Stool & Sdrag & St & Srot).
  pose proof (switchInput_ghosts viewport this) as Sg.
  assert (forall yaw,
            rotationY
              <$> selected (handlePointer cos sin atan2 info
                              (updateBuilding r (fun b => set_rotationY b yaw) this))
            = Some (atan2 (Vector3.x dragPoint - Vector3.x (position b))
                          (Vector3.z dragPoint - Vector3.z (position b)))) as Hyaw.
  { intros yaw.
    assert (getRenderingCanvas
              (engine (updateBuilding r (fun b => set_rotationY b yaw) this))
            = Some canvas) as Hc'.
    { unfold updateBuilding. rewrite Hb. by destruct r. }
    rewrite (handlePointer_unfold _ _ _ _ _ _ Hc'). cbv zeta. rewrite Hty.
    fold viewport camera. rewrite switchInput_updateBuilding.
    set (s1 := switchInput viewport this) in *.
    assert (selectedMesh s1 = Some r) as Hi1 by congruence.
    assert (deref s1 r = Some b) as Hb1
      by (by rewrite (deref_ext s1 this r Sb Sg)).
    destruct (updateBuilding_selected r (fun b => set_rotationY b yaw) s1 b Hi1 Hb1)
      as [Hsel' Hi'].
    apply selected_Some in Hsel' as (r' & Hi'' & Hb').
    assert (r' = r) as -> by congruence.
    assert (forall s1', s1' = updateBuilding r (fun b => set_rotationY b yaw) s1 ->
              activeTool s1' = activeTool s1 /\ isDragging s1' = isDragging s1
              /\ dragTarget s1' = dragTarget s1
              /\ draggingHandleType s1' = draggingHandleType s1) as Hkeep.
    { intros s1' ->. unfold updateBuilding. rewrite Hb1. by destruct r. }
    destruct (Hkeep _ eq_refl) as (Ktool & Kdrag & Kt & Krot).
    rewrite (pointerMove_rotate cos sin atan2 camera info _ _ r
               (set_rotationY b yaw) target dragPoint);
      [done | congruence | congruence | congruence | congruence
      | exact Hi' | exact Hb' |].
    by rewrite (currentDragPoint_yaw camera info s1 r b yaw Hi1 Hb1). }
  split; [apply Hyaw |]. by rewrite !Hyaw.
Qed.

Example demoDragPoint_value :
  Vector3.equiv demoDragPoint (Vector3.mk 3 0 4)
  /\ Mesh.handleType (Mesh.metadata demoRotateHandle) = Some rotate.
Proof. vm_compute. repeat split; congruence. Qed.

Example rotatingDemo_drag_state :
  isDragging rotatingDemo = true
  /\ dragTarget rotatingDemo = Some demoRotateHandle
  /\ draggingHandleType rotatingDemo = Some rotate
  /\ activeViewport rotatingDemo = plan
  /\ isoControl rotatingDemo = false.
Proof. vm_compute. repeat split; reflexivity. Qed.

(** C9 on the demo: from yaw 0 and from yaw 1/3 the move ends in the same
    yaw, the stand-in [demoAtan2 3 4]. *)
Lemma rotate_is_absolute_witness :
  rotationY
    <$> selected (handlePointer demoCos demoSin demoAtan2 (moveTo (Vector3.mk 3 0 4))
                    (updateBuilding (Stored 0) (fun b => set_rotationY b 0) rotatingDemo))
  = Some (demoAtan2 (Vector3.x demoDragPoint - Vector3.x (position gableAtOrigin))
                    (Vector3.z demoDragPoint - Vector3.z (position gableAtOrigin)))
  /\ rotationY
       <$> selected (handlePointer demoCos demoSin demoAtan2 (moveTo (Vector3.mk 3 0 4))
                       (updateBuilding (Stored 0) (fun b => set_rotationY b (1 # 3))
                          rotatingDemo))
     = rotationY
         <$> selected (handlePointer demoCos demoSin demoAtan2 (moveTo (Vector3.mk 3 0 4))
                         (updateBuilding (Stored 0) (fun b => set_rotationY b 0)
                            rotatingDemo)).
Proof.
  apply (rotate_is_absolute demoCos demoSin demoAtan2 (moveTo (Vector3.mk 3 0 4))
           rotatingDemo (mkCanvas 1000 600) (Stored 0) gableAtOrigin demoRotateHandle
           demoDragPoint 0 (1 # 3));
    reflexivity.
Defined.

(** ** The size invariant along the pointer state machine *)

Lemma all_min_sized_ext this this' :
  buildings this' = buildings this -> all_min_sized this -> all_min_sized this'.
Proof. unfold all_min_sized. by intros ->. Qed.

Lemma maskBuilding_min_sized mask b : min_sized b -> min_sized (maskBuilding mask b).
Proof. done. Qed.

Lemma selectBuilding_min_sized root this :
  all_min_sized this -> all_min_sized (selectBuilding root this).
Proof.
  intros Hall. unfold selectBuilding. case_decide; [done |].
  unfold all_min_sized in *.
  rewrite invoke_buildings, notifyDimensions_buildings,
    updateElevationCamera_buildings, createHandles_buildings. simpl.
  apply Forall_lookup. intros j b Hj.
  rewrite list_lookup_imap in Hj.
  destruct (buildings this !! j) as [b0 |] eqn:Hb0; [| done].
  injection Hj as <-. apply maskBuilding_min_sized. by eapply Forall_lookup_1.
Qed.

Lemma createBuilding_min_sized pos ty this :
  all_min_sized this -> all_min_sized (createBuilding pos ty this).
Proof.
  intros Hall. unfold createBuilding. apply selectBuilding_min_sized.
  unfold all_min_sized in *. simpl. apply Forall_app. split; [done |].
  repeat constructor; vm_compute; congruence.
Qed.

Lemma updateBuilding_min_sized r f this :
  (forall b, metadata (f b) = metadata b) ->
  all_min_sized this -> all_min_sized (updateBuilding r f this).
Proof.
  intros Hf Hall. unfold updateBuilding.
  destruct (deref this r) as [b |] eqn:Hb; [| done].
  destruct r as [i | k]; [| done].
  unfold all_min_sized in *. simpl. apply Forall_insert; [done |].
  unfold min_sized. rewrite Hf. by eapply (Forall_lookup_1 _ _ _ _ Hall).
Qed.

Lemma commitMetadata_min_sized r b md this :
  deref this r = Some b ->
  width md = width (metadata b) -> depth md = depth (metadata b) ->
  all_min_sized this -> all_min_sized (commitMetadata r b md this).
Proof.
  intros Hb Ew Ed Hall. unfold commitMetadata.
  eapply all_min_sized_ext; [apply createHandles_buildings |].
  destruct r as [i | k]; [| done].
  unfold all_min_sized in *. simpl. apply Forall_insert; [done |].
  unfold min_sized. simpl. rewrite Ew, Ed.
  by eapply (Forall_lookup_1 _ _ _ _ Hall).
Qed.

Lemma setEavesHeight_min_sized h this :
  all_min_sized this -> all_min_sized (setEavesHeight h this).
Proof.
  intros Hall. unfold setEavesHeight, selected.
  destruct (selectedMesh this) as [r |]; [| done].
  destruct (deref this r) as [b |] eqn:Hb; [| done].
  eapply all_min_sized_ext; [apply notifyDimensions_buildings |].
  by apply commitMetadata_min_sized.
Qed.

Lemma setRidgeHeight_min_sized r this :
  all_min_sized this -> all_min_sized (setRidgeHeight r this).
Proof.
  intros Hall. unfold setRidgeHeight, selected.
  destruct (selectedMesh this) as [i |]; [| done].
  destruct (deref this i) as [b |] eqn:Hb; [| done].
  eapply all_min_sized_ext; [apply notifyDimensions_buildings |].
  by apply commitMetadata_min_sized.
Qed.

Lemma setTool_min_sized tool this :
  all_min_sized this -> all_min_sized (setTool tool this).
Proof.
  intros Hall. unfold setTool.
  eapply all_min_sized_ext; [apply invoke_buildings | done].
Qed.

(** The preview ghost is no building of the store. *)
Lemma disposePreview_buildings this :
  buildings (disposePreview this) = buildings this.
Proof.
  unfold disposePreview, disposeRoot, updateBuilding. by repeat case_match.
Qed.

Lemma movePreview_buildings type hit this :
  buildings (movePreview type hit this) = buildings this.
Proof.
  unfold movePreview, updateBuilding.
  repeat case_match; simpl; by rewrite ?disposePreview_buildings.
Qed.

Lemma pointerDown_min_sized cos sin isPlan evtButton hit this :
  all_min_sized this ->
  all_min_sized (pointerDown cos sin isPlan evtButton hit this).
Proof.
  intros Hall. unfold pointerDown.
  destruct (negb (evtButton =? 0)%Z); [done |].
  destruct hit as [hit |]; [| by destruct (activeTool this)].
  destruct (activeTool this).
  - destruct (Mesh.type (Mesh.metadata (pickedMesh hit))) as [[] |].
    + by destruct (_ && _).
    + pose proof (selectBuilding_min_sized (Mesh.parent (pickedMesh hit)) this Hall)
        as Hsel.
      destruct isPlan; [| done].
      destruct (selectedMesh _); [| done].
      by destruct (selected _).
    + by apply selectBuilding_min_sized.
    + by apply selectBuilding_min_sized.
  - eapply all_min_sized_ext; [apply disposePreview_buildings |].
    by apply setTool_min_sized, createBuilding_min_sized.
  - eapply all_min_sized_ext; [apply disposePreview_buildings |].
    by apply setTool_min_sized, createBuilding_min_sized.
Qed.

Lemma pointerMove_min_sized cos sin atan2 camera info hit this :
  all_min_sized this ->
  all_min_sized (pointerMove cos sin atan2 camera info hit this).
Proof.
  intros Hall. unfold pointerMove.
  destruct (activeTool this);
    [| eapply all_min_sized_ext; [apply movePreview_buildings | done]
     | eapply all_min_sized_ext; [apply movePreview_buildings | done]].
  destruct (isDragging this); [| done].
  assert (all_min_sized
            match draggingBuilding this, currentDragPoint camera info this with
            | Some j, Some dragPoint =>
                updateElevationCamera
                  (updateBuilding j
                     (fun b => set_position b
                        (Vector3.set_z
                           (Vector3.set_x (position b) (Vector3.x dragPoint))
                           (Vector3.z dragPoint))) this)
            | _, _ => this
            end) as Hrelocate.
  { destruct (draggingBuilding this); [| done].
    destruct (currentDragPoint camera info this); [| done].
    eapply all_min_sized_ext; [apply updateElevationCamera_buildings |].
    by apply updateBuilding_min_sized. }
  destruct (dragTarget this); [| done].
  destruct (currentDragPoint camera info this) as [dragPoint |]; [| done].
  assert (all_min_sized
            (notifyDimensions
               (updateElevationCamera (handleResize cos sin dragPoint this))))
    as Hresize.
  { eapply all_min_sized_ext;
      [by rewrite notifyDimensions_buildings, updateElevationCamera_buildings |].
    by apply handleResize_min_sized. }
  destruct (draggingHandleType this) as [[] |]; try done.
  - destruct (selectedMesh this); [| done].
    destruct (selected this); [| done].
    by apply updateBuilding_min_sized.
  - by apply setEavesHeight_min_sized.
  - by apply setRidgeHeight_min_sized.
Qed.

(** Every pointer event keeps every building at least [MIN_SIZE] wide and
    deep; so does every run of events from the freshly built controller. *)
Lemma handlePointer_min_sized cos sin atan2 info this :
  all_min_sized this -> all_min_sized (handlePointer cos sin atan2 info this).
Proof.
  intros Hall.
  destruct (getRenderingCanvas (engine this)) as [canvas |] eqn:Hc;
    [| unfold handlePointer; by rewrite Hc].
  rewrite (handlePointer_unfold _ _ _ _ _ _ Hc). cbv zeta.
  assert (all_min_sized
            (switchInput (newViewport canvas (offsetX info) (offsetY info)) this))
    as Hs.
  { eapply all_min_sized_ext; [| done]. apply switchInput_drag_state. }
  assert (all_min_sized
            (pointerUp
               (switchInput (newViewport canvas (offsetX info) (offsetY info)) this)))
    as Hup by (unfold pointerUp; by case_match).
  destruct (type info);
    destruct (isElevationView canvas (offsetX info) (offsetY info));
    try done;
    try (by apply pointerDown_min_sized);
    by apply pointerMove_min_sized.
Qed.

Lemma reachable_min_sized cos sin atan2 engine listeners (events : list PointerInfo) :
  all_min_sized
    (fold_left (fun s e => handlePointer cos sin atan2 e s) events
       (initialController engine listeners)).
Proof.
  assert (all_min_sized (initialController engine listeners)) as Hinit
    by constructor.
  revert Hinit. generalize (initialController engine listeners).
  induction events as [| e events IH]; intros this Hall; [done |].
  simpl. apply IH. by apply handlePointer_min_sized.
Qed.

Example corner_drag_through_pointer :
  let after :=
    fold_left (fun s e => handlePointer demoCos demoSin demoAtan2 e s)
      [pressCorner; moveTo (Vector3.mk (-3) 0 (-1))] gableDemo in
  (fun b => (Qred (width (metadata b)), Qred (depth (metadata b)),
             Qred (Vector3.x (position b)), Qred (Vector3.z (position b))))
    <$> selected after = Some (8, 4, 1, 1)
  /\ (fun h => (Mesh.handleType (Mesh.metadata h), Mesh.index (Mesh.metadata h)))
       <$> dragTarget after = Some (Some corner, Some 0%nat)
  /\ isDragging after = true.
Proof. vm_compute. repeat split; reflexivity. Qed.

(** * Further properties of the code *)

(** ** The height drag of the application, end to end *)

(** Split every [Qmin] and [Qmax] of the goal and of the hypotheses. *)
Ltac split_all_minmax :=
  repeat match goal with
    | |- context [Qmin ?a ?b] =>
        let H := fresh "Hmin" in
        let q := fresh "q" in
        destruct (Q.min_spec a b) as [[? H] | [? H]];
        set (q := Qmin a b) in *; clearbody q
    | |- context [Qmax ?a ?b] =>
        let H := fresh "Hmax" in
        let q := fresh "q" in
        destruct (Q.max_spec a b) as [[? H] | [? H]];
        set (q := Qmax a b) in *; clearbody q
    | _ : context [Qmin ?a ?b] |- _ =>
        let H := fresh "Hmin" in
        let q := fresh "q" in
        destruct (Q.min_spec a b) as [[? H] | [? H]];
        set (q := Qmin a b) in *; clearbody q
    | _ : context [Qmax ?a ?b] |- _ =>
        let H := fresh "Hmax" in
        let q := fresh "q" in
        destruct (Q.max_spec a b) as [[? H] | [? H]];
        set (q := Qmax a b) in *; clearbody q
    end.

(** The request of the drag handler is clamped: an eaves request is at
    least 1, a ridge request at most 30. *)
Lemma requestedHeight_range app clientY :
  (App.draggingHandle app = Some eaves ->
   1 <= App.requestedHeight app clientY)
  /\ (App.draggingHandle app = Some ridge ->
      App.requestedHeight app clientY <= 30).
Proof.
  unfold App.requestedHeight. split; intros ->.
  - apply Q.le_max_l.
  - generalize (App.initialHeight app
                + (App.dragStartY app - clientY)
                  / match App.dragMode app with
                    | App.debug => 200 / 30
                    | App.projected => or_default (App.pixelsPerMeter app) 1
                    end).
    intros n. split_all_minmax; lra.
Qed.

(** Whatever the React state of the application holds (even stale
    heights) and wherever the pointer is, a move of the height drag leaves
    the selected building with eaves at least 1, slope at least 0.5 and
    ridge at most 30, and does not touch its width, depth, position or
    yaw. *)
Theorem app_drag_keeps_heights app clientY this b :
  selected this = Some b ->
  healthy (metadata b) ->
  exists b', selected (App.handleMove app clientY this) = Some b'
    /\ healthy (metadata b')
    /\ width (metadata b') = width (metadata b)
    /\ depth (metadata b') = depth (metadata b)
    /\ position b' = position b
    /\ rotationY b' = rotationY b.
Proof.
  intros Hb (He & Hs & Hr). unfold App.handleMove.
  destruct (requestedHeight_range app clientY) as [Heaves Hridge].
  destruct (App.draggingHandle app) as [[] |].
  - specialize (Heaves eq_refl).
    eexists. split; [by apply setEavesHeight_selected |].
    unfold healthy. rewrite rebuildMesh_metadata. simpl.
    generalize dependent (App.requestedHeight app clientY). intros n Hn.
    repeat split; try done; split_all_minmax; lra.
  - specialize (Hridge eq_refl).
    eexists. split; [by apply setRidgeHeight_selected |].
    unfold healthy. rewrite rebuildMesh_metadata. simpl.
    generalize dependent (App.requestedHeight app clientY). intros n Hn.
    destruct (Qlt_le_dec _ 0.5); repeat split; try done; lra.
  - by exists b.
Qed.

Lemma gableAtOrigin_healthy : healthy (metadata gableAtOrigin).
Proof. vm_compute. repeat split; congruence. Qed.

Lemma app_drag_keeps_heights_witness :
  exists b', selected (App.handleMove demoApp (-4700) gableDemo) = Some b'
    /\ healthy (metadata b')
    /\ width (metadata b') = width (metadata gableAtOrigin)
    /\ depth (metadata b') = depth (metadata gableAtOrigin)
    /\ position b' = position gableAtOrigin
    /\ rotationY b' = rotationY gableAtOrigin.
Proof.
  exact (app_drag_keeps_heights demoApp (-4700) gableDemo gableAtOrigin
           gableDemo_selected gableAtOrigin_healthy).
Defined.

(** The same drag, evaluated: the request 504 is clamped to 5.5 by the
    application, the slope shrinks to 0.5. *)
Example app_drag_evaluated :
  (fun b => (Qred (height (metadata b)), Qred (slope (metadata b))))
    <$> selected (App.handleMove demoApp (-4700) gableDemo)
  = Some (11 # 2, 1 # 2).
Proof. reflexivity. Qed.

(** ** The elevation thumbnails *)

(** The scale is positive, at most 7.5, and small enough for the largest
    dimension to span at most the 140 pixels between the paddings. *)
Lemma SCALE_fits props :
  0 < ElevationSelector.width props ->
  0 < ElevationSelector.SCALE props <= 7.5
  /\ ElevationSelector.width props * ElevationSelector.SCALE props <= 140
  /\ ElevationSelector.depth props * ElevationSelector.SCALE props <= 140
  /\ (ElevationSelector.height props
      + match ElevationSelector.roofType props with
        | Flat => 0.5
        | Gable => ElevationSelector.slope props
        end) * ElevationSelector.SCALE props <= 140.
Proof.
  intros Hw. unfold ElevationSelector.SCALE, ElevationSelector.BOX_SIZE,
    ElevationSelector.PADDING.
  set (totalH := ElevationSelector.height props + _).
  set (maxDim := Qmax (Qmax (ElevationSelector.width props)
                         (ElevationSelector.depth props)) totalH).
  assert (ElevationSelector.width props <= maxDim
          /\ ElevationSelector.depth props <= maxDim /\ totalH <= maxDim)
    as (Hmw & Hmd & Hmh).
  { unfold maxDim. split_all_minmax; lra. }
  assert (0 < maxDim) as Hpos by lra.
  assert ((180 - 20 * 2) / maxDim * maxDim == 140) as Hfit by (field; lra).
  assert (0 < (180 - 20 * 2) / maxDim) as Hfitpos.
  { apply Qlt_shift_div_l; lra. }
  generalize dependent ((180 - 20 * 2) / maxDim). intros fitScale Hfit Hfitpos.
  clearbody maxDim totalH.
  destruct (Q.min_spec 7.5 fitScale) as [[Hlt Hs] | [Hle Hs]];
    rewrite Hs; (split; [lra |]); repeat split; nra.
Qed.

(** For a building with positive width and depth and non-negative height
    and slope, every thumbnail stays inside its 180 x 180 box, however
    large the building: the walls and a gable roof stay within the padded
    area [20, 160], a flat roof overhangs it by at most 3.75 pixels. *)
Theorem thumbnail_fits props viewDir :
  0 < ElevationSelector.width props ->
  0 < ElevationSelector.depth props ->
  0 <= ElevationSelector.height props ->
  0 <= ElevationSelector.slope props ->
  Forall (within 20 160)
    (ElevationSelector.basePath (ElevationSelector.renderThumbnail props viewDir))
  /\ Forall (within 16.25 163.75)
       (ElevationSelector.roofPath (ElevationSelector.renderThumbnail props viewDir))
  /\ (ElevationSelector.roofType props = Gable ->
      Forall (within 20 160)
        (ElevationSelector.roofPath
           (ElevationSelector.renderThumbnail props viewDir))).
Proof.
  intros Hw Hd Hh Hs.
  destruct (SCALE_fits props Hw) as ((Hpos & Hcap) & Hsw & Hsd & Hsh).
  unfold ElevationSelector.renderThumbnail, ElevationSelector.BOX_SIZE,
    ElevationSelector.PADDING.
  set (scale := ElevationSelector.SCALE props) in *.
  assert (0 <= ElevationSelector.width props * scale) by nra.
  assert (0 <= ElevationSelector.depth props * scale) by nra.
  assert (0 <= ElevationSelector.height props * scale) by nra.
  assert (0 <= ElevationSelector.slope props * scale) by nra.
  destruct (ElevationSelector.roofType props) eqn:Hroof, viewDir; simpl;
    (split; [| split]); try discriminate; intros;
    repeat constructor; unfold within; simpl; halves; lra.
Qed.

Lemma thumbnail_fits_witness :
  Forall (within 20 160)
    (ElevationSelector.basePath (ElevationSelector.renderThumbnail wideHouse S))
  /\ Forall (within 16.25 163.75)
       (ElevationSelector.roofPath (ElevationSelector.renderThumbnail wideHouse S))
  /\ (ElevationSelector.roofType wideHouse = Gable ->
      Forall (within 20 160)
        (ElevationSelector.roofPath (ElevationSelector.renderThumbnail wideHouse S))).
Proof.
  apply (thumbnail_fits wideHouse S); vm_compute; congruence.
Defined.

(** The south view of the wide house, evaluated: the scale is 140 / 400
    and the walls span the whole padded width. *)
Example wide_thumbnail_evaluated :
  (fun p => (Qred p.1, Qred p.2))
    <$> ElevationSelector.basePath (ElevationSelector.renderThumbnail wideHouse S)
  = [(20, 160); (160, 160); (160, 793 # 5); (20, 793 # 5)].
Proof. reflexivity. Qed.

(** ** The viewfinder of the map selector *)

(** However far the resize handle is dragged, the viewfinder is between
    20 and 90 percent wide and keeps the aspect ratio it is given; its
    crop of the captured canvas is then centred and horizontally inside
    the canvas, and vertically inside exactly when the derived height is
    at most 100 percent. *)
Theorem viewfinder_resize aspect startX startW vw vh canvasWidth canvasHeight clientX :
  0 < aspect -> 0 < vw -> 0 < vh -> 0 < canvasWidth -> 0 < canvasHeight ->
  20 <= MapSelector.w (MapSelector.resize aspect startX startW vw clientX) <= 90
  /\ MapSelector.h (MapSelector.resize aspect startX startW vw clientX) * aspect
     == MapSelector.w (MapSelector.resize aspect startX startW vw clientX)
  /\ 0 <= MapSelector.cropX
            (MapSelector.crop vw vh canvasWidth canvasHeight
               (MapSelector.resize aspect startX startW vw clientX))
  /\ MapSelector.cropX
       (MapSelector.crop vw vh canvasWidth canvasHeight
          (MapSelector.resize aspect startX startW vw clientX)) * 2
     + MapSelector.cropW
         (MapSelector.crop vw vh canvasWidth canvasHeight
            (MapSelector.resize aspect startX startW vw clientX))
     == canvasWidth
  /\ MapSelector.cropY
       (MapSelector.crop vw vh canvasWidth canvasHeight
          (MapSelector.resize aspect startX startW vw clientX)) * 2
     + MapSelector.cropH
         (MapSelector.crop vw vh canvasWidth canvasHeight
            (MapSelector.resize aspect startX startW vw clientX))
     == canvasHeight
  /\ (0 <= MapSelector.cropY
             (MapSelector.crop vw vh canvasWidth canvasHeight
                (MapSelector.resize aspect startX startW vw clientX))
      <-> MapSelector.h (MapSelector.resize aspect startX startW vw clientX) <= 100).
Proof.
  intros Ha Hvw Hvh Hcw Hch. unfold MapSelector.resize, MapSelector.crop. simpl.
  generalize (startW + (clientX - startX) / vw * 100 * 2). intros n.
  assert (20 <= Qmax 20 (Qmin 90 n) <= 90) as Hrange
    by (split_all_minmax; lra).
  generalize dependent (Qmax 20 (Qmin 90 n)). intros newW Hrange.
  assert (newW / aspect * aspect == newW) as Haspect by (field; lra).
  assert (0 < newW / aspect) as Hhpos by (apply Qlt_shift_div_l; lra).
  generalize dependent (newW / aspect). intros newH Haspect Hhpos.
  assert (forall v c p : number, 0 < v -> 0 < c ->
            (v - v * p / 100) / 2 * (c / v) == c * (100 - p) / 200) as Hx
    by (intros; field; lra).
  assert (forall v c p : number, 0 < v ->
            v * p / 100 * (c / v) == c * p / 100) as Hw
    by (intros; field; lra).
  rewrite !Hx, !Hw by done.
  unfold Qdiv. change (/ 200) with (1 # 200). change (/ 100) with (1 # 100).
  repeat split; try done; intros; nra.
Qed.

Lemma viewfinder_resize_witness :
  20 <= MapSelector.w (MapSelector.resize (13 # 10) 500 60 1000 2000) <= 90
  /\ MapSelector.h (MapSelector.resize (13 # 10) 500 60 1000 2000) * (13 # 10)
     == MapSelector.w (MapSelector.resize (13 # 10) 500 60 1000 2000)
  /\ 0 <= MapSelector.cropX
            (MapSelector.crop 1000 800 2000 1600
               (MapSelector.resize (13 # 10) 500 60 1000 2000))
  /\ MapSelector.cropX
       (MapSelector.crop 1000 800 2000 1600
          (MapSelector.resize (13 # 10) 500 60 1000 2000)) * 2
     + MapSelector.cropW
         (MapSelector.crop 1000 800 2000 1600
            (MapSelector.resize (13 # 10) 500 60 1000 2000))
     == 2000
  /\ MapSelector.cropY
       (MapSelector.crop 1000 800 2000 1600
          (MapSelector.resize (13 # 10) 500 60 1000 2000)) * 2
     + MapSelector.cropH
         (MapSelector.crop 1000 800 2000 1600
            (MapSelector.resize (13 # 10) 500 60 1000 2000))
     == 1600
  /\ (0 <= MapSelector.cropY
             (MapSelector.crop 1000 800 2000 1600
                (MapSelector.resize (13 # 10) 500 60 1000 2000))
      <-> MapSelector.h (MapSelector.resize (13 # 10) 500 60 1000 2000) <= 100).
Proof.
  apply (viewfinder_resize (13 # 10) 500 60 1000 800 2000 1600 2000);
    reflexivity.
Defined.

(** ** Fitting the plan camera to the background image *)

(** For an image of positive size on a canvas of positive size, the plan
    camera is set to symmetric bounds of the aspect ratio of the plan
    viewport (the ratio reported to the map selector), wide and high
    enough to show the whole image with a margin of 10 percent, and tight
    in one of the two directions. *)
Theorem background_fits engine (width height : number) :
  0 < getRenderWidth engine -> 0 < getRenderHeight engine ->
  0 < width -> 0 < height ->
  orthoBottom (backgroundOrtho engine width height)
  == - orthoTop (backgroundOrtho engine width height)
  /\ orthoLeft (backgroundOrtho engine width height)
     == - orthoRight (backgroundOrtho engine width height)
  /\ orthoRight (backgroundOrtho engine width height)
     == orthoTop (backgroundOrtho engine width height)
        * planViewportAspectRatio engine
  /\ height / 2 * 1.1 <= orthoTop (backgroundOrtho engine width height)
  /\ width / 2 * 1.1 <= orthoRight (backgroundOrtho engine width height)
  /\ (orthoTop (backgroundOrtho engine width height) == height / 2 * 1.1
      \/ orthoRight (backgroundOrtho engine width height) == width / 2 * 1.1).
Proof.
  intros Hrw Hrh Hw Hh. unfold backgroundOrtho, planViewportAspectRatio. simpl.
  assert (0 < getRenderWidth engine / getRenderHeight engine * 0.65) as Hvr.
  { assert (0 < getRenderWidth engine / getRenderHeight engine)
      by (apply Qlt_shift_div_l; lra). lra. }
  assert (getRenderWidth engine * 0.65 / (getRenderHeight engine * 1.0)
          == getRenderWidth engine / getRenderHeight engine * 0.65) as ->
    by (field; lra).
  generalize dependent (getRenderWidth engine / getRenderHeight engine * 0.65).
  intros vr Hvr.
  assert (width / height * height == width) as Haspect by (field; lra).
  destruct (Qlt_le_dec vr (width / height)) as [Hwide | Htall].
  - assert (width / 2 * 1.1 / vr * vr == width / 2 * 1.1) as Htop by (field; lra).
    assert (0 < width / 2 * 1.1 / vr) by (apply Qlt_shift_div_l; halves; lra).
    generalize dependent (width / 2 * 1.1 / vr). intros top Htop Htoppos.
    generalize dependent (width / height). intros aspect Haspect Hwide.
    repeat split; try (halves; nra); try ring.
  - generalize dependent (width / height). intros aspect Haspect Htall.
    repeat split; try (halves; nra); try ring.
Qed.

(** A 60 m x 20 m image on the 1000 x 600 canvas (plan viewport ratio
    13/12): the width constrains. *)
Lemma background_fits_witness :
  orthoBottom (backgroundOrtho demoEngine 60 20)
  == - orthoTop (backgroundOrtho demoEngine 60 20)
  /\ orthoLeft (backgroundOrtho demoEngine 60 20)
     == - orthoRight (backgroundOrtho demoEngine 60 20)
  /\ orthoRight (backgroundOrtho demoEngine 60 20)
     == orthoTop (backgroundOrtho demoEngine 60 20) * planViewportAspectRatio demoEngine
  /\ 20 / 2 * 1.1 <= orthoTop (backgroundOrtho demoEngine 60 20)
  /\ 60 / 2 * 1.1 <= orthoRight (backgroundOrtho demoEngine 60 20)
  /\ (orthoTop (backgroundOrtho demoEngine 60 20) == 20 / 2 * 1.1
      \/ orthoRight (backgroundOrtho demoEngine 60 20) == 60 / 2 * 1.1).
Proof.
  apply (background_fits demoEngine 60 20); reflexivity.
Defined.

(** ** The shape of the scene along a run *)

(** The six parts of [structured], in order. *)
Ltac split_structured :=
  unfold structured; split; [| split; [| split; [| split; [| split]]]].

Lemma structured_ext this this' :
  structure this' = structure this -> structured this -> structured this'.
Proof.
  unfold structure. intros [= Hb Hs Hp Hg Hh Hbg] (S1 & S2 & S3 & S4 & S5 & S6).
  unfold structured. rewrite Hb, Hs, Hp, Hg, Hh, Hbg.
  split_structured; try done.
  intros r Hr. rewrite (deref_ext this' this) by done. by apply S1.
Qed.

Lemma invoke_structure installed call this :
  structure (invoke installed call this) = structure this.
Proof. by destruct installed. Qed.

Lemma notifyDimensions_structure this :
  structure (notifyDimensions this) = structure this.
Proof. unfold notifyDimensions. case_match; [apply invoke_structure | done]. Qed.

Lemma switchInput_structure viewport this :
  structure (switchInput viewport this) = structure this.
Proof.
  unfold switchInput, attachActive, invoke. by repeat case_match.
Qed.

Lemma setTool_structure tool this : structure (setTool tool this) = structure this.
Proof. unfold setTool. by rewrite invoke_structure. Qed.

Lemma refreshInput_structure x y this :
  structure (refreshInput x y this) = structure this.
Proof.
  unfold refreshInput, attachActive, invoke. by repeat case_match.
Qed.

Lemma pointerUp_structure this : structure (pointerUp this) = structure this.
Proof. unfold pointerUp. by case_match. Qed.

(** Other handles of the selection keep the scene in shape. *)
Lemma structured_handles this hs :
  structured this -> Forall (handle_ok (selectedMesh this)) hs ->
  structured (set_handles this hs).
Proof. intros (S1 & S2 & S3 & S4 & _ & S6) Hhs. by split_structured. Qed.

Lemma createHandles_handle_ok this :
  Forall (handle_ok (selectedMesh this)) (handles (createHandles this)).
Proof.
  unfold createHandles, selected.
  destruct (selectedMesh this) as [r |]; [| by constructor].
  destruct (deref this r) as [b |]; [| by constructor].
  simpl. destruct (roofType (metadata b)); simpl;
    repeat (apply Forall_cons; split;
            [unfold handle_ok, isGuide; simpl; repeat split; eauto |]);
    constructor.
Qed.

(** [createHandles] builds handles of the current selection, whatever
    handles there were. *)
Lemma createHandles_structured this :
  structured (set_handles this []) -> structured (createHandles this).
Proof.
  intros Hs.
  assert (createHandles this
          = set_handles (set_handles this []) (handles (createHandles this))) as ->.
  { unfold createHandles. by repeat case_match. }
  apply structured_handles; [done |]. exact (createHandles_handle_ok this).
Qed.

Lemma maskBuilding_solid_ok mask r b :
  Forall (solid_ok r) (children b) ->
  Forall (solid_ok r) (children (maskBuilding mask b)).
Proof.
  intros Hc. simpl. apply Forall_fmap.
  eapply Forall_impl; [exact Hc |]. by intros c (? & ? & ? & ?).
Qed.

Lemma maskBuilding_masked mask b :
  layerMask (maskBuilding mask b) = mask
  /\ Forall (fun c => Mesh.layerMask c = mask) (children (maskBuilding mask b)).
Proof.
  split; [done |]. simpl. apply Forall_fmap. by apply Forall_true.
Qed.

(** Looking up after a write, at the written place and elsewhere. *)
Lemma lookup_insert_is_Some (l : list Building) i j b :
  is_Some (l !! j) -> is_Some (<[i := b]> l !! j).
Proof.
  intros [b' Hb']. destruct (decide (i = j)) as [<- | Hne].
  - rewrite list_lookup_insert_eq by (by eapply lookup_lt_Some). by eexists.
  - rewrite list_lookup_insert_ne by done. by eexists.
Qed.

Lemma lookup_insert_cases (l : list Building) i j b b' :
  <[i := b]> l !! j = Some b' -> (i = j /\ b' = b) \/ (i <> j /\ l !! j = Some b').
Proof.
  intros Hj. destruct (decide (i = j)) as [<- | Hne].
  - left. destruct (l !! i) as [b0 |] eqn:Hb0.
    + rewrite list_lookup_insert_eq in Hj by (by eapply lookup_lt_Some).
      by injection Hj as <-.
    + apply lookup_lt_Some in Hj. rewrite length_insert in Hj.
      apply lookup_ge_None in Hb0. lia.
  - right. by rewrite list_lookup_insert_ne in Hj.
Qed.

Lemma selectBuilding_structured root this :
  (forall r, root = Some r -> is_Some (deref this r)) ->
  structured this -> structured (selectBuilding root this).
Proof.
  intros Hroot (S1 & S2 & S3 & S4 & S5 & S6). unfold selectBuilding.
  case_decide; [done |].
  eapply structured_ext; [apply invoke_structure |].
  eapply structured_ext; [apply notifyDimensions_structure |].
  eapply structured_ext.
  { instantiate (1 := createHandles _). reflexivity. }
  apply createHandles_structured.
  split_structured; simpl; try done.
  - intros r Hr. destruct (Hroot r Hr) as [b Hb].
    destruct r as [j | k]; simpl in *; [| by eexists].
    rewrite list_lookup_imap, Hb. by eexists.
  - intros j b Hj. rewrite list_lookup_imap in Hj.
    destruct (buildings this !! j) as [b0 |] eqn:Hb0; [| done].
    injection Hj as <-. destruct (S3 j b0 Hb0) as [Hsolid _]. split.
    + by apply maskBuilding_solid_ok.
    + intros Hne. rewrite decide_False by congruence.
      apply maskBuilding_masked.
Qed.

Lemma rebuildMesh_solid_ok r b : Forall (solid_ok r) (children (rebuildMesh r b)).
Proof.
  unfold rebuildMesh. simpl.
  destruct (roofType (metadata b)); repeat constructor.
Qed.

Lemma createBuilding_structured pos ty this :
  structured this -> structured (createBuilding pos ty this).
Proof.
  intros (S1 & S2 & S3 & S4 & S5 & S6). unfold createBuilding.
  apply selectBuilding_structured.
  { intros r [= <-]. simpl. rewrite list_lookup_middle by done. by eexists. }
  split_structured; simpl; try done.
  - intros r Hr. destruct (S1 r Hr) as [b Hb].
    destruct r as [j | k]; simpl in *; [| by eexists].
    rewrite lookup_app_l by (by eapply lookup_lt_Some). by eexists.
  - intros j b Hj. apply lookup_app_Some in Hj as [Hj | [Hlen Hj]].
    + by apply S3.
    + apply list_lookup_singleton_Some in Hj as [Hj <-].
      assert (j = length (buildings this)) as -> by lia. split.
      * apply maskBuilding_solid_ok, rebuildMesh_solid_ok.
      * intros _. apply maskBuilding_masked.
Qed.

(** A write to the selected root keeps the scene in shape as long as the
    new solids are its own, once the handles are rebuilt. *)
Lemma write_selected_structured this r b' :
  structured this ->
  selectedMesh this = Some r ->
  Forall (solid_ok r) (children b') ->
  structured (createHandles (assign r b' this)).
Proof.
  intros (S1 & S2 & S3 & S4 & S5 & S6) Hr Hsolid. apply createHandles_structured.
  destruct r as [i | k]; split_structured; simpl; try done.
  - intros r' Hr'. destruct (S1 r' Hr') as [b Hb].
    destruct r' as [j | k]; simpl in *; [| by eexists].
    apply lookup_insert_is_Some. by eexists.
  - intros j b Hj. rewrite Hr.
    apply lookup_insert_cases in Hj as [[<- ->] | [Hne Hj]]; [by split |].
    rewrite <- Hr. by apply S3.
  - intros r' Hr'. destruct (S1 r' Hr') as [b Hb].
    destruct r' as [j | k']; simpl in *; [by eexists |].
    apply lookup_insert_is_Some. by eexists.
  - intros k' Hk'. apply lookup_insert_is_Some. by apply S2.
  - intros k' g Hg.
    apply lookup_insert_cases in Hg as [[<- ->] | [Hne Hg]]; [done |].
    by eapply S4.
Qed.

Lemma commitMetadata_structured this r b md :
  structured this -> selectedMesh this = Some r ->
  structured (commitMetadata r b md this).
Proof.
  intros Hs Hi. unfold commitMetadata.
  apply write_selected_structured; [done | done | apply rebuildMesh_solid_ok].
Qed.

Lemma setEavesHeight_structured h this :
  structured this -> structured (setEavesHeight h this).
Proof.
  intros Hs. unfold setEavesHeight.
  destruct (selectedMesh this) as [i |] eqn:Hi; [| done].
  destruct (selected this); [| done].
  eapply structured_ext; [apply notifyDimensions_structure |].
  by apply commitMetadata_structured.
Qed.

Lemma setRidgeHeight_structured r this :
  structured this -> structured (setRidgeHeight r this).
Proof.
  intros Hs. unfold setRidgeHeight.
  destruct (selectedMesh this) as [i |] eqn:Hi; [| done].
  destruct (selected this); [| done].
  eapply structured_ext; [apply notifyDimensions_structure |].
  by apply commitMetadata_structured.
Qed.

Lemma setSlope_structured s this :
  structured this -> structured (setSlope s this).
Proof.
  intros Hs. unfold setSlope.
  destruct (selectedMesh this) as [i |] eqn:Hi; [| done].
  destruct (selected this); [| done].
  destruct (RoofType_eqb _ _); [| done].
  eapply structured_ext; [apply invoke_structure |].
  by apply commitMetadata_structured.
Qed.

Lemma handleResize_structure cos sin pickPoint this r b target :
  selectedMesh this = Some r ->
  deref this r = Some b ->
  dragTarget this = Some target ->
  structure (handleResize cos sin pickPoint this)
  = structure
      (createHandles
         (assign r (resized cos sin r b (boundsFor cos sin target pickPoint b))
            this)).
Proof.
  intros Hi Hb Ht. unfold handleResize, selected. rewrite Hi, Hb, Ht. cbv zeta.
  repeat case_match;
    try change (structure (set_dragTarget ?s ?t)) with (structure s);
    apply notifyDimensions_structure.
Qed.

Lemma handleResize_structured cos sin pickPoint this :
  structured this -> structured (handleResize cos sin pickPoint this).
Proof.
  intros Hs.
  destruct (selected this) as [b |] eqn:Hb;
    [| by rewrite handleResize_idle; auto].
  destruct (dragTarget this) as [target |] eqn:Ht;
    [| by rewrite handleResize_idle; auto].
  destruct (selected_Some _ _ Hb) as (i & Hi & Hl).
  eapply structured_ext; [by apply handleResize_structure |].
  apply write_selected_structured; [done | done | apply rebuildMesh_solid_ok].
Qed.

(** A write to any root that keeps its mask, and its solids or none. *)
Lemma updateBuilding_structured r f this :
  (forall b, (children (f b) = children b \/ children (f b) = [])
             /\ layerMask (f b) = layerMask b) ->
  structured this -> structured (updateBuilding r f this).
Proof.
  intros Hf (S1 & S2 & S3 & S4 & S5 & S6). unfold updateBuilding.
  destruct (deref this r) as [b |] eqn:Hb; [| done].
  destruct (Hf b) as [Hc Hm].
  destruct r as [i | k]; split_structured; simpl in *; try done.
  - intros r' Hr'. destruct (S1 r' Hr') as [b' Hb'].
    destruct r' as [j | k]; simpl in *; [| by eexists].
    apply lookup_insert_is_Some. by eexists.
  - intros j b' Hj.
    apply lookup_insert_cases in Hj as [[<- ->] | [Hne Hj]]; [| by apply S3].
    destruct (S3 i b Hb) as [Hsolid Hmask]. unfold building_ok. rewrite Hm.
    destruct Hc as [-> | ->]; [done |]. split; [constructor |].
    intros Hne. split; [by apply Hmask | constructor].
  - intros r' Hr'. destruct (S1 r' Hr') as [b' Hb'].
    destruct r' as [j | k']; simpl in *; [by eexists |].
    apply lookup_insert_is_Some. by eexists.
  - intros k' Hk'. apply lookup_insert_is_Some. by apply S2.
  - intros k' g Hg.
    apply lookup_insert_cases in Hg as [[<- ->] | [Hne Hg]]; [| by eapply S4].
    destruct Hc as [-> | ->]; [by eapply S4 | constructor].
Qed.

Lemma dispose_handle_ok sel (f : Mesh.t -> bool) hs :
  Forall (handle_ok sel) hs ->
  Forall (handle_ok sel) ((fun h => if f h then Mesh.dispose h else h) <$> hs).
Proof.
  intros Hhs. apply Forall_fmap. eapply Forall_impl; [exact Hhs |].
  intros h Hh. simpl. by destruct (f h).
Qed.

Lemma disposeRoot_structured r this :
  structured this -> structured (disposeRoot r this).
Proof.
  intros Hs. unfold disposeRoot.
  assert (structured (updateBuilding r (fun root => set_children root []) this))
    as Hs' by (apply updateBuilding_structured; [intros b; auto | done]).
  apply structured_handles; [done |].
  apply dispose_handle_ok. by destruct Hs' as (_ & _ & _ & _ & S5 & _).
Qed.

Lemma set_previewMesh_structured this k :
  is_Some (ghosts this !! k) -> structured this ->
  structured (set_previewMesh this (Some k)).
Proof.
  intros Hk (S1 & S2 & S3 & S4 & S5 & S6). split_structured; simpl; try done.
  by intros k' [= <-].
Qed.

Lemma disposePreview_structured this :
  structured this -> structured (disposePreview this).
Proof.
  intros Hs. unfold disposePreview. destruct (previewMesh this) as [k |]; [| done].
  destruct (disposeRoot_structured (Ghost k) this Hs)
    as (S1 & S2 & S3 & S4 & S5 & S6).
  by split_structured.
Qed.

Lemma previewRoot_solid_ok k type :
  Forall (solid_ok (Ghost k)) (children (previewRoot k type)).
Proof. unfold previewRoot. destruct type; repeat constructor. Qed.

Lemma movePreview_structured type hit this :
  structured this -> structured (movePreview type hit this).
Proof.
  intros Hs. unfold movePreview.
  set (current := match previewMesh this ≫= _ with Some _ => _ | None => _ end).
  set (this1 := if current then this else _).
  assert (structured this1) as Hs1.
  { subst this1. destruct current; [done |].
    pose proof (disposePreview_structured this Hs) as (S1 & S2 & S3 & S4 & S5 & S6).
    set (this0 := disposePreview this) in *.
    split_structured; simpl; try done.
    - intros r Hr. destruct (S1 r Hr) as [b Hb].
      destruct r as [j | k]; simpl in *; [by eexists |].
      rewrite lookup_app_l by (by eapply lookup_lt_Some). by eexists.
    - intros k [= <-]. rewrite list_lookup_middle by done. by eexists.
    - intros k g Hg. apply lookup_app_Some in Hg as [Hg | [Hlen Hg]].
      + by eapply S4.
      + apply list_lookup_singleton_Some in Hg as [Hk <-].
        assert (k = length (ghosts this0)) as -> by lia.
        apply previewRoot_solid_ok. }
  destruct hit as [hit |]; [| done].
  destruct (previewMesh this1) as [k |]; [| done].
  apply updateBuilding_structured; [intros b; auto | done].
Qed.

(** A mesh that a filter keeps is a mesh of the list. *)
Lemma elem_of_filter (f : Mesh.t -> bool) m l :
  m ∈ List.filter f l <-> m ∈ l /\ f m = true.
Proof. rewrite !list_elem_of_In. apply filter_In. Qed.

(** The meshes of the scene, by kind. *)
Lemma sceneMeshes_cases this m :
  structured this ->
  m ∈ sceneMeshes this ->
  m = ground \/ m = backgroundMesh
  \/ (exists j b, buildings this !! j = Some b /\ m ∈ children b
                  /\ solid_ok (Stored j) m)
  \/ (exists k g, ghosts this !! k = Some g /\ m ∈ children g
                  /\ solid_ok (Ghost k) m)
  \/ (m ∈ handles this /\ handle_ok (selectedMesh this) m
      /\ Mesh.isDisposed m = false).
Proof.
  intros (S1 & S2 & S3 & S4 & S5 & S6) Hin. unfold sceneMeshes in Hin.
  apply elem_of_cons in Hin as [-> | Hin]; [by left |].
  apply elem_of_app in Hin as [Hin | Hin].
  { right. left. destruct S6 as [Hp | Hp]; rewrite Hp in Hin; simpl in Hin.
    - by apply elem_of_nil in Hin.
    - by apply list_elem_of_singleton in Hin. }
  apply elem_of_app in Hin as [Hin | Hin].
  { right. right. left. apply list_elem_of_bind in Hin as (b & Hm & Hb).
    apply list_elem_of_lookup in Hb as [j Hj].
    destruct (S3 j b Hj) as [Hsolid _]. rewrite Forall_forall in Hsolid.
    exists j, b. auto. }
  apply elem_of_app in Hin as [Hin | Hin].
  { right. right. right. left. apply list_elem_of_bind in Hin as (g & Hm & Hg).
    apply list_elem_of_lookup in Hg as [k Hk].
    pose proof (S4 k g Hk) as Hsolid. rewrite Forall_forall in Hsolid.
    exists k, g. auto. }
  right. right. right. right. apply elem_of_filter in Hin as [Hin Halive].
  rewrite Forall_forall in S5. split; [done |]. split; [by apply S5 |].
  unfold inScene in Halive. by destruct (Mesh.isDisposed m).
Qed.

(** A mesh of the scene tagged as a building is a solid of a building of
    the store or of a preview ghost. *)
Lemma sceneMeshes_solid this m :
  structured this ->
  m ∈ sceneMeshes this ->
  Mesh.type (Mesh.metadata m) = Some building ->
  exists r b, Mesh.parent m = Some r /\ deref this r = Some b /\ m ∈ children b.
Proof.
  intros Hs Hin Hty.
  destruct (sceneMeshes_cases this m Hs Hin)
    as [-> | [-> | [(j & b & Hj & Hm & Hp & _) | [(k & g & Hk & Hm & Hp & _)
                                                 | (_ & (_ & Hh & _) & _)]]]];
    try done.
  - by exists (Stored j), b.
  - by exists (Ghost k), g.
  - congruence.
Qed.

Lemma pointerDown_structured cos sin isPlan evtButton hit this :
  (forall h, hit = Some h -> pickedMesh h ∈ sceneMeshes this) ->
  structured this ->
  structured (pointerDown cos sin isPlan evtButton hit this).
Proof.
  intros Hhit Hs. unfold pointerDown.
  destruct (negb (evtButton =? 0)%Z); [done |].
  destruct hit as [hit |]; [| by destruct (activeTool this)].
  specialize (Hhit hit eq_refl).
  destruct (activeTool this).
  - destruct (Mesh.type (Mesh.metadata (pickedMesh hit))) as [[] |] eqn:Hty.
    + by destruct (_ && _).
    + destruct (sceneMeshes_solid this _ Hs Hhit Hty) as (r & b & Hp & Hr & _).
      assert (structured (selectBuilding (Mesh.parent (pickedMesh hit)) this))
        as Hsel.
      { apply selectBuilding_structured; [| done].
        intros r' Hr'. assert (r' = r) as -> by congruence. by eexists. }
      destruct isPlan; [| done].
      destruct (selectedMesh _); [| done].
      by destruct (selected _).
    + by apply selectBuilding_structured.
    + by apply selectBuilding_structured.
  - apply disposePreview_structured.
    eapply structured_ext; [apply setTool_structure |].
    by apply createBuilding_structured.
  - apply disposePreview_structured.
    eapply structured_ext; [apply setTool_structure |].
    by apply createBuilding_structured.
Qed.

Lemma pointerMove_structured cos sin atan2 camera info hit this :
  structured this -> structured (pointerMove cos sin atan2 camera info hit this).
Proof.
  intros Hs. unfold pointerMove.
  destruct (activeTool this); [| by apply movePreview_structured ..].
  destruct (isDragging this); [| done].
  assert (structured
            match draggingBuilding this, currentDragPoint camera info this with
            | Some j, Some dragPoint =>
                updateElevationCamera
                  (updateBuilding j
                     (fun b => set_position b
                        (Vector3.set_z
                           (Vector3.set_x (position b) (Vector3.x dragPoint))
                           (Vector3.z dragPoint))) this)
            | _, _ => this
            end) as Hrelocate.
  { destruct (draggingBuilding this); [| done].
    destruct (currentDragPoint camera info this); [| done].
    eapply structured_ext; [reflexivity |].
    apply updateBuilding_structured; [intros b; auto | done]. }
  destruct (dragTarget this); [| done].
  destruct (currentDragPoint camera info this) as [dragPoint |]; [| done].
  destruct (draggingHandleType this) as [[] |]; try done.
  - eapply structured_ext; [apply notifyDimensions_structure |].
    eapply structured_ext; [reflexivity |]. by apply handleResize_structured.
  - eapply structured_ext; [apply notifyDimensions_structure |].
    eapply structured_ext; [reflexivity |]. by apply handleResize_structured.
  - eapply structured_ext; [apply notifyDimensions_structure |].
    eapply structured_ext; [reflexivity |]. by apply handleResize_structured.
  - destruct (selectedMesh this); [| done].
    destruct (selected this); [| done].
    apply updateBuilding_structured; [intros b'; auto | done].
  - by apply setEavesHeight_structured.
  - by apply setRidgeHeight_structured.
Qed.

(** Both passes of the pick report a mesh of the list they are given. *)
Lemma pick_elem camera ray meshes hit :
  pick camera ray meshes = Some hit ->
  pickedMesh hit ∈ meshes
  /\ ray (pickedMesh hit) = Some (distance hit, pickedPoint hit)
  /\ fallbackPredicate camera (pickedMesh hit) = true.
Proof.
  unfold pick. intros Hpick.
  destruct (pickWithRay ray (priorityPredicate camera) meshes) as [first |] eqn:Hp.
  - injection Hpick as ->.
    destruct (pick_loop_sound _ _ _ _ _ Hp) as [? | (Hin & Hpred & Hr)]; [done |].
    repeat split; try done.
    apply priorityPredicate_spec in Hpred as [(_ & _ & _ & Hmask) _].
    unfold fallbackPredicate, maskVisible.
    by destruct (Z.eqb_spec (Z.land (Mesh.layerMask (pickedMesh hit))
                               (Camera_layerMask camera)) 0).
  - destruct (pick_loop_sound _ _ _ _ _ Hpick) as [? | (Hin & Hpred & Hr)]; done.
Qed.

Lemma handlePointer_structured cos sin atan2 info this :
  structured this -> structured (handlePointer cos sin atan2 info this).
Proof.
  intros Hs.
  destruct (getRenderingCanvas (engine this)) as [canvas |] eqn:Hc;
    [| unfold handlePointer; by rewrite Hc].
  rewrite (handlePointer_unfold _ _ _ _ _ _ Hc). cbv zeta.
  set (this' := switchInput _ this).
  assert (structured this') as Hs'
    by (eapply structured_ext; [apply switchInput_structure | done]).
  assert (structured (pointerUp this')) as Hup
    by (eapply structured_ext; [apply pointerUp_structure | done]).
  assert (forall camera,
            structured
              (pointerDown cos sin (isPlanView canvas (offsetX info)) (button info)
                 (pick camera (castRay info camera) (sceneMeshes this')) this'))
    as Hdown.
  { intros camera. apply pointerDown_structured; [| done].
    intros h Hh. by apply pick_elem in Hh as [? _]. }
  destruct (type info);
    destruct (isElevationView canvas (offsetX info) (offsetY info));
    try done; try apply Hdown; by apply pointerMove_structured.
Qed.

Lemma showHandle_ok sel camera h :
  handle_ok sel h -> handle_ok sel (showHandle camera h).
Proof. unfold showHandle. intros Hh. destruct camera; by repeat case_match. Qed.

Lemma beforeCameraRender_structured camera this :
  structured this -> structured (beforeCameraRender camera this).
Proof.
  intros Hs. apply structured_handles; [done |].
  apply Forall_fmap. destruct Hs as (_ & _ & _ & _ & S5 & _).
  eapply Forall_impl; [exact S5 |]. intros h. apply showHandle_ok.
Qed.

Lemma render_structured this : structured this -> structured (render this).
Proof.
  intros Hs. unfold render, activeCameras. simpl.
  by do 3 apply beforeCameraRender_structured.
Qed.

Lemma setBackgroundImage_structured width height this :
  structured this -> structured (setBackgroundImage width height this).
Proof.
  intros (S1 & S2 & S3 & S4 & S5 & S6). split_structured; try done. by right.
Qed.

Lemma execute_structured cos sin atan2 command this :
  structured this -> structured (execute cos sin atan2 command this).
Proof.
  intros Hs. destruct command as [| | | | | | | | | | app clientY |]; simpl.
  - by apply handlePointer_structured.
  - eapply structured_ext; [apply setTool_structure | done].
  - by apply setSlope_structured.
  - done.
  - by apply setEavesHeight_structured.
  - by apply setRidgeHeight_structured.
  - by apply setBackgroundImage_structured.
  - eapply structured_ext; [apply refreshInput_structure | done].
  - by apply render_structured.
  - done.
  - unfold App.handleMove. destruct (App.draggingHandle app) as [[] |];
      [by apply setEavesHeight_structured | by apply setRidgeHeight_structured
      | done].
  - eapply structured_ext; [apply refreshInput_structure | done].
Qed.

Lemma run_structured cos sin atan2 engine listeners commands :
  structured (run cos sin atan2 engine listeners commands).
Proof.
  unfold run.
  assert (structured (initialController engine listeners)) as Hinit.
  { split_structured; simpl; try done; try (by left); by constructor. }
  revert Hinit. generalize (initialController engine listeners).
  induction commands as [| c commands IH]; intros this Hs; [done |].
  simpl. apply IH. by apply execute_structured.
Qed.

Example demoRun_evaluated :
  (fun b => (roofType (metadata b), layerMask b, position b)) <$> buildings demoRun
  = [ (Gable, 3%Z, Vector3.Zero); (Flat, 7%Z, Vector3.mk 20 0 5) ]
  /\ selectedMesh demoRun = Some (Stored 1)
  /\ activeTool demoRun = select
  /\ length (handles demoRun) = 15%nat.
Proof. vm_compute. repeat split; reflexivity. Qed.

(** ** C5 after a rendered frame *)

(** A pass whose predicate rejects every mesh reports nothing. *)
Lemma pickWithRay_none ray predicate meshes :
  Forall (fun m => predicate m = false) meshes ->
  pickWithRay ray predicate meshes = None.
Proof.
  unfold pickWithRay. induction 1 as [| m meshes Hm _ IH]; [done |].
  cbn [fold_left]. replace (pickStep ray predicate None m) with (@None PickingInfo);
    [done |].
  unfold pickStep. by rewrite Hm.
Qed.

(** A frame renders the elevation camera last. *)
Lemma render_handles this :
  handles (render this)
  = (fun h =>
       showHandle elevationCamera (showHandle isoCamera (showHandle planCamera h)))
      <$> handles this.
Proof.
  unfold render, activeCameras, beforeCameraRender. simpl.
  by rewrite <- !list_fmap_compose.
Qed.

(** After a frame no handle but a guide is visible. *)
Lemma render_hides_handles this h :
  h ∈ handles (render this) -> isGuide h = false -> Mesh.isVisible h = false.
Proof.
  rewrite render_handles. intros Hin Hg.
  apply list_elem_of_fmap in Hin as (h0 & -> & _).
  unfold showHandle, isGuide in *. simpl in *.
  destruct (Mesh.handleType (Mesh.metadata h0)) as [[] |] eqn:Hkind;
    simpl in *; try done.
  destruct (Mesh.visualLines (Mesh.metadata h0)); simpl in *;
    by rewrite Hkind in Hg.
Qed.

(** After a frame the priority pass of a pick through the plan camera
    accepts no mesh of the scene. *)
Lemma render_blinds_plan this m :
  structured this -> m ∈ sceneMeshes (render this) ->
  priorityPredicate planCamera m = false.
Proof.
  intros Hs Hin. apply render_structured in Hs.
  destruct (sceneMeshes_cases _ m Hs Hin)
    as [-> | [-> | [(j & b & _ & _ & Hsolid) | [(k & g & _ & _ & Hsolid)
                                                | (Hh & _)]]]];
    try done.
  - destruct Hsolid as (_ & Ht & _). unfold priorityPredicate, isHandle.
    rewrite Ht. rewrite !andb_false_r. by destruct (_ && _).
  - destruct Hsolid as (_ & Ht & _). unfold priorityPredicate, isHandle.
    rewrite Ht. rewrite !andb_false_r. by destruct (_ && _).
  - unfold priorityPredicate. destruct (isGuide m) eqn:Hg; [done |].
    by rewrite (render_hides_handles _ _ Hh Hg).
Qed.

(** C5, and where the code falls short of it. The pick has two passes,
    and the priority pass accepts handles only, and no guide under the Plan
    camera. But it also asks a handle that is not a guide to be visible,
    and every frame ends with the elevation camera, for which the render
    loop hides the corner, edge and rotate handles. So from the first frame
    on the priority pass of a pick through the Plan camera accepts nothing
    at all, and the pick is the fallback pass, which returns the nearest
    mesh whatever it is. On [overlapRun]: before a frame is rendered, the
    press on [overlapRay] picks corner handle 0 of the gable, past the roof
    of the flat building 13.25 m above it, and starts dragging the corner;
    after a frame the handle is still tagged as a handle, pickable, shown by
    the Plan mask and met by the ray, but the same press picks the flat
    roof, selects the flat building and starts relocating it. *)
Theorem priority_pick_void_after_frame cos sin atan2 engine listeners commands
    (ray : Mesh.t -> option (number * Vector3.t)) :
  (forall m, isGuide m = true -> priorityPredicate planCamera m = false)
  /\ pickWithRay ray (priorityPredicate planCamera)
       (sceneMeshes (run cos sin atan2 engine listeners (commands ++ [Render])))
     = None
  /\ pick planCamera ray
       (sceneMeshes (run cos sin atan2 engine listeners (commands ++ [Render])))
     = pickWithRay ray (fallbackPredicate planCamera)
         (sceneMeshes (run cos sin atan2 engine listeners (commands ++ [Render])))
  /\ report (pick planCamera overlapRay (sceneMeshes overlapDemo))
     = Some (Some handle, Some corner, Some 0%nat, Some (Stored 1), 371 # 4)
  /\ draggingHandleType
       (handlePointer demoCos demoSin demoAtan2 pressOverlap overlapDemo)
     = Some corner
  /\ (fun m => (Mesh.handleType (Mesh.metadata m), Mesh.index (Mesh.metadata m),
                Mesh.isVisible m))
       <$> List.filter (expectedHandle planCamera overlapRay)
             (sceneMeshes renderedDemo)
     = [(Some corner, Some 0%nat, false)]
  /\ report (pick planCamera overlapRay (sceneMeshes renderedDemo))
     = Some (Some building, None, None, Some (Stored 0), 159 # 2)
  /\ selectedMesh
       (handlePointer demoCos demoSin demoAtan2 pressOverlap renderedDemo)
     = Some (Stored 0)
  /\ draggingBuilding
       (handlePointer demoCos demoSin demoAtan2 pressOverlap renderedDemo)
     = Some (Stored 0)
  /\ dragTarget
       (handlePointer demoCos demoSin demoAtan2 pressOverlap renderedDemo)
     = None.
Proof.
  split; [intros m Hg; unfold priorityPredicate; by rewrite Hg |].
  assert (pickWithRay ray (priorityPredicate planCamera)
            (sceneMeshes
               (run cos sin atan2 engine listeners (commands ++ [Render])))
          = None) as Hvoid.
  { apply pickWithRay_none, Forall_forall. intros m Hm.
    unfold run in Hm. rewrite fold_left_app in Hm. simpl in Hm.
    eapply render_blinds_plan; [| exact Hm]. apply run_structured. }
  split; [done |].
  split; [unfold pick; by rewrite Hvoid |].
  by vm_compute.
Qed.

(** The preview ghost can be selected: it then carries the 21 handles of
    a gable and the elevation camera aims at it, with the store empty.
    Rebuilt by a setter and left, it stays in sight of the elevation
    camera. And once a background image is set, a pick through the plan
    camera can return its plane. *)
Example ghostRun_evaluated :
  buildings ghostDemo = []
  /\ selectedMesh ghostDemo = Some (Ghost 0)
  /\ previewMesh ghostDemo = Some 0%nat
  /\ Mesh.parent <$> handles ghostDemo = replicate 21 (Some (Ghost 0))
  /\ elevationTarget ghostDemo = Vector3.mk 7 0 3
  /\ selectedMesh ghostLeft = None
  /\ handles ghostLeft = []
  /\ report (pick elevationCamera (fun _ => Some (1, Vector3.Zero))
               (sceneMeshes ghostLeft))
     = Some (Some building, None, None, Some (Ghost 0), 1)
  /\ pickedMesh
       <$> pick planCamera (fun _ => Some (1, Vector3.Zero))
             (sceneMeshes
                (setBackgroundImage 800 600
                   (initialController demoEngine allListeners)))
     = Some backgroundMesh.
Proof. by vm_compute. Qed.

Lemma PLAN_ISO_hidden_from_elevation (c : Mesh.t) :
  Mesh.layerMask c = PLAN_ISO_MASK -> maskVisible elevationCamera c = false.
Proof. unfold maskVisible. by intros ->. Qed.

(** The Elevation view shows one building of the store only: after any
    run of commands, a solid of a stored building that the elevation
    camera's mask shows belongs to the selected building. *)
Theorem elevation_shows_selection_only cos sin atan2 engine listeners commands j b c :
  buildings (run cos sin atan2 engine listeners commands) !! j = Some b ->
  c ∈ children b ->
  maskVisible elevationCamera c = true ->
  selectedMesh (run cos sin atan2 engine listeners commands) = Some (Stored j).
Proof.
  intros Hj Hc Hvisible.
  destruct (run_structured cos sin atan2 engine listeners commands)
    as (_ & _ & S3 & _).
  destruct (S3 j b Hj) as [_ Hmask].
  destruct (decide (selectedMesh (run cos sin atan2 engine listeners commands)
                    = Some (Stored j))) as [| Hne]; [done |].
  destruct (Hmask Hne) as [_ Hsolids]. rewrite Forall_forall in Hsolids.
  rewrite (PLAN_ISO_hidden_from_elevation c (Hsolids c Hc)) in Hvisible. done.
Qed.

Lemma elevation_shows_selection_only_witness :
  selectedMesh (run demoCos demoSin demoAtan2 demoEngine allListeners twoBuildings)
  = Some (Stored 1).
Proof.
  apply (elevation_shows_selection_only demoCos demoSin demoAtan2 demoEngine
           allListeners twoBuildings 1 demoFlat demoFlatWall).
  - by vm_compute.
  - apply list_elem_of_here.
  - by vm_compute.
Defined.

(** Each camera's pick stays within its view: after any run of commands,
    a pick through the plan camera never returns a guide nor the ground,
    in either pass, and a pick through the elevation camera returns a
    guide of the selection, a solid of the selected root or a solid of a
    preview ghost, never the ground, the background plane, a corner, edge
    or rotate handle, or a solid of a building of the store that is not
    selected. *)
Theorem picks_stay_in_view cos sin atan2 engine listeners commands
    (ray : Mesh.t -> option (number * Vector3.t)) hit :
  (pick planCamera ray
     (sceneMeshes (run cos sin atan2 engine listeners commands)) = Some hit ->
   isGuide (pickedMesh hit) = false /\ pickedMesh hit <> ground)
  /\ (pick elevationCamera ray
        (sceneMeshes (run cos sin atan2 engine listeners commands)) = Some hit ->
      (isGuide (pickedMesh hit) = true
       /\ Mesh.parent (pickedMesh hit)
          = selectedMesh (run cos sin atan2 engine listeners commands))
      \/ (exists r b,
            Mesh.parent (pickedMesh hit) = Some r
            /\ deref (run cos sin atan2 engine listeners commands) r = Some b
            /\ pickedMesh hit ∈ children b
            /\ Mesh.type (Mesh.metadata (pickedMesh hit)) = Some building
            /\ (selectedMesh (run cos sin atan2 engine listeners commands) = Some r
                \/ exists k, r = Ghost k))).
Proof.
  pose proof (run_structured cos sin atan2 engine listeners commands) as Hs.
  set (this := run cos sin atan2 engine listeners commands) in *.
  pose proof Hs as (_ & _ & S3 & _).
  split; intros Hpick; apply pick_elem in Hpick as (Hin & _ & Hmask);
    unfold fallbackPredicate in Hmask;
    destruct (sceneMeshes_cases this _ Hs Hin)
      as [Hg | [Hg | [(j & b & Hj & Hm & Hp & Hty & Hht & _)
                     | [(k & g & Hk & Hm & Hp & Hty & Hht & _)
                       | (_ & (Hp & Hty & _ & Hlm) & _)]]]];
    try (rewrite Hg in Hmask; discriminate).
  - rewrite Hg. by split.
  - unfold isGuide. rewrite Hht. split; [done |].
    intros Hg. by rewrite Hg in Hty.
  - unfold isGuide. rewrite Hht. split; [done |].
    intros Hg. by rewrite Hg in Hty.
  - split; [| intros Hg; by rewrite Hg in Hty].
    destruct (isGuide (pickedMesh hit)); [| done].
    unfold maskVisible in Hmask. by rewrite Hlm in Hmask.
  - right. exists (Stored j), b. repeat split; try done. left.
    destruct (decide (selectedMesh this = Some (Stored j))) as [| Hne]; [done |].
    destruct (S3 j b Hj) as [_ Hiso].
    destruct (Hiso Hne) as [_ Hsolids]. rewrite Forall_forall in Hsolids.
    by rewrite (PLAN_ISO_hidden_from_elevation _ (Hsolids _ Hm)) in Hmask.
  - right. exists (Ghost k), g. repeat split; try done. right. by exists k.
  - left. split; [| done].
    destruct (isGuide (pickedMesh hit)); [done |].
    unfold maskVisible in Hmask. by rewrite Hlm in Hmask.
Qed.

Example demoPick_is_corner :
  Mesh.handleType (Mesh.metadata (pickedMesh demoPick)) = Some corner
  /\ Mesh.index (Mesh.metadata (pickedMesh demoPick)) = Some 0%nat
  /\ Mesh.parent (pickedMesh demoPick) = Some (Stored 1).
Proof. vm_compute. repeat split; reflexivity. Qed.

Lemma picks_stay_in_view_witness :
  isGuide (pickedMesh demoPick) = false /\ pickedMesh demoPick <> ground.
Proof.
  apply (proj1 (picks_stay_in_view demoCos demoSin demoAtan2 demoEngine
                  allListeners twoBuildings (fun _ => Some (1, Vector3.Zero))
                  demoPick)).
  by vm_compute.
Defined.

(** ** Footprints of the methods *)

Lemma same_outside_refl touched this : same_outside touched this this.
Proof. by intros f _. Qed.

Lemma same_outside_step inner touched a b c :
  same_outside inner a b -> inner ⊆ touched -> same_outside touched b c ->
  same_outside touched a c.
Proof.
  intros Hab Hsub Hbc f Hf. rewrite Hab; [by apply Hbc |].
  intros Hin. by apply Hf, Hsub.
Qed.

Lemma same_outside_mono inner touched a b :
  same_outside inner a b -> inner ⊆ touched -> same_outside touched a b.
Proof.
  intros Hab Hsub. eapply same_outside_step; [done | done | apply same_outside_refl].
Qed.

Ltac untouched := by (apply (bool_decide_unpack _); vm_compute).
Ltac within_footprint := by (apply (bool_decide_unpack _); vm_compute).

(** A footprint read off the definition: outside it every field is kept
    in every branch. *)
Ltac footprint_cases :=
  let f := fresh "f" in
  let Hf := fresh "Hf" in
  intros f Hf; destruct f;
  first [ by (simpl; repeat case_match)
        | by (exfalso; apply Hf; apply (bool_decide_unpack _); vm_compute) ].

(** One step of a footprint by composition: the outermost call has the
    footprint [lemma] gives it. *)
Ltac footprint_step lemma :=
  eapply same_outside_step; [apply lemma | within_footprint |].

Lemma invoke_footprint installed call this :
  same_outside [Field.calls] (invoke installed call this) this.
Proof. unfold invoke. footprint_cases. Qed.

Lemma createHandles_footprint this :
  same_outside [Field.handles] (createHandles this) this.
Proof. unfold createHandles. footprint_cases. Qed.

Lemma updateElevationCamera_footprint this :
  same_outside [Field.elevationPosition; Field.elevationTarget]
    (updateElevationCamera this) this.
Proof. unfold updateElevationCamera. footprint_cases. Qed.

Lemma notifyDimensions_footprint this :
  same_outside [Field.calls] (notifyDimensions this) this.
Proof. unfold notifyDimensions, invoke. footprint_cases. Qed.

Lemma attachActive_footprint viewport this :
  same_outside [Field.isoControl; Field.elevationControl]
    (attachActive viewport this) this.
Proof. unfold attachActive. footprint_cases. Qed.

Lemma setTool_footprint tool this :
  same_outside [Field.activeTool; Field.calls] (setTool tool this) this.
Proof. unfold setTool, invoke. footprint_cases. Qed.

Lemma zoomElevation_footprint delta this :
  same_outside [Field.elevationZoom; Field.elevationOrtho]
    (zoomElevation delta this) this.
Proof. unfold zoomElevation. footprint_cases. Qed.

Lemma pointerUp_footprint this :
  same_outside
    [Field.isDragging; Field.dragTarget; Field.draggingBuilding;
     Field.draggingHandleType; Field.dragOrigin; Field.isoControl]
    (pointerUp this) this.
Proof. unfold pointerUp. footprint_cases. Qed.

Lemma assign_footprint r b this :
  same_outside [Field.buildings; Field.ghosts] (assign r b this) this.
Proof. unfold assign. footprint_cases. Qed.

Lemma updateBuilding_footprint r f this :
  same_outside [Field.buildings; Field.ghosts] (updateBuilding r f this) this.
Proof.
  unfold updateBuilding.
  destruct (deref this r); [apply assign_footprint | apply same_outside_refl].
Qed.

Lemma beforeCameraRender_footprint camera this :
  same_outside [Field.handles] (beforeCameraRender camera this) this.
Proof. unfold beforeCameraRender. footprint_cases. Qed.

Lemma render_footprint this : same_outside [Field.handles] (render this) this.
Proof.
  unfold render, activeCameras. simpl.
  do 2 footprint_step beforeCameraRender_footprint.
  apply beforeCameraRender_footprint.
Qed.

Lemma set_handles_footprint this hs :
  same_outside [Field.handles] (set_handles this hs) this.
Proof. footprint_cases. Qed.

Lemma set_ghosts_footprint this gs :
  same_outside [Field.ghosts] (set_ghosts this gs) this.
Proof. footprint_cases. Qed.

Lemma set_previewMesh_footprint this k :
  same_outside [Field.previewMesh] (set_previewMesh this k) this.
Proof. footprint_cases. Qed.

Lemma disposeRoot_footprint r this :
  same_outside [Field.buildings; Field.ghosts; Field.handles]
    (disposeRoot r this) this.
Proof.
  unfold disposeRoot.
  footprint_step set_handles_footprint.
  eapply same_outside_mono; [apply updateBuilding_footprint | within_footprint].
Qed.

Lemma disposePreview_footprint this :
  same_outside [Field.previewMesh; Field.ghosts; Field.handles]
    (disposePreview this) this.
Proof.
  unfold disposePreview. destruct (previewMesh this) as [k |];
    [| apply same_outside_refl].
  footprint_step set_previewMesh_footprint.
  unfold disposeRoot. footprint_step set_handles_footprint.
  unfold updateBuilding, deref, assign.
  destruct (ghosts this !! k); [| apply same_outside_refl].
  eapply same_outside_mono; [apply set_ghosts_footprint | within_footprint].
Qed.

Lemma movePreview_footprint type hit this :
  same_outside [Field.previewMesh; Field.ghosts; Field.handles]
    (movePreview type hit this) this.
Proof.
  unfold movePreview.
  set (current := match previewMesh this ≫= _ with Some _ => _ | None => _ end).
  set (this1 := if current then this else _).
  assert (same_outside [Field.previewMesh; Field.ghosts; Field.handles] this1 this)
    as H1.
  { subst this1. destruct current; [apply same_outside_refl |].
    footprint_step set_previewMesh_footprint.
    footprint_step set_ghosts_footprint.
    apply disposePreview_footprint. }
  clearbody this1. destruct hit as [hit |]; [| done].
  destruct (previewMesh this1) as [k |]; [| done].
  unfold updateBuilding, deref, assign.
  destruct (ghosts this1 !! k); [| done].
  footprint_step set_ghosts_footprint. done.
Qed.

Lemma refreshInput_footprint x y this :
  same_outside
    [Field.activeViewport; Field.isoControl; Field.elevationControl; Field.calls]
    (refreshInput x y this) this.
Proof. unfold refreshInput, attachActive, invoke. footprint_cases. Qed.

Lemma switchInput_footprint viewport this :
  same_outside
    [Field.activeViewport; Field.isoControl; Field.elevationControl; Field.calls]
    (switchInput viewport this) this.
Proof. unfold switchInput, attachActive, invoke. footprint_cases. Qed.

Lemma setBackgroundImage_footprint width height this :
  same_outside [Field.planOrthoTop; Field.backgroundPlane]
    (setBackgroundImage width height this) this.
Proof. unfold setBackgroundImage. footprint_cases. Qed.

Lemma commitMetadata_footprint r b md this :
  same_outside [Field.buildings; Field.ghosts; Field.handles]
    (commitMetadata r b md this) this.
Proof.
  unfold commitMetadata.
  footprint_step createHandles_footprint.
  eapply same_outside_mono; [apply assign_footprint | within_footprint].
Qed.

Lemma selectBuilding_footprint root this :
  same_outside
    [Field.selectedMesh; Field.buildings; Field.handles;
     Field.elevationPosition; Field.elevationTarget; Field.calls]
    (selectBuilding root this) this.
Proof.
  unfold selectBuilding. case_decide; [apply same_outside_refl |].
  footprint_step invoke_footprint.
  footprint_step notifyDimensions_footprint.
  footprint_step updateElevationCamera_footprint.
  footprint_step createHandles_footprint.
  footprint_cases.
Qed.

Lemma createBuilding_footprint pos ty this :
  same_outside
    [Field.selectedMesh; Field.buildings; Field.handles;
     Field.elevationPosition; Field.elevationTarget; Field.calls]
    (createBuilding pos ty this) this.
Proof.
  unfold createBuilding.
  footprint_step selectBuilding_footprint. footprint_cases.
Qed.

Lemma setSlope_footprint s this :
  same_outside [Field.buildings; Field.ghosts; Field.handles; Field.calls]
    (setSlope s this) this.
Proof.
  unfold setSlope. repeat case_match; try apply same_outside_refl.
  footprint_step invoke_footprint.
  eapply same_outside_mono; [apply commitMetadata_footprint | within_footprint].
Qed.

Lemma setEavesHeight_footprint h this :
  same_outside [Field.buildings; Field.ghosts; Field.handles; Field.calls]
    (setEavesHeight h this) this.
Proof.
  unfold setEavesHeight. repeat case_match; try apply same_outside_refl.
  footprint_step notifyDimensions_footprint.
  eapply same_outside_mono; [apply commitMetadata_footprint | within_footprint].
Qed.

Lemma setRidgeHeight_footprint r this :
  same_outside [Field.buildings; Field.ghosts; Field.handles; Field.calls]
    (setRidgeHeight r this) this.
Proof.
  unfold setRidgeHeight.
  destruct (selectedMesh this); [| apply same_outside_refl].
  destruct (selected this); [| apply same_outside_refl].
  footprint_step notifyDimensions_footprint.
  eapply same_outside_mono; [apply commitMetadata_footprint | within_footprint].
Qed.

Lemma setElevationView_footprint direction this :
  same_outside
    [Field.currentElevationDir; Field.elevationPosition; Field.elevationTarget]
    (setElevationView direction this) this.
Proof.
  unfold setElevationView.
  footprint_step updateElevationCamera_footprint. footprint_cases.
Qed.

(** [handleResize] with a selection and a drag target, spelled out. *)
Lemma handleResize_unfold cos sin pickPoint this r b target :
  selectedMesh this = Some r ->
  deref this r = Some b ->
  dragTarget this = Some target ->
  handleResize cos sin pickPoint this
  = let this' :=
      notifyDimensions
        (createHandles
           (assign r (resized cos sin r b (boundsFor cos sin target pickPoint b))
              this)) in
    if isDragging this'
       && bool_decide (is_Some (Mesh.handleType (Mesh.metadata target)))
       && bool_decide (is_Some (Mesh.index (Mesh.metadata target)))
    then
      match List.find (same_handle (Mesh.handleType (Mesh.metadata target))
                         (Mesh.index (Mesh.metadata target)))
              (handles this') with
      | Some newHandle => set_dragTarget this' (Some newHandle)
      | None => this'
      end
    else this'.
Proof.
  intros Hi Hb Ht. unfold handleResize, selected. rewrite Hi, Hb, Ht. reflexivity.
Qed.

Lemma handleResize_footprint cos sin pickPoint this :
  same_outside
    [Field.buildings; Field.ghosts; Field.handles; Field.calls; Field.dragTarget]
    (handleResize cos sin pickPoint this) this.
Proof.
  destruct (selected this) as [b |] eqn:Hb;
    [| rewrite handleResize_idle by auto; apply same_outside_refl].
  destruct (dragTarget this) as [target |] eqn:Ht;
    [| rewrite handleResize_idle by auto; apply same_outside_refl].
  destruct (selected_Some _ _ Hb) as (i & Hi & Hl).
  rewrite (handleResize_unfold _ _ _ _ _ _ _ Hi Hl Ht). cbv zeta.
  set (this' := notifyDimensions _).
  assert (same_outside
            [Field.buildings; Field.ghosts; Field.handles; Field.calls;
             Field.dragTarget]
            this' this) as Hcore.
  { footprint_step notifyDimensions_footprint.
    footprint_step createHandles_footprint.
    eapply same_outside_mono; [apply assign_footprint | within_footprint]. }
  clearbody this'. repeat case_match; try done.
  eapply same_outside_step; [| | exact Hcore];
    [instantiate (1 := [Field.dragTarget]); footprint_cases | within_footprint].
Qed.

(** A footprint through a chain of field writes on top of a state whose
    footprint [H] gives. *)
Ltac footprint_writes written H :=
  eapply same_outside_step;
  [| | eapply same_outside_mono; [exact H | within_footprint]];
  [instantiate (1 := written); footprint_cases | within_footprint].

(** The add tools: a building is created, the select tool is back, and
    the preview ghost is disposed. *)
Lemma placeBuilding_footprint pos ty this :
  same_outside
    [Field.activeTool; Field.selectedMesh; Field.buildings; Field.handles;
     Field.elevationPosition; Field.elevationTarget; Field.calls;
     Field.previewMesh; Field.ghosts]
    (disposePreview (setTool select (createBuilding pos ty this))) this.
Proof.
  footprint_step disposePreview_footprint.
  footprint_step setTool_footprint.
  eapply same_outside_mono; [apply createBuilding_footprint | within_footprint].
Qed.

Lemma pointerDown_footprint cos sin isPlan evtButton hit this :
  same_outside
    [Field.activeTool; Field.calls; Field.buildings; Field.selectedMesh;
     Field.handles; Field.elevationPosition; Field.elevationTarget;
     Field.isDragging; Field.dragTarget; Field.draggingHandleType;
     Field.draggingBuilding; Field.isoControl; Field.dragOrigin;
     Field.previewMesh; Field.ghosts]
    (pointerDown cos sin isPlan evtButton hit this) this.
Proof.
  unfold pointerDown.
  destruct (negb (evtButton =? 0)%Z); [apply same_outside_refl |].
  destruct hit as [hit |];
    [| destruct (activeTool this); apply same_outside_refl].
  destruct (activeTool this).
  - destruct (Mesh.type (Mesh.metadata (pickedMesh hit))) as [[] |].
    + destruct (_ && _); [apply same_outside_refl | footprint_cases].
    + set (this' := selectBuilding _ this).
      assert (same_outside
                [Field.selectedMesh; Field.buildings; Field.handles;
                 Field.elevationPosition; Field.elevationTarget; Field.calls]
                this' this) as Hsel by apply selectBuilding_footprint.
      clearbody this'.
      destruct isPlan, (selectedMesh this'), (selected this');
        try (eapply same_outside_mono; [exact Hsel | within_footprint]).
      footprint_writes
        [Field.isDragging; Field.draggingBuilding; Field.dragTarget;
         Field.isoControl; Field.dragOrigin] Hsel.
    + eapply same_outside_mono; [apply selectBuilding_footprint | within_footprint].
    + eapply same_outside_mono; [apply selectBuilding_footprint | within_footprint].
  - eapply same_outside_mono; [apply placeBuilding_footprint | within_footprint].
  - eapply same_outside_mono; [apply placeBuilding_footprint | within_footprint].
Qed.

Lemma pointerMove_footprint cos sin atan2 camera info hit this :
  same_outside
    [Field.buildings; Field.handles; Field.calls; Field.dragTarget;
     Field.elevationPosition; Field.elevationTarget; Field.previewMesh;
     Field.ghosts]
    (pointerMove cos sin atan2 camera info hit this) this.
Proof.
  unfold pointerMove.
  destruct (activeTool this);
    try (eapply same_outside_mono; [apply movePreview_footprint | within_footprint]).
  destruct (isDragging this); [| apply same_outside_refl].
  assert (same_outside
            [Field.buildings; Field.handles; Field.calls; Field.dragTarget;
             Field.elevationPosition; Field.elevationTarget; Field.previewMesh;
             Field.ghosts]
            match draggingBuilding this, currentDragPoint camera info this with
            | Some j, Some dragPoint =>
                updateElevationCamera
                  (updateBuilding j
                     (fun b => set_position b
                        (Vector3.set_z
                           (Vector3.set_x (position b) (Vector3.x dragPoint))
                           (Vector3.z dragPoint))) this)
            | _, _ => this
            end this) as Hrelocate.
  { destruct (draggingBuilding this); [| apply same_outside_refl].
    destruct (currentDragPoint camera info this); [| apply same_outside_refl].
    footprint_step updateElevationCamera_footprint.
    eapply same_outside_mono; [apply updateBuilding_footprint | within_footprint]. }
  destruct (dragTarget this); [| done].
  destruct (currentDragPoint camera info this) as [dragPoint |]; [| done].
  assert (same_outside
            [Field.buildings; Field.handles; Field.calls; Field.dragTarget;
             Field.elevationPosition; Field.elevationTarget; Field.previewMesh;
             Field.ghosts]
            (notifyDimensions
               (updateElevationCamera (handleResize cos sin dragPoint this)))
            this) as Hresize.
  { footprint_step notifyDimensions_footprint.
    footprint_step updateElevationCamera_footprint.
    eapply same_outside_mono; [apply handleResize_footprint | within_footprint]. }
  destruct (draggingHandleType this) as [[] |];
    try done; try apply same_outside_refl.
  - destruct (selectedMesh this); [| apply same_outside_refl].
    destruct (selected this); [| apply same_outside_refl].
    eapply same_outside_mono; [apply updateBuilding_footprint | within_footprint].
  - eapply same_outside_mono; [apply setEavesHeight_footprint | within_footprint].
  - eapply same_outside_mono; [apply setRidgeHeight_footprint | within_footprint].
Qed.

(** A pointer event never writes the elevation direction, the
    application-drag flag, the plan camera's ortho size, the background
    plane, the engine or the listeners. *)
Lemma handlePointer_footprint cos sin atan2 info this :
  same_outside
    [Field.buildings; Field.activeTool; Field.selectedMesh; Field.previewMesh;
     Field.ghosts; Field.isDragging;
     Field.dragTarget; Field.draggingBuilding; Field.draggingHandleType;
     Field.dragOrigin; Field.handles; Field.elevationZoom; Field.activeViewport;
     Field.elevationOrtho; Field.elevationPosition; Field.elevationTarget;
     Field.isoControl; Field.elevationControl; Field.calls]
    (handlePointer cos sin atan2 info this) this.
Proof.
  destruct (getRenderingCanvas (engine this)) as [canvas |] eqn:Hc;
    [| unfold handlePointer; rewrite Hc; apply same_outside_refl].
  rewrite (handlePointer_unfold _ _ _ _ _ _ Hc). cbv zeta.
  set (this' := switchInput _ this).
  match goal with
  | |- same_outside ?touched _ _ =>
      assert (same_outside touched this' this) as Hswitch
        by (eapply same_outside_mono;
            [apply switchInput_footprint | within_footprint])
  end.
  clearbody this'.
  destruct (type info);
    destruct (isElevationView canvas (offsetX info) (offsetY info));
    try exact Hswitch;
    (eapply same_outside_step;
     [first [ simple apply pointerDown_footprint | simple apply pointerUp_footprint
            | simple apply pointerMove_footprint | simple apply zoomElevation_footprint ]
     | within_footprint | exact Hswitch]).
Qed.

Lemma App_handleMove_footprint app clientY this :
  same_outside [Field.buildings; Field.ghosts; Field.handles; Field.calls]
    (App.handleMove app clientY this) this.
Proof.
  unfold App.handleMove.
  destruct (App.draggingHandle app) as [[] |];
    [apply setEavesHeight_footprint | apply setRidgeHeight_footprint
    | apply same_outside_refl].
Qed.

Lemma App_handleUp_footprint x y this :
  same_outside
    [Field.isAppDragging; Field.activeViewport; Field.isoControl;
     Field.elevationControl; Field.calls]
    (App.handleUp x y this) this.
Proof.
  unfold App.handleUp.
  footprint_step refreshInput_footprint. footprint_cases.
Qed.

(** No command replaces the engine or the listeners. *)
Lemma execute_footprint cos sin atan2 command this :
  same_outside
    [Field.buildings; Field.activeTool; Field.selectedMesh; Field.previewMesh;
     Field.ghosts; Field.backgroundPlane; Field.isDragging;
     Field.dragTarget; Field.draggingBuilding; Field.draggingHandleType;
     Field.dragOrigin; Field.handles; Field.currentElevationDir;
     Field.elevationZoom; Field.activeViewport; Field.isAppDragging;
     Field.planOrthoTop; Field.elevationOrtho; Field.elevationPosition;
     Field.elevationTarget; Field.isoControl; Field.elevationControl; Field.calls]
    (execute cos sin atan2 command this) this.
Proof.
  destruct command; simpl.
  - eapply same_outside_mono; [apply handlePointer_footprint | within_footprint].
  - eapply same_outside_mono; [apply setTool_footprint | within_footprint].
  - eapply same_outside_mono; [apply setSlope_footprint | within_footprint].
  - eapply same_outside_mono; [apply setElevationView_footprint | within_footprint].
  - eapply same_outside_mono; [apply setEavesHeight_footprint | within_footprint].
  - eapply same_outside_mono; [apply setRidgeHeight_footprint | within_footprint].
  - eapply same_outside_mono; [apply setBackgroundImage_footprint | within_footprint].
  - eapply same_outside_mono; [apply refreshInput_footprint | within_footprint].
  - eapply same_outside_mono; [apply render_footprint | within_footprint].
  - unfold App.startDrag. footprint_cases.
  - eapply same_outside_mono; [apply App_handleMove_footprint | within_footprint].
  - eapply same_outside_mono; [apply App_handleUp_footprint | within_footprint].
Qed.

Lemma run_snoc cos sin atan2 engine listeners commands command :
  run cos sin atan2 engine listeners (commands ++ [command])
  = execute cos sin atan2 command (run cos sin atan2 engine listeners commands).
Proof. unfold run. by rewrite fold_left_app. Qed.

Lemma run_engine cos sin atan2 e ls commands :
  engine (run cos sin atan2 e ls commands) = e
  /\ listeners (run cos sin atan2 e ls commands) = ls.
Proof.
  induction commands as [| c commands IH] using rev_ind; [done |].
  rewrite run_snoc. destruct IH as [IHe IHl]. split.
  - rewrite <- IHe at 2.
    apply (execute_footprint cos sin atan2 c _ Field.engine). untouched.
  - rewrite <- IHl at 2.
    apply (execute_footprint cos sin atan2 c _ Field.listeners). untouched.
Qed.

(** ** The drag state along a run *)

Ltac untouched_all := by (apply (bool_decide_unpack _); vm_compute).

Lemma same_outside_dragState touched a b :
  same_outside touched a b ->
  Forall (.∉ touched)
    [Field.isDragging; Field.dragTarget; Field.draggingBuilding;
     Field.draggingHandleType; Field.dragOrigin] ->
  dragState a = dragState b.
Proof.
  intros Hab Hout. unfold dragState.
  rewrite !Forall_cons in Hout. destruct Hout as (H1 & H2 & H3 & H4 & H5 & _).
  apply Hab in H1, H2, H3, H4, H5. simpl in *. congruence.
Qed.

Lemma drag_ok_ext this this' :
  dragState this' = dragState this -> drag_ok this -> drag_ok this'.
Proof.
  unfold drag_ok. intros Hd. rewrite Hd. unfold dragState in Hd.
  injection Hd as -> _ _ -> _. done.
Qed.

(** A mesh of the scene tagged as a handle is one of the handles of the
    selection. *)
Lemma sceneMeshes_handle this m :
  structured this ->
  m ∈ sceneMeshes this ->
  Mesh.type (Mesh.metadata m) = Some handle ->
  m ∈ handles this /\ handle_ok (selectedMesh this) m.
Proof.
  intros Hs Hin Hty.
  destruct (sceneMeshes_cases this m Hs Hin)
    as [-> | [-> | [(j & b & _ & _ & _ & Hb & _) | [(k & g & _ & _ & _ & Hb & _)
                                                   | (Hm & Hh & _)]]]];
    try done; congruence.
Qed.

Lemma pointerMove_idle cos sin atan2 camera info hit this :
  activeTool this = select -> isDragging this = false ->
  pointerMove cos sin atan2 camera info hit this = this.
Proof. intros Ht Hd. unfold pointerMove. by rewrite Ht, Hd. Qed.

Lemma pointerUp_drag_ok this : drag_ok this -> drag_ok (pointerUp this).
Proof.
  intros Hok. unfold pointerUp.
  destruct (isDragging this) eqn:Hd; [| done].
  split; simpl; auto.
Qed.

(** A field of the state a method returns, read through its footprint. *)
Ltac kept footprint f :=
  let E := fresh "E" in
  pose proof (footprint f ltac:(untouched)) as E; simpl in E.

Lemma pointerMove_drag_ok cos sin atan2 camera info hit this :
  drag_ok this -> drag_ok (pointerMove cos sin atan2 camera info hit this).
Proof.
  intros Hok.
  destruct (activeTool this) eqn:Htool;
    [| unfold pointerMove; rewrite Htool;
       (eapply drag_ok_ext; [| exact Hok]);
       eapply same_outside_dragState;
       [apply movePreview_footprint | untouched_all] ..].
  destruct (isDragging this) eqn:Hd; [| by rewrite pointerMove_idle].
  destruct Hok as [Hkind Hidle].
  kept (pointerMove_footprint cos sin atan2 camera info hit this) Field.isDragging.
  kept (pointerMove_footprint cos sin atan2 camera info hit this)
    Field.draggingHandleType.
  split; [congruence | intros Hn; congruence].
Qed.

Lemma pointerDown_drag_ok cos sin isPlan evtButton hit this :
  (forall h, hit = Some h ->
     Mesh.type (Mesh.metadata (pickedMesh h)) = Some handle ->
     sceneKind (Mesh.handleType (Mesh.metadata (pickedMesh h))) = true) ->
  drag_ok this -> drag_ok (pointerDown cos sin isPlan evtButton hit this).
Proof.
  intros Hhit Hok. unfold pointerDown.
  destruct (negb (evtButton =? 0)%Z); [done |].
  destruct hit as [hit |]; [| by destruct (activeTool this)].
  specialize (Hhit hit eq_refl).
  destruct (activeTool this).
  - destruct (Mesh.type (Mesh.metadata (pickedMesh hit))) as [[] |] eqn:Hty.
    + destruct (_ && _); [done |]. specialize (Hhit eq_refl).
      split; simpl; [| done]. right.
      by destruct (Mesh.handleType (Mesh.metadata (pickedMesh hit))).
    + set (this' := selectBuilding _ this).
      assert (drag_ok this') as [Hkind' Hidle'].
      { eapply drag_ok_ext; [| exact Hok].
        eapply same_outside_dragState;
          [apply selectBuilding_footprint | untouched_all]. }
      destruct isPlan, (selectedMesh this'), (selected this'); done.
    + eapply drag_ok_ext; [| exact Hok].
      eapply same_outside_dragState;
        [apply selectBuilding_footprint | untouched_all].
    + eapply drag_ok_ext; [| exact Hok].
      eapply same_outside_dragState;
        [apply selectBuilding_footprint | untouched_all].
  - eapply drag_ok_ext; [| exact Hok].
    eapply same_outside_dragState; [apply placeBuilding_footprint | untouched_all].
  - eapply drag_ok_ext; [| exact Hok].
    eapply same_outside_dragState; [apply placeBuilding_footprint | untouched_all].
Qed.

Lemma handlePointer_drag_ok cos sin atan2 info this :
  structured this -> drag_ok this ->
  drag_ok (handlePointer cos sin atan2 info this).
Proof.
  intros Hs Hok.
  destruct (getRenderingCanvas (engine this)) as [canvas |] eqn:Hc;
    [| unfold handlePointer; by rewrite Hc].
  rewrite (handlePointer_unfold _ _ _ _ _ _ Hc). cbv zeta.
  set (this' := switchInput _ this).
  assert (structured this') as Hs'
    by (eapply structured_ext; [apply switchInput_structure | done]).
  assert (drag_ok this') as Hok'.
  { eapply drag_ok_ext; [| exact Hok].
    eapply same_outside_dragState; [apply switchInput_footprint | untouched_all]. }
  clearbody this'.
  assert (drag_ok (zoomElevation (deltaY info) this')) as Hzoom.
  { eapply drag_ok_ext; [| exact Hok'].
    eapply same_outside_dragState; [apply zoomElevation_footprint | untouched_all]. }
  assert (forall camera,
            drag_ok
              (pointerDown cos sin (isPlanView canvas (offsetX info)) (button info)
                 (pick camera (castRay info camera) (sceneMeshes this')) this'))
    as Hdown.
  { intros camera. apply pointerDown_drag_ok; [| done].
    intros h Hh Hty. apply pick_elem in Hh as [Hin _].
    by destruct (sceneMeshes_handle this' _ Hs' Hin Hty) as (_ & _ & _ & ? & _). }
  assert (forall camera hit,
            drag_ok (pointerMove cos sin atan2 camera info hit this')) as Hmove
    by (intros; by apply pointerMove_drag_ok).
  destruct (type info);
    destruct (isElevationView canvas (offsetX info) (offsetY info));
    try done; try apply Hdown; try apply Hmove;
    by apply pointerUp_drag_ok.
Qed.

Lemma execute_drag_ok cos sin atan2 command this :
  structured this -> drag_ok this -> drag_ok (execute cos sin atan2 command this).
Proof.
  intros Hs Hok.
  destruct command; cbn [execute];
    try (by apply handlePointer_drag_ok);
    (eapply drag_ok_ext; [| exact Hok]); eapply same_outside_dragState;
    first [ simple apply setTool_footprint | simple apply setSlope_footprint
          | simple apply setElevationView_footprint | simple apply setEavesHeight_footprint
          | simple apply setRidgeHeight_footprint | simple apply setBackgroundImage_footprint
          | simple apply refreshInput_footprint | simple apply App_handleMove_footprint
          | simple apply App_handleUp_footprint | simple apply render_footprint
          | untouched_all | idtac ].
  unfold App.startDrag.
  instantiate (1 := [Field.isAppDragging]). footprint_cases. untouched_all.
Qed.

Lemma run_drag_ok cos sin atan2 engine listeners commands :
  drag_ok (run cos sin atan2 engine listeners commands).
Proof.
  induction commands as [| c commands IH] using rev_ind;
    [split; [by left | done] |].
  rewrite run_snoc. apply execute_drag_ok; [apply run_structured | done].
Qed.

(** Releasing the pointer ends every drag: after any run of commands, a
    pointer-up event leaves the controller not dragging, with no drag
    target, no dragged building, no handle kind and no drag origin; and
    whenever the controller is not dragging, these four are cleared. *)
Theorem release_ends_drag cos sin atan2 engine listeners commands info canvas :
  getRenderingCanvas engine = Some canvas ->
  type info = POINTERUP ->
  dragState (run cos sin atan2 engine listeners (commands ++ [Pointer info]))
  = (false, None, None, None, None)
  /\ (isDragging (run cos sin atan2 engine listeners commands) = false ->
      dragState (run cos sin atan2 engine listeners commands)
      = (false, None, None, None, None)).
Proof.
  intros Hc Ht. split; [| apply run_drag_ok].
  rewrite run_snoc. simpl.
  pose proof (run_drag_ok cos sin atan2 engine listeners commands) as Hok.
  destruct (run_engine cos sin atan2 engine listeners commands) as [He _].
  set (this := run cos sin atan2 engine listeners commands) in *.
  rewrite <- He in Hc.
  rewrite (handlePointer_unfold _ _ _ _ _ _ Hc). cbv zeta. rewrite Ht.
  set (this' := switchInput _ this).
  assert (drag_ok this') as [_ Hidle].
  { eapply drag_ok_ext; [| exact Hok].
    eapply same_outside_dragState; [apply switchInput_footprint | untouched_all]. }
  assert (dragState (pointerUp this') = (false, None, None, None, None)) as Hup.
  { unfold pointerUp. destruct (isDragging this') eqn:Hd; [done | by apply Hidle]. }
  by destruct (isElevationView canvas (offsetX info) (offsetY info)).
Qed.

Lemma release_ends_drag_witness :
  dragState
    (run demoCos demoSin demoAtan2 demoEngine allListeners
       (cornerPress ++ [Pointer release]))
  = (false, None, None, None, None)
  /\ (isDragging
        (run demoCos demoSin demoAtan2 demoEngine allListeners cornerPress)
      = false ->
      dragState (run demoCos demoSin demoAtan2 demoEngine allListeners cornerPress)
      = (false, None, None, None, None)).
Proof.
  apply (release_ends_drag demoCos demoSin demoAtan2 demoEngine allListeners
           cornerPress release (mkCanvas 1000 600)); reflexivity.
Defined.

(** Before the release the corner is being dragged. *)
Example cornerPress_drags :
  isDragging (run demoCos demoSin demoAtan2 demoEngine allListeners cornerPress)
  = true
  /\ draggingHandleType
       (run demoCos demoSin demoAtan2 demoEngine allListeners cornerPress)
     = Some corner.
Proof. by vm_compute. Qed.

(** ** Roof types, eaves heights and slopes *)

Lemma same_outside_buildings touched a b :
  same_outside touched a b -> Field.buildings ∉ touched ->
  buildings a = buildings b.
Proof. intros Hab Hout. exact (Hab Field.buildings Hout). Qed.

Lemma levels_ext this this' :
  buildings this' = buildings this -> levels this' = levels this.
Proof. unfold levels. by intros ->. Qed.

Lemma selectBuilding_levels root this :
  levels (selectBuilding root this) = levels this.
Proof.
  unfold selectBuilding. case_decide; [done |]. unfold levels.
  rewrite invoke_buildings, notifyDimensions_buildings,
    updateElevationCamera_buildings, createHandles_buildings. simpl.
  apply list_eq. intros j. rewrite !list_lookup_fmap, list_lookup_imap.
  by destruct (buildings this !! j).
Qed.

Lemma createBuilding_levels pos ty this :
  levels (createBuilding pos ty this) = levels this ++ [newLevels ty].
Proof.
  unfold createBuilding. rewrite selectBuilding_levels.
  unfold levels. simpl. by rewrite fmap_app.
Qed.

Lemma updateBuilding_levels r f this :
  (forall b, metadata (f b) = metadata b) ->
  levels (updateBuilding r f this) = levels this.
Proof.
  intros Hf. unfold updateBuilding.
  destruct (deref this r) as [b |] eqn:Hb; [| done].
  destruct r as [i | k]; [| done].
  unfold levels. simpl in *. rewrite list_fmap_insert, Hf.
  apply list_insert_id. by rewrite list_lookup_fmap, Hb.
Qed.

(** A setter writes the levels of the selected root: those of a building
    of the store, or none of them when a preview ghost is selected. *)
Lemma commitMetadata_levels r b md this :
  levels (commitMetadata r b md this)
  = match r with
    | Stored i => <[i := (roofType md, height md, slope md)]> (levels this)
    | Ghost _ => levels this
    end.
Proof.
  unfold commitMetadata, levels. rewrite createHandles_buildings.
  destruct r as [i | k]; [| done]. simpl.
  by rewrite list_fmap_insert.
Qed.

Lemma handleResize_levels cos sin pickPoint this :
  levels (handleResize cos sin pickPoint this) = levels this.
Proof.
  destruct (selected this) as [b |] eqn:Hb;
    [| by rewrite handleResize_idle; auto].
  destruct (dragTarget this) as [target |] eqn:Ht;
    [| by rewrite handleResize_idle; auto].
  destruct (selected_Some _ _ Hb) as (r & Hi & Hl).
  destruct (handleResize_buildings cos sin pickPoint this r b target Hi Hl Ht)
    as (Hbs & _ & _).
  unfold levels. rewrite Hbs. destruct r as [i | k]; [| done]. simpl in *.
  rewrite list_fmap_insert. simpl.
  apply list_insert_id. by rewrite list_lookup_fmap, Hl.
Qed.

Lemma pointerDown_levels cos sin isPlan evtButton hit this :
  levels (pointerDown cos sin isPlan evtButton hit this) = levels this
  \/ exists ty,
       levels (pointerDown cos sin isPlan evtButton hit this)
       = levels this ++ [newLevels ty].
Proof.
  unfold pointerDown.
  destruct (negb (evtButton =? 0)%Z); [by left |].
  destruct hit as [hit |]; [| left; by destruct (activeTool this)].
  destruct (activeTool this).
  - left. destruct (Mesh.type (Mesh.metadata (pickedMesh hit))) as [[] |].
    + by destruct (_ && _).
    + set (this' := selectBuilding _ this).
      assert (levels this' = levels this) as Hsel by apply selectBuilding_levels.
      clearbody this'.
      by destruct isPlan, (selectedMesh this'), (selected this').
    + apply selectBuilding_levels.
    + apply selectBuilding_levels.
  - right. exists Flat. rewrite <- (createBuilding_levels (pickedPoint hit)).
    apply levels_ext. rewrite disposePreview_buildings.
    unfold setTool. by rewrite invoke_buildings.
  - right. exists Gable. rewrite <- (createBuilding_levels (pickedPoint hit)).
    apply levels_ext. rewrite disposePreview_buildings.
    unfold setTool. by rewrite invoke_buildings.
Qed.

(** Of the branches of a drag move, only the two height branches write an
    eaves height or a slope; no handle of the scene leads there. *)
Lemma pointerMove_levels cos sin atan2 camera info hit this :
  draggingHandleType this = None \/ sceneKind (draggingHandleType this) = true ->
  levels (pointerMove cos sin atan2 camera info hit this) = levels this.
Proof.
  intros Hkind. unfold pointerMove.
  destruct (activeTool this);
    [| apply levels_ext, movePreview_buildings ..].
  destruct (isDragging this); [| done].
  assert (levels
            match draggingBuilding this, currentDragPoint camera info this with
            | Some j, Some dragPoint =>
                updateElevationCamera
                  (updateBuilding j
                     (fun b => set_position b
                        (Vector3.set_z
                           (Vector3.set_x (position b) (Vector3.x dragPoint))
                           (Vector3.z dragPoint))) this)
            | _, _ => this
            end = levels this) as Hrelocate.
  { destruct (draggingBuilding this); [| done].
    destruct (currentDragPoint camera info this); [| done].
    rewrite <- (updateBuilding_levels r
                  (fun b => set_position b
                     (Vector3.set_z (Vector3.set_x (position b) (Vector3.x t))
                        (Vector3.z t))) this) by done.
    apply levels_ext, updateElevationCamera_buildings. }
  destruct (dragTarget this); [| done].
  destruct (currentDragPoint camera info this) as [dragPoint |]; [| done].
  assert (levels
            (notifyDimensions
               (updateElevationCamera (handleResize cos sin dragPoint this)))
          = levels this) as Hresize.
  { rewrite <- (handleResize_levels cos sin dragPoint this).
    apply levels_ext.
    by rewrite notifyDimensions_buildings, updateElevationCamera_buildings. }
  destruct (draggingHandleType this) as [[] |]; try done;
    try (by destruct Hkind).
  destruct (selectedMesh this); [| done].
  destruct (selected this); [| done].
  by apply updateBuilding_levels.
Qed.

Lemma handlePointer_levels cos sin atan2 info this :
  drag_ok this ->
  levels (handlePointer cos sin atan2 info this) = levels this
  \/ exists ty,
       levels (handlePointer cos sin atan2 info this)
       = levels this ++ [newLevels ty].
Proof.
  intros [Hkind _].
  destruct (getRenderingCanvas (engine this)) as [canvas |] eqn:Hc;
    [| unfold handlePointer; rewrite Hc; by left].
  rewrite (handlePointer_unfold _ _ _ _ _ _ Hc). cbv zeta.
  set (this' := switchInput _ this).
  assert (levels this' = levels this) as Hl.
  { apply levels_ext.
    eapply same_outside_buildings; [apply switchInput_footprint | untouched]. }
  assert (draggingHandleType this' = draggingHandleType this) as Hk.
  { apply (switchInput_footprint _ this Field.draggingHandleType). untouched. }
  rewrite <- Hl, <- Hk in *. clearbody this'.
  assert (levels (pointerUp this') = levels this') as Hup.
  { apply levels_ext.
    eapply same_outside_buildings; [apply pointerUp_footprint | untouched]. }
  assert (levels (zoomElevation (deltaY info) this') = levels this') as Hzoom
    by done.
  destruct (type info);
    destruct (isElevationView canvas (offsetX info) (offsetY info));
    auto using pointerDown_levels, pointerMove_levels.
Qed.

(** A pointer event never edits the roof type, the eaves height or the
    slope of a building: after any run of commands it leaves the levels of
    the store as they are, or adds the levels of one new building at the
    end. The [height_eaves] and [height_ridge] branches of the drag move
    are never taken, since no handle of those kinds exists. *)
Theorem pointer_never_edits_levels cos sin atan2 engine listeners commands info :
  levels (run cos sin atan2 engine listeners (commands ++ [Pointer info]))
  = levels (run cos sin atan2 engine listeners commands)
  \/ exists ty,
       levels (run cos sin atan2 engine listeners (commands ++ [Pointer info]))
       = levels (run cos sin atan2 engine listeners commands) ++ [newLevels ty].
Proof.
  rewrite run_snoc. simpl. apply handlePointer_levels, run_drag_ok.
Qed.

(** ** Sizes along a run *)

Lemma execute_min_sized cos sin atan2 command this :
  all_min_sized this -> all_min_sized (execute cos sin atan2 command this).
Proof.
  intros Hall. destruct command as [| | s | | | | | | | | app clientY |]; simpl.
  - by apply handlePointer_min_sized.
  - by apply setTool_min_sized.
  - unfold setSlope.
    destruct (selectedMesh this) as [i |] eqn:Hsel; [| done].
    destruct (selected this) as [b |] eqn:Hb; [| done].
    destruct (RoofType_eqb _ _); [| done].
    eapply all_min_sized_ext; [apply invoke_buildings |].
    apply commitMetadata_min_sized; try done.
    unfold selected in Hb. by rewrite Hsel in Hb.
  - eapply all_min_sized_ext; [| exact Hall].
    eapply same_outside_buildings; [apply setElevationView_footprint | untouched].
  - by apply setEavesHeight_min_sized.
  - by apply setRidgeHeight_min_sized.
  - done.
  - eapply all_min_sized_ext; [| exact Hall].
    eapply same_outside_buildings; [apply refreshInput_footprint | untouched].
  - done.
  - done.
  - unfold App.handleMove. destruct (App.draggingHandle app) as [[] |];
      [by apply setEavesHeight_min_sized | by apply setRidgeHeight_min_sized
      | done].
  - eapply all_min_sized_ext; [| exact Hall].
    eapply same_outside_buildings; [apply App_handleUp_footprint | untouched].
Qed.

(** Every slope of the store is at least half a metre. *)
Lemma commitMetadata_slopes i b md this :
  0.5 <= slope md ->
  Forall (fun l => 0.5 <= l.2) (levels this) ->
  Forall (fun l => 0.5 <= l.2) (levels (commitMetadata i b md this)).
Proof.
  intros Hmd Hall. rewrite commitMetadata_levels.
  destruct i; [by apply Forall_insert | done].
Qed.

Lemma slopes_ext this this' :
  buildings this' = buildings this ->
  Forall (fun l => 0.5 <= l.2) (levels this) ->
  Forall (fun l => 0.5 <= l.2) (levels this').
Proof. intros Hb. by rewrite (levels_ext _ _ Hb). Qed.

Lemma setEavesHeight_slopes h this :
  Forall (fun l => 0.5 <= l.2) (levels this) ->
  Forall (fun l => 0.5 <= l.2) (levels (setEavesHeight h this)).
Proof.
  intros Hall. unfold setEavesHeight.
  destruct (selectedMesh this) as [i |]; [| done].
  destruct (selected this) as [b |]; [| done].
  eapply slopes_ext; [apply notifyDimensions_buildings |].
  apply commitMetadata_slopes; [| done]. simpl.
  split_all_minmax; lra.
Qed.

Lemma setRidgeHeight_slopes r this :
  Forall (fun l => 0.5 <= l.2) (levels this) ->
  Forall (fun l => 0.5 <= l.2) (levels (setRidgeHeight r this)).
Proof.
  intros Hall. unfold setRidgeHeight.
  destruct (selectedMesh this) as [i |]; [| done].
  destruct (selected this) as [b |]; [| done].
  eapply slopes_ext; [apply notifyDimensions_buildings |].
  apply commitMetadata_slopes; [| done]. simpl.
  by destruct (Qlt_le_dec _ _).
Qed.

Lemma execute_slopes cos sin atan2 command this :
  drag_ok this ->
  Forall (fun l => 0.5 <= l.2) (levels this) ->
  Forall (fun l => 0.5 <= l.2) (levels (execute cos sin atan2 command this)).
Proof.
  intros Hok Hall.
  destruct command as [info | | s | | | | | | | | app clientY |]; simpl.
  - destruct (handlePointer_levels cos sin atan2 info this Hok)
      as [-> | [ty ->]]; [done |].
    apply Forall_app. split; [done |].
    apply Forall_singleton. by destruct ty.
  - eapply slopes_ext; [| exact Hall].
    eapply same_outside_buildings; [apply setTool_footprint | untouched].
  - unfold setSlope.
    destruct (selectedMesh this) as [i |]; [| done].
    destruct (selected this) as [b |]; [| done].
    destruct (RoofType_eqb _ _); [| done].
    eapply slopes_ext; [apply invoke_buildings |].
    apply commitMetadata_slopes; [| done]. simpl. apply Q.le_max_l.
  - eapply slopes_ext; [| exact Hall].
    eapply same_outside_buildings; [apply setElevationView_footprint | untouched].
  - by apply setEavesHeight_slopes.
  - by apply setRidgeHeight_slopes.
  - done.
  - eapply slopes_ext; [| exact Hall].
    eapply same_outside_buildings; [apply refreshInput_footprint | untouched].
  - done.
  - done.
  - unfold App.handleMove. destruct (App.draggingHandle app) as [[] |];
      [by apply setEavesHeight_slopes | by apply setRidgeHeight_slopes | done].
  - eapply slopes_ext; [| exact Hall].
    eapply same_outside_buildings; [apply App_handleUp_footprint | untouched].
Qed.

(** Whatever the commands and their arguments, every building of the
    store stays at least 1 m wide and deep, with its ridge at least half a
    metre above its eaves. *)
Theorem run_keeps_sizes cos sin atan2 engine listeners commands :
  Forall sized (buildings (run cos sin atan2 engine listeners commands)).
Proof.
  assert (all_min_sized (run cos sin atan2 engine listeners commands)
          /\ Forall (fun l => 0.5 <= l.2)
               (levels (run cos sin atan2 engine listeners commands)))
    as [Hmin Hslope].
  { induction commands as [| c commands [IHmin IHslope]] using rev_ind;
      [split; constructor |].
    rewrite run_snoc. split.
    - by apply execute_min_sized.
    - apply execute_slopes; [apply run_drag_ok | done]. }
  unfold all_min_sized in Hmin. unfold levels in Hslope.
  rewrite Forall_fmap in Hslope.
  rewrite Forall_forall in Hmin, Hslope. apply Forall_forall.
  intros b Hb. destruct (Hmin b Hb) as [Hw Hd]. specialize (Hslope b Hb).
  by repeat split.
Qed.

(** ** The aim of the elevation camera along a run *)

Lemma aimed_ext this this' : aim this' = aim this -> aimed this -> aimed this'.
Proof. unfold aim, aimed. intros [= -> -> -> ->]. done. Qed.

Lemma aimed_followed this : aimed this -> followed this.
Proof. intros [Ht Hp]. by split. Qed.

Lemma followed_ext this this' :
  aim this' = aim this -> ghostSelected this' = ghostSelected this ->
  followed this -> followed this'.
Proof.
  unfold aim, followed. intros [= Hs Hd Hp Ht] Hg. rewrite Hs, Hd, Hp, Ht, Hg. done.
Qed.

Lemma same_outside_aim touched a b :
  same_outside touched a b ->
  Forall (.∉ touched)
    [Field.buildings; Field.ghosts; Field.selectedMesh; Field.currentElevationDir;
     Field.elevationPosition; Field.elevationTarget] ->
  aim a = aim b /\ ghostSelected a = ghostSelected b.
Proof.
  intros Hab Hout. unfold aim, ghostSelected.
  rewrite !Forall_cons in Hout.
  destruct Hout as (H1 & H2 & H3 & H4 & H5 & H6 & _).
  apply Hab in H1, H2, H3, H4, H5, H6. simpl in *.
  rewrite (selected_ext a b) by done. by rewrite H3, H4, H5, H6.
Qed.

(** A method that writes none of what the aim reads. *)
Lemma same_outside_followed touched a b :
  same_outside touched a b ->
  Forall (.∉ touched)
    [Field.buildings; Field.ghosts; Field.selectedMesh; Field.currentElevationDir;
     Field.elevationPosition; Field.elevationTarget] ->
  followed b -> followed a.
Proof.
  intros Hab Hout. destruct (same_outside_aim touched a b Hab Hout).
  by apply followed_ext.
Qed.

Lemma updateElevationCamera_aimed this : aimed (updateElevationCamera this).
Proof.
  unfold aimed, updateElevationCamera.
  change (selected (set_elevationTarget _ _)) with (selected this). simpl.
  by destruct (selected this), (currentElevationDir this).
Qed.

(** The notifications after a camera update leave the aim alone. *)
Lemma notified_aimed this :
  aimed this -> aimed (notifyDimensions this).
Proof.
  apply aimed_ext.
  eapply same_outside_aim; [apply notifyDimensions_footprint | untouched_all].
Qed.

Lemma selectBuilding_followed root this :
  followed this -> followed (selectBuilding root this).
Proof.
  intros Ha. unfold selectBuilding. case_decide; [done |].
  apply aimed_followed.
  eapply aimed_ext;
    [eapply same_outside_aim; [apply invoke_footprint | untouched_all] |].
  apply notified_aimed, updateElevationCamera_aimed.
Qed.

Lemma createBuilding_aimed pos ty this :
  structured this -> aimed (createBuilding pos ty this).
Proof.
  intros (S1 & _). unfold createBuilding, selectBuilding.
  case_decide as Heq.
  { simpl in Heq. destruct (S1 _ Heq) as [b Hb]. simpl in Hb.
    apply lookup_lt_Some in Hb. lia. }
  eapply aimed_ext;
    [eapply same_outside_aim; [apply invoke_footprint | untouched_all] |].
  apply notified_aimed, updateElevationCamera_aimed.
Qed.

Lemma commitMetadata_aim r b md this :
  selectedMesh this = Some r -> selected this = Some b ->
  aim (commitMetadata r b md this) = aim this
  /\ ghostSelected (commitMetadata r b md this) = ghostSelected this.
Proof.
  intros Hi Hb. destruct (selected_Some _ _ Hb) as (i' & Hi' & Hl).
  assert (i' = r) as -> by congruence.
  unfold aim, ghostSelected.
  rewrite (commitMetadata_selected this r b b md Hi Hl), Hb.
  kept (commitMetadata_footprint r b md this) Field.currentElevationDir.
  kept (commitMetadata_footprint r b md this) Field.elevationPosition.
  kept (commitMetadata_footprint r b md this) Field.elevationTarget.
  kept (commitMetadata_footprint r b md this) Field.selectedMesh.
  by rewrite E0, E1, E2, E3.
Qed.

Lemma commitMetadata_followed r b md this :
  selectedMesh this = Some r -> selected this = Some b ->
  followed this -> followed (commitMetadata r b md this).
Proof.
  intros Hi Hb. destruct (commitMetadata_aim r b md this Hi Hb).
  by apply followed_ext.
Qed.

(** A write to a root that keeps its position. *)
Lemma updateBuilding_aim r f this :
  (forall b, position (f b) = position b) ->
  aim (updateBuilding r f this) = aim this
  /\ ghostSelected (updateBuilding r f this) = ghostSelected this.
Proof.
  intros Hf. unfold updateBuilding.
  destruct (deref this r) as [b |] eqn:Hb; [| done].
  unfold aim, ghostSelected, selected. rewrite assign_selectedMesh.
  assert (forall r', position <$> deref (assign r (f b) this) r'
                     = position <$> deref this r') as Hd.
  { intros r'. destruct r as [i | k], r' as [j | k']; simpl in *; try done.
    - destruct (decide (i = j)) as [<- | Hne].
      + rewrite list_lookup_insert_eq by (by eapply lookup_lt_Some).
        rewrite Hb. simpl. by rewrite Hf.
      + by rewrite list_lookup_insert_ne.
    - destruct (decide (k = k')) as [<- | Hne].
      + rewrite list_lookup_insert_eq by (by eapply lookup_lt_Some).
        rewrite Hb. simpl. by rewrite Hf.
      + by rewrite list_lookup_insert_ne. }
  destruct (selectedMesh this) as [r' |]; [rewrite Hd |]; by destruct r.
Qed.

(** A write to a preview ghost, while none is selected. *)
Lemma ghost_write_followed this this' :
  same_outside [Field.previewMesh; Field.ghosts; Field.handles] this' this ->
  followed this -> followed this'.
Proof.
  intros Hsame [Hp Ht].
  kept Hsame Field.buildings. kept Hsame Field.selectedMesh.
  kept Hsame Field.currentElevationDir. kept Hsame Field.elevationPosition.
  kept Hsame Field.elevationTarget.
  unfold followed, ghostSelected, selected in *.
  rewrite E1, E2, E3, E4. split; [done |].
  destruct (selectedMesh this) as [[i | k] |]; simpl in *; try done.
  rewrite E0. by apply Ht.
Qed.

Lemma setEavesHeight_followed h this :
  followed this -> followed (setEavesHeight h this).
Proof.
  intros Ha. unfold setEavesHeight.
  destruct (selectedMesh this) as [i |] eqn:Hi; [| done].
  destruct (selected this) as [b |] eqn:Hb; [| done].
  eapply same_outside_followed; [apply notifyDimensions_footprint | untouched_all |].
  by apply commitMetadata_followed.
Qed.

Lemma setRidgeHeight_followed r this :
  followed this -> followed (setRidgeHeight r this).
Proof.
  intros Ha. unfold setRidgeHeight.
  destruct (selectedMesh this) as [i |] eqn:Hi; [| done].
  destruct (selected this) as [b |] eqn:Hb; [| done].
  eapply same_outside_followed; [apply notifyDimensions_footprint | untouched_all |].
  by apply commitMetadata_followed.
Qed.

Lemma setSlope_followed s this : followed this -> followed (setSlope s this).
Proof.
  intros Ha. unfold setSlope.
  destruct (selectedMesh this) as [i |] eqn:Hi; [| done].
  destruct (selected this) as [b |] eqn:Hb; [| done].
  destruct (RoofType_eqb _ _); [| done].
  eapply same_outside_followed; [apply invoke_footprint | untouched_all |].
  by apply commitMetadata_followed.
Qed.

Lemma pointerDown_followed cos sin isPlan evtButton hit this :
  structured this -> followed this ->
  followed (pointerDown cos sin isPlan evtButton hit this).
Proof.
  intros Hs Ha. unfold pointerDown.
  destruct (negb (evtButton =? 0)%Z); [done |].
  destruct hit as [hit |]; [| by destruct (activeTool this)].
  destruct (activeTool this).
  - destruct (Mesh.type (Mesh.metadata (pickedMesh hit))) as [[] |].
    + by destruct (_ && _).
    + set (this' := selectBuilding _ this).
      assert (followed this') as Ha' by by apply selectBuilding_followed.
      clearbody this'.
      by destruct isPlan, (selectedMesh this'), (selected this').
    + by apply selectBuilding_followed.
    + by apply selectBuilding_followed.
  - eapply ghost_write_followed; [apply disposePreview_footprint |].
    eapply same_outside_followed; [apply setTool_footprint | untouched_all |].
    by apply aimed_followed, createBuilding_aimed.
  - eapply ghost_write_followed; [apply disposePreview_footprint |].
    eapply same_outside_followed; [apply setTool_footprint | untouched_all |].
    by apply aimed_followed, createBuilding_aimed.
Qed.

Lemma pointerMove_followed cos sin atan2 camera info hit this :
  followed this -> followed (pointerMove cos sin atan2 camera info hit this).
Proof.
  intros Ha. unfold pointerMove.
  destruct (activeTool this);
    [| by (eapply ghost_write_followed; [apply movePreview_footprint |]) ..].
  destruct (isDragging this); [| done].
  assert (followed
            match draggingBuilding this, currentDragPoint camera info this with
            | Some j, Some dragPoint =>
                updateElevationCamera
                  (updateBuilding j
                     (fun b => set_position b
                        (Vector3.set_z
                           (Vector3.set_x (position b) (Vector3.x dragPoint))
                           (Vector3.z dragPoint))) this)
            | _, _ => this
            end) as Hrelocate.
  { destruct (draggingBuilding this); [| done].
    destruct (currentDragPoint camera info this); [| done].
    apply aimed_followed, updateElevationCamera_aimed. }
  destruct (dragTarget this); [| done].
  destruct (currentDragPoint camera info this) as [dragPoint |]; [| done].
  destruct (draggingHandleType this) as [[] |]; try done;
    try apply aimed_followed, notified_aimed, updateElevationCamera_aimed.
  - destruct (selectedMesh this); [| done].
    destruct (selected this); [| done].
    eapply followed_ext; [| | exact Ha]; by apply updateBuilding_aim.
  - by apply setEavesHeight_followed.
  - by apply setRidgeHeight_followed.
Qed.

Lemma handlePointer_followed cos sin atan2 info this :
  structured this -> followed this ->
  followed (handlePointer cos sin atan2 info this).
Proof.
  intros Hs Ha.
  destruct (getRenderingCanvas (engine this)) as [canvas |] eqn:Hc;
    [| unfold handlePointer; by rewrite Hc].
  rewrite (handlePointer_unfold _ _ _ _ _ _ Hc). cbv zeta.
  set (this' := switchInput _ this).
  assert (structured this') as Hs'
    by (eapply structured_ext; [apply switchInput_structure | done]).
  assert (followed this') as Ha'.
  { eapply same_outside_followed; [apply switchInput_footprint | untouched_all |].
    done. }
  clearbody this'.
  assert (followed (zoomElevation (deltaY info) this')) as Hzoom.
  { eapply same_outside_followed; [apply zoomElevation_footprint | untouched_all |].
    done. }
  assert (followed (pointerUp this')) as Hup.
  { eapply same_outside_followed; [apply pointerUp_footprint | untouched_all |].
    done. }
  destruct (type info);
    destruct (isElevationView canvas (offsetX info) (offsetY info));
    try done;
    first [by apply pointerDown_followed | by apply pointerMove_followed].
Qed.

Lemma execute_followed cos sin atan2 command this :
  structured this -> followed this ->
  followed (execute cos sin atan2 command this).
Proof.
  intros Hs Ha.
  destruct command as [| | | | | | | | | | app clientY |]; simpl.
  - by apply handlePointer_followed.
  - eapply same_outside_followed; [apply setTool_footprint | untouched_all | done].
  - by apply setSlope_followed.
  - apply aimed_followed, updateElevationCamera_aimed.
  - by apply setEavesHeight_followed.
  - by apply setRidgeHeight_followed.
  - eapply same_outside_followed;
      [apply setBackgroundImage_footprint | untouched_all | done].
  - eapply same_outside_followed;
      [apply refreshInput_footprint | untouched_all | done].
  - eapply same_outside_followed; [apply render_footprint | untouched_all | done].
  - done.
  - unfold App.handleMove. destruct (App.draggingHandle app) as [[] |];
      [by apply setEavesHeight_followed | by apply setRidgeHeight_followed | done].
  - eapply same_outside_followed;
      [apply App_handleUp_footprint | untouched_all | done].
Qed.

(** The controller keeps the elevation camera aimed at the selection:
    after any run of commands, the camera stands 100 m from the target the
    controller last gave it, on the side named by the elevation direction,
    and unless a preview ghost is selected that target is the position of
    the selected building (the origin without a selection).  A selected
    ghost is moved by the add tools without the camera following. *)
Theorem elevation_camera_follows_selection cos sin atan2 engine listeners commands :
  elevationPosition (run cos sin atan2 engine listeners commands)
  = Vector3.add (elevationTarget (run cos sin atan2 engine listeners commands))
      (elevationOffset
         (currentElevationDir (run cos sin atan2 engine listeners commands)))
  /\ (ghostSelected (run cos sin atan2 engine listeners commands) = false ->
      elevationTarget (run cos sin atan2 engine listeners commands)
      = default Vector3.Zero
          (position <$> selected (run cos sin atan2 engine listeners commands))).
Proof.
  change (followed (run cos sin atan2 engine listeners commands)).
  induction commands as [| c commands IH] using rev_ind; [by split |].
  rewrite run_snoc. apply execute_followed; [apply run_structured | done].
Qed.

(** A selected ghost that an add tool moves leaves the camera behind:
    the ghost of [ghostRun], selected at (7, 0, 3), is moved to (1, 0, 1)
    and the camera still aims at (7, 0, 3). *)
Example ghost_leaves_camera_behind :
  position <$> selected ghostMoved = Some (Vector3.mk 1 0 1)
  /\ selectedMesh ghostMoved = Some (Ghost 0)
  /\ elevationTarget ghostMoved = Vector3.mk 7 0 3.
Proof. by vm_compute. Qed.

(** ** The scale of the overlay *)

Lemma same_outside_zoomed touched a b :
  same_outside touched a b ->
  Forall (.∉ touched) [Field.elevationZoom; Field.elevationOrtho] ->
  zoomed b -> zoomed a.
Proof.
  intros Hab Hout. unfold zoomed.
  rewrite !Forall_cons in Hout. destruct Hout as (H1 & H2 & _).
  apply Hab in H1, H2. simpl in *. by rewrite H1, H2.
Qed.

Lemma zoomElevation_zoomed delta this : zoomed (zoomElevation delta this).
Proof.
  unfold zoomed.
  rewrite zoomElevation_orthoTop, zoomElevation_orthoBottom, zoomElevation_zoom.
  split; [apply zoom_clamp_range | done].
Qed.

Lemma handlePointer_zoomed cos sin atan2 info this :
  zoomed this -> zoomed (handlePointer cos sin atan2 info this).
Proof.
  intros Hz.
  destruct (getRenderingCanvas (engine this)) as [canvas |] eqn:Hc;
    [| unfold handlePointer; by rewrite Hc].
  rewrite (handlePointer_unfold _ _ _ _ _ _ Hc). cbv zeta.
  set (this' := switchInput _ this).
  assert (zoomed this') as Hz'.
  { eapply same_outside_zoomed;
      [apply switchInput_footprint | untouched_all | done]. }
  clearbody this'.
  destruct (type info);
    destruct (isElevationView canvas (offsetX info) (offsetY info));
    try done; try apply zoomElevation_zoomed;
    (eapply same_outside_zoomed; [| | exact Hz']);
    first [ simple apply pointerDown_footprint | simple apply pointerUp_footprint
          | simple apply pointerMove_footprint | untouched_all ].
Qed.

Lemma execute_zoomed cos sin atan2 command this :
  zoomed this -> zoomed (execute cos sin atan2 command this).
Proof.
  intros Hz. destruct command; cbn [execute];
    try (by apply handlePointer_zoomed); try done;
    (eapply same_outside_zoomed; [| | exact Hz]);
    first [ simple apply setTool_footprint | simple apply setSlope_footprint
          | simple apply setElevationView_footprint | simple apply setEavesHeight_footprint
          | simple apply setRidgeHeight_footprint | simple apply refreshInput_footprint
          | simple apply App_handleMove_footprint | simple apply App_handleUp_footprint
          | untouched_all ].
Qed.

Lemma run_zoomed cos sin atan2 engine listeners commands :
  zoomed (run cos sin atan2 engine listeners commands).
Proof.
  induction commands as [| c commands IH] using rev_ind.
  - unfold zoomed. simpl. repeat split; lra.
  - rewrite run_snoc. by apply execute_zoomed.
Qed.

(** The scale the overlay is given follows the zoom: after any run of
    commands, with a building selected, the report of
    [updateGuidePositions] carries [canvas.height / (120 * dpr * zoom)]
    pixels per metre, which is positive and lies between
    [canvas.height / (600 * dpr)] and [canvas.height / (12 * dpr)]. *)
Theorem overlay_scale cos sin atan2 engine listeners commands project
    (canvasHeight devicePixelRatio : number) canvas b :
  getRenderingCanvas engine = Some canvas ->
  selected (run cos sin atan2 engine listeners commands) = Some b ->
  0 < canvasHeight -> 0 < devicePixelRatio ->
  exists report,
    updateGuidePositions true project canvasHeight devicePixelRatio
      (run cos sin atan2 engine listeners commands) = Some report
    /\ pixelsPerMeter report
       * (120 * devicePixelRatio
          * elevationZoom (run cos sin atan2 engine listeners commands))
       == canvasHeight
    /\ 0 < pixelsPerMeter report
    /\ pixelsPerMeter report * (12 * devicePixelRatio) <= canvasHeight
    /\ canvasHeight <= pixelsPerMeter report * (600 * devicePixelRatio).
Proof.
  intros Hc Hb Hh Hdpr.
  destruct (run_zoomed cos sin atan2 engine listeners commands)
    as (Hrange & Htop & Hbottom).
  destruct (run_engine cos sin atan2 engine listeners commands) as [He _].
  set (this := run cos sin atan2 engine listeners commands) in *.
  unfold updateGuidePositions. simpl. rewrite Hb, He, Hc.
  eexists. split; [reflexivity |]. simpl.
  assert (or_default devicePixelRatio 1 = devicePixelRatio) as ->.
  { unfold or_default. destruct (Qeq_bool devicePixelRatio 0) eqn:Hz; [| done].
    apply Qeq_bool_iff in Hz. lra. }
  rewrite Htop, Hbottom.
  generalize dependent (elevationZoom this). intros zoom Hrange _ _.
  assert (canvasHeight * 0.5 / devicePixelRatio / (30 * zoom - - (30 * zoom))
          * (120 * devicePixelRatio * zoom) == canvasHeight) as Hppm
    by (field; lra).
  assert (0 < canvasHeight * 0.5 / devicePixelRatio / (30 * zoom - - (30 * zoom)))
    as Hpos.
  { apply Qlt_shift_div_l; [lra |]. rewrite Qmult_0_l.
    apply Qlt_shift_div_l; lra. }
  generalize dependent
    (canvasHeight * 0.5 / devicePixelRatio / (30 * zoom - - (30 * zoom))).
  intros ppm Hppm Hpos. repeat split; try done; nra.
Qed.

Lemma overlay_scale_witness :
  exists report,
    updateGuidePositions true (fun p => p) 600 2
      (run demoCos demoSin demoAtan2 demoEngine allListeners twoBuildings)
    = Some report
    /\ pixelsPerMeter report
       * (120 * 2
          * elevationZoom
              (run demoCos demoSin demoAtan2 demoEngine allListeners twoBuildings))
       == 600
    /\ 0 < pixelsPerMeter report
    /\ pixelsPerMeter report * (12 * 2) <= 600
    /\ 600 <= pixelsPerMeter report * (600 * 2).
Proof.
  apply (overlay_scale demoCos demoSin demoAtan2 demoEngine allListeners
           twoBuildings (fun p => p) 600 2 (mkCanvas 1000 600) demoFlat).
  - reflexivity.
  - by vm_compute.
  - reflexivity.
  - reflexivity.
Defined.

(** At zoom 1 a 600 pixel canvas at device pixel ratio 2 shows 2.5 CSS
    pixels per metre. *)
Example overlay_scale_evaluated :
  (fun r => Qred (pixelsPerMeter r))
    <$> updateGuidePositions true (fun p => p) 600 2 demoRun
  = Some (5 # 2).
Proof. by vm_compute. Qed.

(** ** The input state during an application drag *)

Lemma same_outside_input touched a b :
  same_outside touched a b ->
  Forall (.∉ touched)
    [Field.activeViewport; Field.elevationControl; Field.isAppDragging] ->
  input a = input b.
Proof.
  intros Hab Hout. unfold input.
  rewrite !Forall_cons in Hout. destruct Hout as (H1 & H2 & H3 & _).
  apply Hab in H1, H2, H3. simpl in *. congruence.
Qed.

Lemma switchInput_blocked viewport this :
  isAppDragging this = true -> switchInput viewport this = this.
Proof. intros Hd. unfold switchInput. by rewrite Hd. Qed.

Lemma handlePointer_input cos sin atan2 info this :
  isAppDragging this = true ->
  input (handlePointer cos sin atan2 info this) = input this.
Proof.
  intros Hd.
  destruct (getRenderingCanvas (engine this)) as [canvas |] eqn:Hc;
    [| unfold handlePointer; by rewrite Hc].
  rewrite (handlePointer_unfold _ _ _ _ _ _ Hc). cbv zeta.
  rewrite switchInput_blocked by done.
  destruct (type info);
    destruct (isElevationView canvas (offsetX info) (offsetY info));
    try done;
    eapply same_outside_input;
    first [ simple apply pointerDown_footprint | simple apply pointerUp_footprint
          | simple apply pointerMove_footprint | simple apply zoomElevation_footprint
          | untouched_all ].
Qed.

Lemma execute_input cos sin atan2 command this :
  isAppDragging this = true -> releasesInput command = false ->
  input (execute cos sin atan2 command this) = input this.
Proof.
  intros Hd Hc. destruct command; cbn [execute]; try done;
    try (by apply handlePointer_input);
    try (eapply same_outside_input;
         first [ simple apply setTool_footprint | simple apply setSlope_footprint
               | simple apply setElevationView_footprint | simple apply setEavesHeight_footprint
               | simple apply setRidgeHeight_footprint | simple apply setBackgroundImage_footprint
               | simple apply App_handleMove_footprint | untouched_all ]).
  unfold input. simpl. by rewrite Hd.
Qed.

(** While the application drags a guide, nothing but the end of that drag
    or a refresh of the input switches the viewport: whatever pointer
    events, setter calls and overlay moves arrive, the active viewport
    stays, the elevation camera keeps or stays without control, and the
    application-drag flag stays raised. *)
Theorem app_drag_freezes_input cos sin atan2 (commands : list Command) this :
  isAppDragging this = true ->
  Forall (fun c => releasesInput c = false) commands ->
  input (fold_left (fun s c => execute cos sin atan2 c s) commands this)
  = input this.
Proof.
  intros Hd Hcs. revert this Hd.
  induction Hcs as [| c commands Hc Hcs IH]; intros this Hd; [done |].
  simpl. pose proof (execute_input cos sin atan2 c this Hd Hc) as Hstep.
  rewrite IH; [done |].
  unfold input in Hstep. injection Hstep as _ _ ->. done.
Qed.

Lemma app_drag_freezes_input_witness :
  input
    (fold_left (fun s c => execute demoCos demoSin demoAtan2 c s) duringAppDrag
       (App.startDrag gableDemo))
  = (none, false, true).
Proof.
  apply (app_drag_freezes_input demoCos demoSin demoAtan2 duringAppDrag
           (App.startDrag gableDemo)).
  - reflexivity.
  - repeat constructor.
Defined.

(** Outside an application drag the same commands do switch the viewport,
    and the wheel zooms all the same during it. *)
Example input_switches_when_free :
  input
    (fold_left (fun s c => execute demoCos demoSin demoAtan2 c s) duringAppDrag
       gableDemo)
  = (plan, false, false)
  /\ Qred
       (elevationZoom
          (fold_left (fun s c => execute demoCos demoSin demoAtan2 c s)
             duringAppDrag (App.startDrag gableDemo)))
     = 2.
Proof. by vm_compute. Qed.

(** ** The drag target across a resize *)

Lemma same_handle_spec kind index h :
  same_handle (Some kind) (Some index) h = true ->
  Mesh.handleType (Mesh.metadata h) = Some kind
  /\ Mesh.index (Mesh.metadata h) = Some index.
Proof.
  unfold same_handle. intros [Hk Hi]%andb_true_iff.
  destruct (Mesh.handleType (Mesh.metadata h)) as [k |]; [| done].
  destruct (Mesh.index (Mesh.metadata h)) as [n |]; [| done].
  apply Nat.eqb_eq in Hi as ->. by destruct kind, k.
Qed.

Lemma createHandles_find this i b kind index :
  selectedMesh this = Some i -> deref this i = Some b ->
  handleSlot kind index = true ->
  exists h,
    List.find (same_handle (Some kind) (Some index)) (handles (createHandles this))
    = Some h
    /\ Mesh.parent h = Some i.
Proof.
  intros Hi Hb Hslot. unfold createHandles, selected. rewrite Hi, Hb.
  cbn [handles set_handles imap app].
  destruct kind; try done.
  - destruct index as [| [| [| [| index]]]]; [| | | | done]; cbn; by eexists.
  - destruct index as [| [| index]]; [| | done]; cbn; by eexists.
  - destruct index as [| [| index]]; [| | done]; cbn; by eexists.
  - destruct index as [| index]; [| done]; cbn; by eexists.
Qed.

(** A resize rebuilds every handle; the drag goes on with the new handle
    of the kind and index of the old one, which belongs to the selected
    root. *)
Theorem resize_retargets_drag cos sin pickPoint this i b target kind index :
  selectedMesh this = Some i ->
  deref this i = Some b ->
  dragTarget this = Some target ->
  isDragging this = true ->
  Mesh.handleType (Mesh.metadata target) = Some kind ->
  Mesh.index (Mesh.metadata target) = Some index ->
  handleSlot kind index = true ->
  exists h,
    dragTarget (handleResize cos sin pickPoint this) = Some h
    /\ h ∈ handles (handleResize cos sin pickPoint this)
    /\ Mesh.handleType (Mesh.metadata h) = Some kind
    /\ Mesh.index (Mesh.metadata h) = Some index
    /\ Mesh.parent h = Some i.
Proof.
  intros Hi Hb Ht Hd Hk Hn Hslot.
  rewrite (handleResize_unfold _ _ _ _ _ _ _ Hi Hb Ht). cbv zeta.
  set (this' := createHandles _).
  assert (isDragging (notifyDimensions this') = true) as ->.
  { rewrite <- Hd.
    etrans; [apply (notifyDimensions_footprint _ Field.isDragging); untouched |].
    subst this'.
    etrans; [apply (createHandles_footprint _ Field.isDragging); untouched |].
    apply (assign_footprint _ _ _ Field.isDragging). untouched. }
  assert (handles (notifyDimensions this') = handles this') as Hh.
  { apply (notifyDimensions_footprint _ Field.handles). untouched. }
  rewrite Hk, Hn, Hh.
  rewrite !bool_decide_eq_true_2 by eauto. cbn [andb].
  destruct (createHandles_find
              (assign i (resized cos sin i b (boundsFor cos sin target pickPoint b))
                 this)
              i (resized cos sin i b (boundsFor cos sin target pickPoint b))
              kind index) as (h & Hfind & Hp);
    [by rewrite assign_selectedMesh | by eapply deref_assign | done |].
  fold this' in Hfind. rewrite Hfind.
  destruct (find_some _ _ Hfind) as [Hin Hsame].
  apply same_handle_spec in Hsame as [Hk' Hn'].
  exists h. cbn [dragTarget set_dragTarget handles]. rewrite Hh.
  repeat split; try done. by apply list_elem_of_In.
Qed.

(** ** Relocating a building *)

Lemma selectBuilding_selectedMesh root this :
  selectedMesh (selectBuilding root this) = root.
Proof.
  unfold selectBuilding. case_decide; [done |].
  by rewrite invoke_selectedMesh, notifyDimensions_selectedMesh,
    updateElevationCamera_selectedMesh, createHandles_selectedMesh.
Qed.

(** Selecting changes masks only. *)
Lemma selectBuilding_lookup root this r b :
  deref this r = Some b ->
  exists b',
    deref (selectBuilding root this) r = Some b'
    /\ position b' = position b /\ rotationY b' = rotationY b
    /\ metadata b' = metadata b.
Proof.
  intros Hj. unfold selectBuilding. case_decide; [by exists b |].
  set (this' := set_buildings _ _).
  assert (forall call,
            deref (invoke (has_onSelectionChange
                             (listeners (notifyDimensions
                                (updateElevationCamera (createHandles this')))))
                     call
                     (notifyDimensions
                        (updateElevationCamera (createHandles this')))) r
            = deref this' r) as ->.
  { intros call. apply deref_ext.
    - by rewrite invoke_buildings, notifyDimensions_buildings,
        updateElevationCamera_buildings, createHandles_buildings.
    - rewrite invoke_ghosts, notifyDimensions_ghosts.
      apply createHandles_ghosts. }
  destruct r as [j | k]; simpl in *.
  - rewrite list_lookup_imap, Hj. by eexists.
  - by exists b.
Qed.

(** What a relocation writes. *)
Lemma relocate_deref this r b f :
  deref this r = Some b ->
  deref (updateElevationCamera (updateBuilding r f this)) r = Some (f b).
Proof.
  intros Hb. unfold updateBuilding. rewrite Hb.
  rewrite (deref_ext _ (assign r (f b) this)) by done. by eapply deref_assign.
Qed.

(** A building pressed in the Plan view and dragged follows the pointer
    from where it was grabbed: when the ray of the move meets the drag
    plane at [q], the building has moved by [q] minus the pick point of the
    press, along x and z; its height above ground, yaw and dimensions are
    kept.  So does a preview ghost grabbed with the select tool. *)
Theorem relocation_follows_pointer cos sin atan2 camera info hit' this hit j b q :
  activeTool this = select ->
  Mesh.type (Mesh.metadata (pickedMesh hit)) = Some building ->
  Mesh.parent (pickedMesh hit) = Some j ->
  deref this j = Some b ->
  (forall plane, castPlane info camera plane = Some q) ->
  exists b',
    deref
      (pointerMove cos sin atan2 camera info hit'
         (pointerDown cos sin true 0 (Some hit) this)) j = Some b'
    /\ Vector3.x (position b')
       == Vector3.x (position b) + (Vector3.x q - Vector3.x (pickedPoint hit))
    /\ Vector3.y (position b') = Vector3.y (position b)
    /\ Vector3.z (position b')
       == Vector3.z (position b) + (Vector3.z q - Vector3.z (pickedPoint hit))
    /\ rotationY b' = rotationY b
    /\ metadata b' = metadata b.
Proof.
  intros Htool Hty Hp Hj Hq.
  unfold pointerDown. cbn [Z.eqb negb]. rewrite Htool, Hty, Hp.
  set (this1 := selectBuilding (Some j) this).
  destruct (selectBuilding_lookup (Some j) this j b Hj)
    as (b1 & Hj1 & Hpos1 & Hrot1 & Hmd1).
  fold this1 in Hj1.
  assert (selectedMesh this1 = Some j) as Hsel1 by apply selectBuilding_selectedMesh.
  assert (activeTool this1 = select) as Htool1.
  { rewrite <- Htool.
    apply (selectBuilding_footprint (Some j) this Field.activeTool). untouched. }
  assert (selected this1 = Some b1) as Hb1 by (unfold selected; by rewrite Hsel1).
  rewrite Hsel1, Hb1. clearbody this1.
  unfold pointerMove, currentDragPoint.
  cbn [activeTool isDragging dragTarget draggingBuilding dragOrigin activeViewport
       set_isDragging set_draggingBuilding set_dragTarget set_isoControl
       set_dragOrigin].
  rewrite Htool1, Hq.
  erewrite relocate_deref; [| rewrite <- Hj1; by apply deref_ext].
  eexists. split; [reflexivity |]. simpl. rewrite Hpos1.
  repeat split; try done; ring.
Qed.

(** ** Placing a building *)

Lemma same_outside_handles touched a b :
  same_outside touched a b -> Field.handles ∉ touched -> handles a = handles b.
Proof. intros Hab Hout. exact (Hab Field.handles Hout). Qed.

Lemma pointerDown_add cos sin isPlan hit this type :
  activeTool this = addTool type ->
  pointerDown cos sin isPlan 0 (Some hit) this
  = disposePreview (setTool select (createBuilding (pickedPoint hit) type this)).
Proof. intros Htool. unfold pointerDown. rewrite Htool. by destruct type. Qed.

Lemma selectBuilding_changed root this :
  selectedMesh this <> root ->
  buildings (selectBuilding root this)
  = imap (fun j b =>
            maskBuilding
              (if decide (Some (Stored j) = root) then FULL_MASK
               else PLAN_ISO_MASK) b)
      (buildings this)
  /\ handles (selectBuilding root this)
     = handles
         (createHandles
            (set_buildings (set_selectedMesh this root)
               (imap (fun j b =>
                        maskBuilding
                          (if decide (Some (Stored j) = root) then FULL_MASK
                           else PLAN_ISO_MASK) b)
                  (buildings this)))).
Proof.
  intros Hne. unfold selectBuilding. rewrite decide_False by done. split.
  - by rewrite invoke_buildings, notifyDimensions_buildings,
      updateElevationCamera_buildings, createHandles_buildings.
  - eapply (same_outside_handles
              [Field.calls; Field.elevationPosition; Field.elevationTarget]);
      [| untouched].
    footprint_step invoke_footprint.
    footprint_step notifyDimensions_footprint.
    eapply same_outside_mono;
      [apply updateElevationCamera_footprint | within_footprint].
Qed.

Lemma imap_select_last (bs : list Building) root :
  imap (fun j b =>
          maskBuilding
            (if decide (Some (Stored j) = Some (Stored (length bs))) then FULL_MASK
             else PLAN_ISO_MASK) b)
    (bs ++ [root])
  = (maskBuilding PLAN_ISO_MASK <$> bs) ++ [maskBuilding FULL_MASK root].
Proof.
  rewrite imap_app. f_equal.
  - apply list_eq. intros j. rewrite list_lookup_imap, list_lookup_fmap.
    destruct (bs !! j) as [b |] eqn:Hb; [| done]. simpl.
    apply lookup_lt_Some in Hb. rewrite decide_False; [done |].
    intros [= ->]. lia.
  - simpl. rewrite Nat.add_0_r. by rewrite decide_True.
Qed.

Lemma createHandles_length this i b :
  selectedMesh this = Some i -> deref this i = Some b ->
  length (handles (createHandles this))
  = match roofType (metadata b) with Flat => 15%nat | Gable => 21%nat end.
Proof.
  intros Hi Hb. unfold createHandles, selected. rewrite Hi, Hb.
  by destruct (roofType (metadata b)).
Qed.

(** The handles [createHandles] builds are in the scene. *)
Lemma createHandles_alive this :
  Forall (fun h => Mesh.isDisposed h = false) (handles (createHandles this)).
Proof.
  unfold createHandles, selected.
  destruct (selectedMesh this) as [r |]; [| by constructor].
  destruct (deref this r) as [b |]; [| by constructor].
  simpl. destruct (roofType (metadata b)); by repeat constructor.
Qed.

Lemma createBuilding_stores pos type this :
  (forall i, selectedMesh this = Some (Stored i) ->
     (i < length (buildings this))%nat) ->
  buildings (createBuilding pos type this)
  = (maskBuilding PLAN_ISO_MASK <$> buildings this)
    ++ [newBuilding (length (buildings this)) pos type]
  /\ selectedMesh (createBuilding pos type this)
     = Some (Stored (length (buildings this)))
  /\ length (handles (createBuilding pos type this))
     = match type with Flat => 15%nat | Gable => 21%nat end
  /\ Forall (fun h => Mesh.parent h = Some (Stored (length (buildings this)))
                      /\ Mesh.isDisposed h = false)
       (handles (createBuilding pos type this)).
Proof.
  intros Hsel. unfold createBuilding.
  set (root := maskBuilding PLAN_ISO_MASK _).
  set (this' := set_buildings this (buildings this ++ [root])).
  assert (selectedMesh this' <> Some (Stored (length (buildings this)))) as Hne.
  { intros Heq. apply Hsel in Heq. lia. }
  destruct (selectBuilding_changed _ _ Hne) as [Hbs Hhs].
  assert (buildings this' = buildings this ++ [root]) as Hbs' by done.
  rewrite Hbs' in Hbs, Hhs. rewrite imap_select_last in Hbs, Hhs.
  split; [exact Hbs |]. split; [apply selectBuilding_selectedMesh |].
  rewrite Hhs. split.
  - rewrite (createHandles_length _ (Stored (length (buildings this)))
               (maskBuilding FULL_MASK root)); [by destruct type | done |].
    cbn [deref buildings set_buildings].
    rewrite lookup_app_r by (by rewrite length_fmap).
    by rewrite length_fmap, Nat.sub_diag.
  - apply Forall_and. split; [| apply createHandles_alive].
    eapply Forall_impl; [apply createHandles_handle_ok |].
    by intros h (Hp & _).
Qed.

(** With an add tool, a left press that hits anything stores one new
    building behind the others, which lose the elevation mask; the new
    building stands at the pick point at ground level, is selected and
    has its handles, and the select tool is back. *)
Theorem add_tool_places_building cos sin isPlan hit this type :
  (forall i, selectedMesh this = Some (Stored i) ->
     (i < length (buildings this))%nat) ->
  activeTool this = addTool type ->
  buildings (pointerDown cos sin isPlan 0 (Some hit) this)
  = (maskBuilding PLAN_ISO_MASK <$> buildings this)
    ++ [newBuilding (length (buildings this)) (pickedPoint hit) type]
  /\ selectedMesh (pointerDown cos sin isPlan 0 (Some hit) this)
     = Some (Stored (length (buildings this)))
  /\ activeTool (pointerDown cos sin isPlan 0 (Some hit) this) = select
  /\ length (handles (pointerDown cos sin isPlan 0 (Some hit) this))
     = match type with Flat => 15%nat | Gable => 21%nat end
  /\ Forall (fun h => Mesh.isDisposed h = false)
       (handles (pointerDown cos sin isPlan 0 (Some hit) this))
  /\ previewMesh (pointerDown cos sin isPlan 0 (Some hit) this) = None.
Proof.
  intros Hsel Htool. rewrite (pointerDown_add _ _ _ _ _ _ Htool).
  destruct (createBuilding_stores (pickedPoint hit) type this Hsel)
    as (Hbs & Hs & Hh & Hp).
  pose proof (setTool_footprint select
                (createBuilding (pickedPoint hit) type this)) as Hf.
  set (this1 := setTool select (createBuilding (pickedPoint hit) type this)) in *.
  pose proof (disposePreview_footprint this1) as Hd.
  assert (handles this1 = handles (createBuilding (pickedPoint hit) type this))
    as Hh1 by (apply (Hf Field.handles); untouched).
  rewrite <- Hh1 in Hh, Hp.
  assert (handles (disposePreview this1) = handles this1) as Hh2.
  { unfold disposePreview. destruct (previewMesh this1) as [k |]; [| done].
    unfold disposeRoot. cbn [handles set_previewMesh set_handles].
    assert (handles (updateBuilding (Ghost k)
                       (fun root => set_children root []) this1)
            = handles this1) as ->
      by (apply (updateBuilding_footprint _ _ _ Field.handles); untouched).
    rewrite <- (list_fmap_id (handles this1)) at 2.
    apply Forall_fmap_ext_1. eapply Forall_impl; [exact Hp |].
    intros h [Hph _]. simpl. rewrite bool_decide_eq_false_2; [done |].
    rewrite Hph. by intros [=]. }
  rewrite <- Hbs, <- Hs, <- Hh, Hh2. repeat split.
  - rewrite disposePreview_buildings. apply (Hf Field.buildings). untouched.
  - etrans; [apply (Hd Field.selectedMesh); untouched |].
    apply (Hf Field.selectedMesh). untouched.
  - etrans; [apply (Hd Field.activeTool); untouched |]. unfold this1, setTool.
    etrans; [apply (invoke_footprint _ _ _ Field.activeTool); untouched | done].
  - eapply Forall_impl; [exact Hp |]. by intros h [_ ?].
  - unfold disposePreview. destruct (previewMesh this1) eqn:Hpm; [reflexivity | done].
Qed.

Lemma resize_retargets_drag_witness :
  exists h,
    dragTarget (handleResize demoCos demoSin (Vector3.mk (-3) 0 (-1)) pressedDemo)
    = Some h
    /\ h ∈ handles (handleResize demoCos demoSin (Vector3.mk (-3) 0 (-1)) pressedDemo)
    /\ Mesh.handleType (Mesh.metadata h) = Some corner
    /\ Mesh.index (Mesh.metadata h) = Some 0%nat
    /\ Mesh.parent h = Some (Stored 0).
Proof.
  apply (resize_retargets_drag demoCos demoSin (Vector3.mk (-3) 0 (-1))
           pressedDemo (Stored 0) pressedGable pressedCorner corner 0);
    by vm_compute.
Defined.

(** The corner went from (-5, 7, -3) to (-4, 7, -2) on the resized
    building, and the drag target with it. *)
Example retargeted_corner_evaluated :
  (fun h => (Qred (Vector3.x (Mesh.position h)), Qred (Vector3.z (Mesh.position h))))
    <$> dragTarget pressedDemo
  = Some (-5, -3)
  /\ (fun h => (Qred (Vector3.x (Mesh.position h)), Qred (Vector3.z (Mesh.position h))))
       <$> dragTarget
             (handleResize demoCos demoSin (Vector3.mk (-3) 0 (-1)) pressedDemo)
     = Some (-4, -2).
Proof. by vm_compute. Qed.

Lemma relocation_follows_pointer_witness :
  exists b',
    deref
      (pointerMove demoCos demoSin demoAtan2 planCamera (moveTo (Vector3.mk 3 0 4))
         None (pointerDown demoCos demoSin true 0 (Some wallHit) demoRun))
      (Stored 0)
    = Some b'
    /\ Vector3.x (position b')
       == Vector3.x (position demoGable)
          + (Vector3.x (Vector3.mk 3 0 4) - Vector3.x (pickedPoint wallHit))
    /\ Vector3.y (position b') = Vector3.y (position demoGable)
    /\ Vector3.z (position b')
       == Vector3.z (position demoGable)
          + (Vector3.z (Vector3.mk 3 0 4) - Vector3.z (pickedPoint wallHit))
    /\ rotationY b' = rotationY demoGable
    /\ metadata b' = metadata demoGable.
Proof.
  apply (relocation_follows_pointer demoCos demoSin demoAtan2 planCamera
           (moveTo (Vector3.mk 3 0 4)) None demoRun wallHit (Stored 0) demoGable
           (Vector3.mk 3 0 4)).
  - by vm_compute.
  - reflexivity.
  - reflexivity.
  - by vm_compute.
  - reflexivity.
Defined.

(** The gable of the demo run, grabbed at (1, 2, 1) and dragged to
    (3, 0, 4), ends at (2, 0, 3) and is the selected building. *)
Example relocation_evaluated :
  (fun b => (Qred (Vector3.x (position b)), Qred (Vector3.y (position b)),
             Qred (Vector3.z (position b))))
    <$> selected
          (pointerMove demoCos demoSin demoAtan2 planCamera
             (moveTo (Vector3.mk 3 0 4)) None
             (pointerDown demoCos demoSin true 0 (Some wallHit) demoRun))
  = Some (2, 0, 3).
Proof. by vm_compute. Qed.

Lemma add_tool_places_building_witness :
  buildings (pointerDown demoCos demoSin false 0 (Some groundHit) gableToolDemo)
  = (maskBuilding PLAN_ISO_MASK <$> buildings gableToolDemo)
    ++ [newBuilding (length (buildings gableToolDemo)) (pickedPoint groundHit) Gable]
  /\ selectedMesh (pointerDown demoCos demoSin false 0 (Some groundHit) gableToolDemo)
     = Some (Stored (length (buildings gableToolDemo)))
  /\ activeTool (pointerDown demoCos demoSin false 0 (Some groundHit) gableToolDemo)
     = select
  /\ length (handles (pointerDown demoCos demoSin false 0 (Some groundHit)
                        gableToolDemo))
     = 21%nat
  /\ Forall (fun h => Mesh.isDisposed h = false)
       (handles (pointerDown demoCos demoSin false 0 (Some groundHit) gableToolDemo))
  /\ previewMesh (pointerDown demoCos demoSin false 0 (Some groundHit) gableToolDemo)
     = None.
Proof.
  apply (add_tool_places_building demoCos demoSin false groundHit gableToolDemo
           Gable).
  - intros i Hi. vm_compute in Hi. discriminate.
  - reflexivity.
Defined.

(** ** Fresh handles along a run *)

Lemma createHandles_ext a b :
  selection a = selection b -> planOrthoTop a = planOrthoTop b ->
  handles (createHandles a) = handles (createHandles b).
Proof.
  unfold selection, createHandles. intros [= Hi Hmd] Htop. rewrite Hi, Htop.
  destruct (selectedMesh b); [| done].
  destruct (selected a) as [ba |], (selected b) as [bb |]; try done.
  injection Hmd as Hmd. by rewrite Hmd.
Qed.

Lemma fresh_ext a b :
  placement <$> handles a = placement <$> handles b ->
  selection a = selection b -> fresh b -> fresh a.
Proof.
  intros Hh Hs [top Hfresh]. exists top. rewrite Hh, Hfresh. f_equal.
  apply createHandles_ext; [exact (eq_sym Hs) | done].
Qed.

Lemma same_outside_selection touched a b :
  same_outside touched a b ->
  Forall (.∉ touched) [Field.buildings; Field.ghosts; Field.selectedMesh] ->
  selection a = selection b.
Proof.
  intros Hab Hout. unfold selection.
  rewrite !Forall_cons in Hout. destruct Hout as (H1 & H2 & H3 & _).
  apply Hab in H1, H2, H3. simpl in *.
  rewrite (selected_ext b a) by done. congruence.
Qed.

(** A method that leaves the store, the ghosts, the selection and the
    handles alone keeps the handles fresh. *)
Lemma same_outside_fresh touched a b :
  same_outside touched a b ->
  Forall (.∉ touched)
    [Field.buildings; Field.ghosts; Field.selectedMesh; Field.handles] ->
  fresh b -> fresh a.
Proof.
  intros Hab Hout. rewrite !Forall_cons in Hout.
  destruct Hout as (H1 & H2 & H3 & H4 & _).
  apply fresh_ext.
  - apply Hab in H4. simpl in H4. by rewrite H4.
  - eapply same_outside_selection; [done |]. by repeat constructor.
Qed.

Lemma createHandles_fresh this : fresh (createHandles this).
Proof.
  exists (planOrthoTop this). f_equal. apply createHandles_ext.
  - unfold selection.
    rewrite (selected_ext (set_planOrthoTop (createHandles this) (planOrthoTop this))
               this)
      by (simpl; auto using createHandles_selectedMesh, createHandles_buildings,
            createHandles_ghosts).
    simpl. by rewrite createHandles_selectedMesh.
  - simpl. unfold createHandles. by repeat case_match.
Qed.

Lemma selectBuilding_fresh root this : fresh this -> fresh (selectBuilding root this).
Proof.
  intros Hf. unfold selectBuilding. case_decide; [done |].
  eapply (same_outside_fresh
            [Field.calls; Field.elevationPosition; Field.elevationTarget]);
    [| untouched_all | apply createHandles_fresh].
  footprint_step invoke_footprint.
  footprint_step notifyDimensions_footprint.
  eapply same_outside_mono;
    [apply updateElevationCamera_footprint | within_footprint].
Qed.

Lemma createBuilding_fresh pos ty this :
  structured this -> fresh (createBuilding pos ty this).
Proof.
  intros (Hsel & _). unfold createBuilding, selectBuilding.
  case_decide as Heq.
  { simpl in Heq. apply Hsel in Heq. simpl in Heq.
    apply lookup_lt_is_Some in Heq. lia. }
  eapply (same_outside_fresh
            [Field.calls; Field.elevationPosition; Field.elevationTarget]);
    [| untouched_all | apply createHandles_fresh].
  footprint_step invoke_footprint.
  footprint_step notifyDimensions_footprint.
  eapply same_outside_mono;
    [apply updateElevationCamera_footprint | within_footprint].
Qed.

Lemma notified_fresh this : fresh this -> fresh (notifyDimensions this).
Proof.
  eapply same_outside_fresh; [apply notifyDimensions_footprint | untouched_all].
Qed.

Lemma setEavesHeight_fresh h this : fresh this -> fresh (setEavesHeight h this).
Proof.
  intros Hf. unfold setEavesHeight.
  destruct (selectedMesh this); [| done]. destruct (selected this); [| done].
  apply notified_fresh, createHandles_fresh.
Qed.

Lemma setRidgeHeight_fresh r this : fresh this -> fresh (setRidgeHeight r this).
Proof.
  intros Hf. unfold setRidgeHeight.
  destruct (selectedMesh this); [| done]. destruct (selected this); [| done].
  apply notified_fresh, createHandles_fresh.
Qed.

Lemma setSlope_fresh s this : fresh this -> fresh (setSlope s this).
Proof.
  intros Hf. unfold setSlope.
  destruct (selectedMesh this); [| done]. destruct (selected this); [| done].
  destruct (RoofType_eqb _ _); [| done].
  eapply same_outside_fresh;
    [apply invoke_footprint | untouched_all | apply createHandles_fresh].
Qed.

Lemma handleResize_fresh cos sin pickPoint this :
  fresh this -> fresh (handleResize cos sin pickPoint this).
Proof.
  intros Hf.
  destruct (selected this) as [b |] eqn:Hb;
    [| by rewrite handleResize_idle; auto].
  destruct (dragTarget this) as [target |] eqn:Ht;
    [| by rewrite handleResize_idle; auto].
  destruct (selected_Some _ _ Hb) as (i & Hi & Hl).
  rewrite (handleResize_unfold _ _ _ _ _ _ _ Hi Hl Ht). cbv zeta.
  set (this' := notifyDimensions _).
  assert (fresh this') as Hf' by apply notified_fresh, createHandles_fresh.
  clearbody this'. repeat case_match; try done.
  eapply (same_outside_fresh [Field.dragTarget]);
    [footprint_cases | untouched_all | done].
Qed.

Lemma deref_assign_ne this r r' b :
  r <> r' -> deref (assign r b this) r' = deref this r'.
Proof.
  intros Hne. destruct r as [i | k], r' as [i' | k']; simpl; try done;
    rewrite list_lookup_insert_ne; congruence.
Qed.

Lemma updateBuilding_selection r f this :
  (forall b, metadata (f b) = metadata b) ->
  selection (updateBuilding r f this) = selection this.
Proof.
  intros Hf. unfold updateBuilding.
  destruct (deref this r) as [b |] eqn:Hb; [| done].
  unfold selection, selected. rewrite assign_selectedMesh.
  destruct (selectedMesh this) as [r' |]; [| done]. f_equal.
  destruct (decide (r = r')) as [<- | Hne].
  - rewrite (deref_assign _ _ _ _ Hb), Hb. simpl. by rewrite Hf.
  - by rewrite deref_assign_ne.
Qed.

Lemma updateBuilding_fresh r f this :
  (forall b, metadata (f b) = metadata b) ->
  fresh this -> fresh (updateBuilding r f this).
Proof.
  intros Hf. apply fresh_ext; [| by apply updateBuilding_selection].
  assert (handles (updateBuilding r f this) = handles this) as ->; [| done].
  apply (updateBuilding_footprint r f this Field.handles). untouched.
Qed.

(** Neither the render loop nor a disposal moves a handle. *)
Lemma showHandle_placement camera h : placement (showHandle camera h) = placement h.
Proof. unfold showHandle. by repeat case_match. Qed.

Lemma beforeCameraRender_fresh camera this :
  fresh this -> fresh (beforeCameraRender camera this).
Proof.
  apply fresh_ext; [| done]. unfold beforeCameraRender. simpl.
  rewrite <- list_fmap_compose. apply list_fmap_ext.
  intros _ h _. apply showHandle_placement.
Qed.

Lemma render_fresh this : fresh this -> fresh (render this).
Proof.
  intros Hf. unfold render, activeCameras. simpl.
  by do 3 apply beforeCameraRender_fresh.
Qed.

Lemma disposeRoot_fresh r this : fresh this -> fresh (disposeRoot r this).
Proof.
  intros Hf. unfold disposeRoot.
  set (this' := updateBuilding r _ this).
  assert (fresh this') as Hf' by (by apply updateBuilding_fresh).
  clearbody this'. revert Hf'. apply fresh_ext; [| done]. simpl.
  rewrite <- list_fmap_compose. apply list_fmap_ext.
  intros _ h _. simpl. by case_bool_decide.
Qed.

Lemma disposePreview_fresh this : fresh this -> fresh (disposePreview this).
Proof.
  intros Hf. unfold disposePreview. destruct (previewMesh this); [| done].
  eapply same_outside_fresh;
    [apply set_previewMesh_footprint | untouched_all | by apply disposeRoot_fresh].
Qed.

(** A new ghost goes to the end of the heap, where no reference points. *)
Lemma append_ghost_selection g this :
  structured this ->
  selection (set_ghosts this (ghosts this ++ [g])) = selection this.
Proof.
  intros (Hsel & _). unfold selection, selected. simpl.
  destruct (selectedMesh this) as [r |] eqn:Hr; [| done]. f_equal.
  destruct (Hsel r eq_refl) as [b Hb].
  destruct r as [i | k]; simpl in *; [done |].
  by rewrite lookup_app_l by (by eapply lookup_lt_Some).
Qed.

Lemma movePreview_fresh type hit this :
  structured this -> fresh this -> fresh (movePreview type hit this).
Proof.
  intros Hs Hf. unfold movePreview.
  set (current := match previewMesh this ≫= _ with Some _ => _ | None => _ end).
  set (this1 := if current then this else _).
  assert (fresh this1) as Hf1.
  { subst this1. destruct current; [done |].
    pose proof (disposePreview_structured this Hs) as Hs0.
    pose proof (disposePreview_fresh this Hf) as Hf0.
    set (this0 := disposePreview this) in *.
    eapply same_outside_fresh;
      [apply set_previewMesh_footprint | untouched_all |].
    revert Hf0. apply fresh_ext; [done |]. by apply append_ghost_selection. }
  destruct hit as [hit |]; [| done].
  destruct (previewMesh this1) as [k |]; [| done].
  by apply updateBuilding_fresh.
Qed.

Lemma pointerDown_fresh cos sin isPlan evtButton hit this :
  structured this -> fresh this ->
  fresh (pointerDown cos sin isPlan evtButton hit this).
Proof.
  intros Hs Hf. unfold pointerDown.
  destruct (negb (evtButton =? 0)%Z); [done |].
  destruct hit as [hit |]; [| by destruct (activeTool this)].
  destruct (activeTool this).
  - destruct (Mesh.type (Mesh.metadata (pickedMesh hit))) as [[] |].
    + destruct (_ && _); [done |].
      eapply (same_outside_fresh
                [Field.isDragging; Field.dragTarget; Field.draggingHandleType;
                 Field.isoControl; Field.dragOrigin]);
        [footprint_cases | untouched_all | done].
    + set (this' := selectBuilding _ this).
      assert (fresh this') as Hf' by by apply selectBuilding_fresh.
      clearbody this'.
      destruct isPlan, (selectedMesh this'), (selected this'); try done.
      eapply (same_outside_fresh
                [Field.isDragging; Field.draggingBuilding; Field.dragTarget;
                 Field.isoControl; Field.dragOrigin]);
        [footprint_cases | untouched_all | done].
    + by apply selectBuilding_fresh.
    + by apply selectBuilding_fresh.
  - apply disposePreview_fresh.
    eapply same_outside_fresh;
      [apply setTool_footprint | untouched_all | by apply createBuilding_fresh].
  - apply disposePreview_fresh.
    eapply same_outside_fresh;
      [apply setTool_footprint | untouched_all | by apply createBuilding_fresh].
Qed.

Lemma pointerMove_fresh cos sin atan2 camera info hit this :
  structured this -> fresh this ->
  fresh (pointerMove cos sin atan2 camera info hit this).
Proof.
  intros Hs Hf. unfold pointerMove.
  destruct (activeTool this);
    [| by apply movePreview_fresh | by apply movePreview_fresh].
  destruct (isDragging this); [| done].
  assert (fresh
            match draggingBuilding this, currentDragPoint camera info this with
            | Some j, Some dragPoint =>
                updateElevationCamera
                  (updateBuilding j
                     (fun b => set_position b
                        (Vector3.set_z
                           (Vector3.set_x (position b) (Vector3.x dragPoint))
                           (Vector3.z dragPoint))) this)
            | _, _ => this
            end) as Hrelocate.
  { destruct (draggingBuilding this); [| done].
    destruct (currentDragPoint camera info this); [| done].
    eapply same_outside_fresh;
      [apply updateElevationCamera_footprint | untouched_all
      | by apply updateBuilding_fresh]. }
  destruct (dragTarget this); [| done].
  destruct (currentDragPoint camera info this) as [dragPoint |]; [| done].
  assert (fresh
            (notifyDimensions
               (updateElevationCamera (handleResize cos sin dragPoint this))))
    as Hresize.
  { apply notified_fresh.
    eapply same_outside_fresh;
      [apply updateElevationCamera_footprint | untouched_all
      | by apply handleResize_fresh]. }
  destruct (draggingHandleType this) as [[] |]; try done.
  - destruct (selectedMesh this); [| done].
    destruct (selected this); [| done].
    by apply updateBuilding_fresh.
  - by apply setEavesHeight_fresh.
  - by apply setRidgeHeight_fresh.
Qed.

Lemma handlePointer_fresh cos sin atan2 info this :
  structured this -> fresh this -> fresh (handlePointer cos sin atan2 info this).
Proof.
  intros Hs Hf.
  destruct (getRenderingCanvas (engine this)) as [canvas |] eqn:Hc;
    [| unfold handlePointer; by rewrite Hc].
  rewrite (handlePointer_unfold _ _ _ _ _ _ Hc). cbv zeta.
  set (this' := switchInput _ this).
  assert (structured this') as Hs'
    by (eapply structured_ext; [apply switchInput_structure | done]).
  assert (fresh this') as Hf'.
  { eapply same_outside_fresh;
      [apply switchInput_footprint | untouched_all | done]. }
  clearbody this'.
  assert (fresh (zoomElevation (deltaY info) this')) as Hzoom.
  { eapply same_outside_fresh;
      [apply zoomElevation_footprint | untouched_all | done]. }
  assert (fresh (pointerUp this')) as Hup.
  { eapply same_outside_fresh;
      [apply pointerUp_footprint | untouched_all | done]. }
  destruct (type info);
    destruct (isElevationView canvas (offsetX info) (offsetY info));
    try done;
    first [by apply pointerDown_fresh | by apply pointerMove_fresh].
Qed.

Lemma execute_fresh cos sin atan2 command this :
  structured this -> fresh this -> fresh (execute cos sin atan2 command this).
Proof.
  intros Hs Hf.
  destruct command as [| | | | | | | | | | app clientY |]; cbn [execute].
  - by apply handlePointer_fresh.
  - eapply same_outside_fresh; [apply setTool_footprint | untouched_all | done].
  - by apply setSlope_fresh.
  - eapply same_outside_fresh;
      [apply setElevationView_footprint | untouched_all | done].
  - by apply setEavesHeight_fresh.
  - by apply setRidgeHeight_fresh.
  - eapply same_outside_fresh;
      [apply setBackgroundImage_footprint | untouched_all | done].
  - eapply same_outside_fresh;
      [apply refreshInput_footprint | untouched_all | done].
  - by apply render_fresh.
  - eapply (same_outside_fresh [Field.isAppDragging]);
      [unfold App.startDrag; footprint_cases | untouched_all | done].
  - unfold App.handleMove. destruct (App.draggingHandle app) as [[] |];
      [by apply setEavesHeight_fresh | by apply setRidgeHeight_fresh | done].
  - eapply same_outside_fresh;
      [apply App_handleUp_footprint | untouched_all | done].
Qed.

Lemma run_fresh cos sin atan2 engine listeners commands :
  fresh (run cos sin atan2 engine listeners commands).
Proof.
  induction commands as [| c commands IH] using rev_ind; [by exists 30 |].
  rewrite run_snoc. apply execute_fresh; [apply run_structured | done].
Qed.

(** The handles are never stale: after any run of commands they are
    placed as [createHandles] would place them at that moment, for the
    selected root, a stored building or a preview ghost, and its current
    dimensions (at the ortho size the plan camera had when they were
    built): same meshes in the same order, with the same parent, local
    position, kind, index, guide level, scale and layer mask; in
    particular there is none without a selection. *)
Theorem handles_follow_selection cos sin atan2 engine listeners commands :
  (exists top,
     placement <$> handles (run cos sin atan2 engine listeners commands)
     = placement
         <$> handles
               (createHandles
                  (set_planOrthoTop (run cos sin atan2 engine listeners commands)
                     top)))
  /\ (selected (run cos sin atan2 engine listeners commands) = None ->
      handles (run cos sin atan2 engine listeners commands) = []).
Proof.
  destruct (run_fresh cos sin atan2 engine listeners commands) as [top Hf].
  split; [by exists top |].
  intros Hnone. apply (fmap_nil_inv placement). rewrite Hf.
  unfold createHandles.
  change (selected (set_planOrthoTop ?s _)) with (selected s). rewrite Hnone.
  by destruct (selectedMesh _).
Qed.

(** ** The start of a height drag *)

(** A height drag starts without a jump: once the React state has
    followed the selection and then the heights of the selected building,
    the first move of a drag, with the pointer still where it went down,
    asks the controller for the height the building has and leaves it as
    it is (for the ridge guide, on a gable roof). *)
Theorem drag_start_is_still app type mode clientY this b (w d : number) :
  selected this = Some b ->
  healthy (metadata b) ->
  (type = ridge -> roofType (metadata b) = Gable) ->
  exists b',
    selected
      (App.handleMove
         (App.beginDrag type clientY mode
            (App.onDimensionsChange w d (height (metadata b)) (slope (metadata b))
               (App.onSelectionChange (Some b) app)))
         clientY this)
    = Some b'
    /\ height (metadata b') == height (metadata b)
    /\ slope (metadata b') == slope (metadata b)
    /\ roofType (metadata b') = roofType (metadata b)
    /\ width (metadata b') = width (metadata b)
    /\ depth (metadata b') = depth (metadata b)
    /\ position b' = position b
    /\ rotationY b' = rotationY b.
Proof.
  intros Hb (He & Hs & Hr) Hridge.
  assert (App.roofType (App.onSelectionChange (Some b) app)
          = roofType (metadata b)) as Hroof.
  { unfold App.onSelectionChange. by destruct (metadata b). }
  unfold App.handleMove, App.requestedHeight, App.beginDrag,
    App.onDimensionsChange.
  cbn [App.draggingHandle App.dragMode App.dragStartY App.initialHeight
       App.eavesHeight App.ridgeHeight App.roofType App.pixelsPerMeter].
  rewrite Hroof.
  generalize (App.pixelsPerMeter (App.onSelectionChange (Some b) app)).
  intros ppm0.
  assert (forall ppm : number, (clientY - clientY) / ppm == 0) as Hstill.
  { intros ppm. unfold Qdiv. ring. }
  destruct type.
  - eexists. split; [by apply setEavesHeight_selected |].
    rewrite rebuildMesh_metadata. simpl.
    match goal with
    | |- context [(clientY - clientY) / ?ppm] =>
        specialize (Hstill ppm);
        generalize dependent ((clientY - clientY) / ppm)
    end.
    intros travel Htravel.
    destruct (roofType (metadata b));
      repeat split; try done; split_all_minmax; lra.
  - specialize (Hridge eq_refl). rewrite Hridge.
    eexists. split; [by apply setRidgeHeight_selected |].
    rewrite rebuildMesh_metadata. simpl.
    match goal with
    | |- context [(clientY - clientY) / ?ppm] =>
        specialize (Hstill ppm);
        generalize dependent ((clientY - clientY) / ppm)
    end.
    intros travel Htravel.
    destruct (Qlt_le_dec _ 0.5) as [Hlt | Hle];
      repeat split; try done; split_all_minmax; lra.
Qed.

Lemma drag_start_is_still_witness :
  exists b',
    selected
      (App.handleMove
         (App.beginDrag ridge 250 App.projected
            (App.onDimensionsChange 10 6 (height (metadata gableAtOrigin))
               (slope (metadata gableAtOrigin))
               (App.onSelectionChange (Some gableAtOrigin) demoApp)))
         250 gableDemo)
    = Some b'
    /\ height (metadata b') == height (metadata gableAtOrigin)
    /\ slope (metadata b') == slope (metadata gableAtOrigin)
    /\ roofType (metadata b') = roofType (metadata gableAtOrigin)
    /\ width (metadata b') = width (metadata gableAtOrigin)
    /\ depth (metadata b') = depth (metadata gableAtOrigin)
    /\ position b' = position gableAtOrigin
    /\ rotationY b' = rotationY gableAtOrigin.
Proof.
  apply (drag_start_is_still demoApp ridge App.projected 250 gableDemo
           gableAtOrigin 10 6).
  - by vm_compute.
  - vm_compute. repeat split; congruence.
  - reflexivity.
Defined.

(** ** What the interface writes *)

Lemma commitMetadata_store r b md this :
  match r with
  | Stored _ => ghosts (commitMetadata r b md this) = ghosts this
  | Ghost _ => buildings (commitMetadata r b md this) = buildings this
  end.
Proof.
  unfold commitMetadata.
  destruct r; [by rewrite createHandles_ghosts | by rewrite createHandles_buildings].
Qed.

Lemma setter_store cos sin atan2 command this :
  writesDimensions command = true ->
  if ghostSelected this
  then buildings (execute cos sin atan2 command this) = buildings this
  else ghosts (execute cos sin atan2 command this) = ghosts this.
Proof.
  intros Hw. unfold ghostSelected.
  destruct command as [| | s | | h | r | | | | | app clientY |]; try done;
    cbn [execute]; unfold App.handleMove, setSlope, setEavesHeight, setRidgeHeight;
    repeat case_match; try done; subst;
    rewrite ?invoke_ghosts, ?invoke_buildings, ?notifyDimensions_ghosts,
      ?notifyDimensions_buildings;
    try done;
    match goal with
    | |- context [commitMetadata ?r ?b ?md ?this] =>
        exact (commitMetadata_store r b md this)
    end.
Qed.

(** Each method of the public interface writes a few fields only: the
    height and slope setters and the height drag of the application write
    the roots, the handles and the call log, and of the roots those of the
    store when the selection is a stored building, the preview ghosts when
    it is a ghost; [setTool] the tool and the log; [setElevationView] the
    direction and the placement of the elevation camera;
    [setBackgroundImage] the ortho size of the plan camera and the
    background plane, which is in the scene from then on; [refreshInput]
    the active viewport, the two camera controls and the log. A pointer
    event never writes the elevation direction, the application-drag flag,
    the ortho size of the plan camera, the background plane, the engine or
    the listeners, and no command replaces the engine or the listeners. *)
Theorem interface_footprints cos sin atan2 this :
  (forall s,
     same_outside [Field.buildings; Field.ghosts; Field.handles; Field.calls]
       (setSlope s this) this)
  /\ (forall h,
        same_outside [Field.buildings; Field.ghosts; Field.handles; Field.calls]
          (setEavesHeight h this) this)
  /\ (forall r,
        same_outside [Field.buildings; Field.ghosts; Field.handles; Field.calls]
          (setRidgeHeight r this) this)
  /\ (forall app clientY,
        same_outside [Field.buildings; Field.ghosts; Field.handles; Field.calls]
          (App.handleMove app clientY this) this)
  /\ (forall command,
        writesDimensions command = true ->
        if ghostSelected this
        then buildings (execute cos sin atan2 command this) = buildings this
        else ghosts (execute cos sin atan2 command this) = ghosts this)
  /\ (forall tool,
        same_outside [Field.activeTool; Field.calls] (setTool tool this) this)
  /\ (forall direction,
        same_outside
          [Field.currentElevationDir; Field.elevationPosition;
           Field.elevationTarget]
          (setElevationView direction this) this)
  /\ (forall width height,
        same_outside [Field.planOrthoTop; Field.backgroundPlane]
          (setBackgroundImage width height this) this
        /\ backgroundPlane (setBackgroundImage width height this)
           = Some backgroundMesh
        /\ backgroundMesh ∈ sceneMeshes (setBackgroundImage width height this))
  /\ (forall x y,
        same_outside
          [Field.activeViewport; Field.isoControl; Field.elevationControl;
           Field.calls]
          (refreshInput x y this) this)
  /\ (forall info,
        currentElevationDir (handlePointer cos sin atan2 info this)
        = currentElevationDir this
        /\ isAppDragging (handlePointer cos sin atan2 info this)
           = isAppDragging this
        /\ planOrthoTop (handlePointer cos sin atan2 info this)
           = planOrthoTop this
        /\ backgroundPlane (handlePointer cos sin atan2 info this)
           = backgroundPlane this)
  /\ (forall command,
        engine (execute cos sin atan2 command this) = engine this
        /\ listeners (execute cos sin atan2 command this) = listeners this).
Proof.
  split; [intros; apply setSlope_footprint |].
  split; [intros; apply setEavesHeight_footprint |].
  split; [intros; apply setRidgeHeight_footprint |].
  split; [intros; apply App_handleMove_footprint |].
  split; [intros; by apply setter_store |].
  split; [intros; apply setTool_footprint |].
  split; [intros; apply setElevationView_footprint |].
  split.
  { intros width height. split; [apply setBackgroundImage_footprint |].
    split; [done |]. unfold sceneMeshes. simpl.
    apply elem_of_cons. right. apply elem_of_cons. by left. }
  split; [intros; apply refreshInput_footprint |].
  split.
  - intros info.
    kept (handlePointer_footprint cos sin atan2 info this) Field.currentElevationDir.
    kept (handlePointer_footprint cos sin atan2 info this) Field.isAppDragging.
    kept (handlePointer_footprint cos sin atan2 info this) Field.planOrthoTop.
    kept (handlePointer_footprint cos sin atan2 info this) Field.backgroundPlane.
    done.
  - intros command.
    kept (execute_footprint cos sin atan2 command this) Field.engine.
    kept (execute_footprint cos sin atan2 command this) Field.listeners.
    done.
Qed.

(** ** Picking a guide *)

(** A guide among fresh handles hangs under the selected building and is
    an eaves guide, or a ridge guide of a gable roof. *)
Lemma createHandles_guides this h :
  h ∈ handles (createHandles this) -> isGuide h = true ->
  exists i b,
    selectedMesh this = Some i /\ selected this = Some b
    /\ Mesh.parent h = Some i
    /\ (Mesh.subType (Mesh.metadata h) = Some eaves
        \/ (Mesh.subType (Mesh.metadata h) = Some ridge
            /\ roofType (metadata b) = Gable)).
Proof.
  unfold createHandles.
  destruct (selectedMesh this) as [i |]; [| by intros ?%elem_of_nil].
  destruct (selected this) as [b |]; [| by intros ?%elem_of_nil].
  cbn [handles set_handles imap app createLevelGuide].
  intros Hin Hg. exists i, b. split; [done |]. split; [done |].
  destruct (roofType (metadata b));
    repeat (apply elem_of_cons in Hin as [-> | Hin]; [by auto |]);
    by apply elem_of_nil in Hin.
Qed.

Lemma sceneMeshes_guide this m :
  structured this -> m ∈ sceneMeshes this -> isGuide m = true ->
  m ∈ handles this.
Proof.
  intros Hs Hin Hg.
  destruct (sceneMeshes_cases this m Hs Hin)
    as [-> | [-> | [(j & b & _ & _ & Hsolid) | [(k & g & _ & _ & Hsolid) | Hh]]]];
    try done; [| | tauto];
    destruct Hsolid as (_ & _ & Hnone & _);
    unfold isGuide in Hg; by rewrite Hnone in Hg.
Qed.

(** A fresh handle is placed like one of those [createHandles] builds. *)
Lemma fresh_handle this h :
  fresh this -> h ∈ handles this ->
  exists top h',
    h' ∈ handles (createHandles (set_planOrthoTop this top))
    /\ placement h' = placement h.
Proof.
  intros [top Hf] Hin. exists top.
  apply (list_elem_of_fmap_2 placement) in Hin. rewrite Hf in Hin.
  apply list_elem_of_fmap in Hin as (h' & Heq & Hin'). by exists h'.
Qed.

(** A guide picked on the canvas is a guide of the selection: after any
    run of commands, when [pickGuide] reports a guide, the Elevation
    viewport is active, a root is selected, a stored building or a
    preview ghost, and a ridge guide is only reported for a gable roof;
    the application then starts a projected drag of that guide and raises
    the application-drag flag. *)
Theorem guide_pick_is_of_selection cos sin atan2 engine listeners commands
    (ray : Mesh.t -> option (number * Vector3.t)) type :
  pickGuide ray (run cos sin atan2 engine listeners commands) = Some type ->
  activeViewport (run cos sin atan2 engine listeners commands) = elevation
  /\ (exists r b,
        selectedMesh (run cos sin atan2 engine listeners commands) = Some r
        /\ deref (run cos sin atan2 engine listeners commands) r = Some b
        /\ (type = ridge -> roofType (metadata b) = Gable))
  /\ (forall app clientY,
        App.handleCanvasDown ray clientY app
          (run cos sin atan2 engine listeners commands)
        = (App.beginDrag type clientY App.projected app,
           set_isAppDragging (run cos sin atan2 engine listeners commands) true)).
Proof.
  intros Hpick.
  pose proof (run_structured cos sin atan2 engine listeners commands) as Hs.
  pose proof (run_fresh cos sin atan2 engine listeners commands) as Hf.
  set (this := run cos sin atan2 engine listeners commands) in *.
  split; [| split].
  - unfold pickGuide in Hpick.
    destruct (ViewportName_eqb (activeViewport this) elevation) eqn:Hv; [| done].
    by apply ViewportName_eqb_eq.
  - unfold pickGuide in Hpick.
    destruct (negb _); [done |].
    destruct (pickWithRay ray isGuide (sceneMeshes this)) as [hit |] eqn:Hhit;
      [| done].
    destruct (pick_loop_sound _ _ _ _ _ Hhit) as [? | (Hin & Hg & _)]; [done |].
    apply (sceneMeshes_guide this _ Hs) in Hin; [| done].
    destruct (fresh_handle this _ Hf Hin) as (top & h' & Hin' & Hplace).
    unfold placement in Hplace. injection Hplace as _ _ _ _ _ Hkind _ Hsub _ _.
    assert (isGuide h' = true) as Hg' by (unfold isGuide in *; by rewrite Hkind).
    destruct (createHandles_guides _ _ Hin' Hg')
      as (r & b & Hr & Hb & _ & Hsub').
    apply selected_Some in Hb as (r' & Hr' & Hb).
    exists r', b. split; [done |]. split; [done |]. intros ->.
    rewrite Hsub in Hsub'.
    destruct Hsub' as [Heaves | [_ Hgable]]; [congruence | done].
  - intros app clientY. unfold App.handleCanvasDown. by rewrite Hpick.
Qed.

Lemma guide_pick_is_of_selection_witness :
  activeViewport (run demoCos demoSin demoAtan2 demoEngine allListeners guideRun)
  = elevation
  /\ (exists r b,
        selectedMesh (run demoCos demoSin demoAtan2 demoEngine allListeners guideRun)
        = Some r
        /\ deref (run demoCos demoSin demoAtan2 demoEngine allListeners guideRun) r
           = Some b
        /\ (ridge = ridge -> roofType (metadata b) = Gable))
  /\ (forall app clientY,
        App.handleCanvasDown ridgeRay clientY app
          (run demoCos demoSin demoAtan2 demoEngine allListeners guideRun)
        = (App.beginDrag ridge clientY App.projected app,
           set_isAppDragging
             (run demoCos demoSin demoAtan2 demoEngine allListeners guideRun)
             true)).
Proof.
  apply (guide_pick_is_of_selection demoCos demoSin demoAtan2 demoEngine
           allListeners guideRun ridgeRay ridge).
  by vm_compute.
Defined.

(** ** Camera control after a release *)

(** The release of a drag hands control back to the Iso camera wherever
    the pointer is: when a drag ends over the Elevation viewport, whose
    camera has control, both cameras end up with control attached, until
    [refreshInput] (or the next change of viewport) detaches the Iso
    camera again. *)
Theorem release_over_elevation_attaches_both cos sin atan2 info this canvas :
  getRenderingCanvas (engine this) = Some canvas ->
  type info = POINTERUP ->
  isElevationView canvas (offsetX info) (offsetY info) = true ->
  isDragging this = true ->
  isAppDragging this = false ->
  (activeViewport this = elevation -> elevationControl this = true) ->
  activeViewport (handlePointer cos sin atan2 info this) = elevation
  /\ isoControl (handlePointer cos sin atan2 info this) = true
  /\ elevationControl (handlePointer cos sin atan2 info this) = true
  /\ isoControl
       (refreshInput (offsetX info) (offsetY info)
          (handlePointer cos sin atan2 info this)) = false
  /\ elevationControl
       (refreshInput (offsetX info) (offsetY info)
          (handlePointer cos sin atan2 info this)) = true.
Proof.
  intros Hc Ht He Hd Happ Hctl.
  assert (newViewport canvas (offsetX info) (offsetY info) = elevation) as Hv.
  { clear -He. unfold newViewport, isElevationView in *.
    destruct (isPlanView canvas (offsetX info)); [done |].
    simpl in *. by rewrite He. }
  rewrite (handlePointer_unfold _ _ _ _ _ _ Hc). cbv zeta. rewrite Ht, ?He, Hv.
  set (this' := switchInput elevation this).
  assert (activeViewport this' = elevation /\ elevationControl this' = true
          /\ isDragging this' = true /\ engine this' = engine this)
    as (Hv' & He' & Hd' & Hen').
  { subst this'. unfold switchInput. rewrite Happ. cbn [negb andb].
    destruct (ViewportName_eqb (activeViewport this) elevation) eqn:Heq.
    - apply ViewportName_eqb_eq in Heq. cbn [negb]. auto.
    - cbn [negb]. unfold attachActive, invoke. by repeat case_match. }
  clearbody this'.
  unfold pointerUp. rewrite Hd'.
  unfold refreshInput.
  cbn [engine set_isoControl set_dragOrigin set_draggingHandleType
       set_draggingBuilding set_dragTarget set_isDragging].
  rewrite Hen', Hc, Hv.
  unfold attachActive, invoke. cbn. by repeat case_match.
Qed.

Lemma release_over_elevation_attaches_both_witness :
  activeViewport (handlePointer demoCos demoSin demoAtan2 releaseOverElevation guideDrag)
  = elevation
  /\ isoControl (handlePointer demoCos demoSin demoAtan2 releaseOverElevation guideDrag)
     = true
  /\ elevationControl
       (handlePointer demoCos demoSin demoAtan2 releaseOverElevation guideDrag)
     = true
  /\ isoControl
       (refreshInput (offsetX releaseOverElevation) (offsetY releaseOverElevation)
          (handlePointer demoCos demoSin demoAtan2 releaseOverElevation guideDrag))
     = false
  /\ elevationControl
       (refreshInput (offsetX releaseOverElevation) (offsetY releaseOverElevation)
          (handlePointer demoCos demoSin demoAtan2 releaseOverElevation guideDrag))
     = true.
Proof.
  apply (release_over_elevation_attaches_both demoCos demoSin demoAtan2
           releaseOverElevation guideDrag (mkCanvas 1000 600));
    by vm_compute.
Defined.

(** ** The dragged corner stays under the pointer *)

Lemma invert_cancel m v :
  ~ Matrix.determinant m == 0 ->
  Vector3.equiv
    (Matrix.TransformCoordinates (Matrix.TransformCoordinates v (Matrix.invert m)) m)
    v.
Proof.
  intros Hd. unfold Vector3.equiv, Matrix.TransformCoordinates, Matrix.invert,
    Matrix.determinant in *. simpl.
  repeat split; field; done.
Qed.

Lemma createHandles_find_corner this i b index :
  selectedMesh this = Some i -> deref this i = Some b ->
  (index < 4)%nat ->
  List.find (same_handle (Some corner) (Some index)) (handles (createHandles this))
  = Some (standardHandle i
            (cornerLocal index (width (metadata b)) (depth (metadata b))
               (height (metadata b) + slope (metadata b) + 1))
            corner index (or_default (planOrthoTop this) 30 / 30)).
Proof.
  intros Hi Hb Hslot. unfold createHandles, selected. rewrite Hi, Hb.
  cbn [handles set_handles imap app].
  destruct index as [| [| [| [| index]]]]; [| | | | lia]; reflexivity.
Qed.

(** The bounds of an unclamped corner drag: the two owned edges are at the
    local pick point, the two others where they were. *)
Lemma resizeBounds_unclamped index p (w d : number) :
  (index < 4)%nat -> unclamped index p w d ->
  let bo := resizeBounds (Some corner) (Some index) p w d in
  (minX bo + maxX bo) / 2
  + Vector3.x (cornerLocal index (maxX bo - minX bo) (maxZ bo - minZ bo) 0)
  == Vector3.x p
  /\ (minZ bo + maxZ bo) / 2
     + Vector3.z (cornerLocal index (maxX bo - minX bo) (maxZ bo - minZ bo) 0)
     == Vector3.z p.
Proof.
  intros Hslot [Hx Hz]. unfold resizeBounds, index_is, MIN_SIZE in *.
  destruct index as [| [| [| [| index]]]]; [| | | | lia];
    cbn [Nat.eqb orb cornerLocal minX maxX minZ maxZ Vector3.x Vector3.z] in *;
    split; split_all_minmax; halves; lra.
Qed.

(** A corner follows the pointer: when a corner handle is dragged and the
    pointer leaves it at least [MIN_SIZE] from the two opposite edges, the
    resize ends with the drag target, the rebuilt corner handle, exactly
    under the pick point of the move in world x and z. *)
Theorem corner_follows_pointer cos sin pickPoint this i b target index :
  selectedMesh this = Some i ->
  deref this i = Some b ->
  dragTarget this = Some target ->
  isDragging this = true ->
  Mesh.handleType (Mesh.metadata target) = Some corner ->
  Mesh.index (Mesh.metadata target) = Some index ->
  (index < 4)%nat ->
  ~ Matrix.determinant (getWorldMatrix cos sin b) == 0 ->
  unclamped index
    (Matrix.TransformCoordinates pickPoint
       (Matrix.invert (getWorldMatrix cos sin b)))
    (width (metadata b)) (depth (metadata b)) ->
  exists h,
    dragTarget (handleResize cos sin pickPoint this) = Some h
    /\ Vector3.x (absolutePosition cos sin (handleResize cos sin pickPoint this) h)
       == Vector3.x pickPoint
    /\ Vector3.z (absolutePosition cos sin (handleResize cos sin pickPoint this) h)
       == Vector3.z pickPoint.
Proof.
  intros Hi Hb Ht Hd Hk Hn Hslot Hdet Hfree.
  rewrite (handleResize_unfold _ _ _ _ _ _ _ Hi Hb Ht). cbv zeta.
  set (b' := resized cos sin i b (boundsFor cos sin target pickPoint b)).
  set (this' := createHandles _).
  assert (isDragging (notifyDimensions this') = true) as ->.
  { rewrite <- Hd.
    etrans; [apply (notifyDimensions_footprint _ Field.isDragging); untouched |].
    subst this'.
    etrans; [apply (createHandles_footprint _ Field.isDragging); untouched |].
    apply (assign_footprint _ _ _ Field.isDragging). untouched. }
  assert (handles (notifyDimensions this') = handles this') as Hh.
  { apply (notifyDimensions_footprint _ Field.handles). untouched. }
  assert (deref (assign i b' this) i = Some b') as Hb0 by (by eapply deref_assign).
  assert (forall h, deref (set_dragTarget (notifyDimensions this') h) i = Some b')
    as Hb'.
  { intros h. rewrite <- Hb0. apply deref_ext; cbn [buildings ghosts set_dragTarget].
    - rewrite notifyDimensions_buildings. subst this'.
      by rewrite createHandles_buildings.
    - rewrite notifyDimensions_ghosts. subst this'.
      by rewrite createHandles_ghosts. }
  rewrite Hk, Hn, Hh.
  rewrite !bool_decide_eq_true_2 by eauto. cbn [andb].
  subst this'.
  rewrite (createHandles_find_corner _ i b' index);
    [| by rewrite assign_selectedMesh | done | done].
  eexists. split; [reflexivity |].
  unfold absolutePosition.
  cbn [Mesh.parent standardHandle mbind option_bind].
  rewrite Hb'. cbn [Mesh.position standardHandle].
  destruct (invert_cancel (getWorldMatrix cos sin b) pickPoint Hdet)
    as (Hx & _ & Hz).
  set (p := Matrix.TransformCoordinates pickPoint
              (Matrix.invert (getWorldMatrix cos sin b))) in *.
  destruct (resizeBounds_unclamped index p (width (metadata b))
              (depth (metadata b)) Hslot Hfree) as [Hbx Hbz].
  rewrite <- Hx, <- Hz.
  subst b'. unfold resized, boundsFor. rewrite Hk, Hn. fold p.
  set (bo := resizeBounds (Some corner) (Some index) p (width (metadata b))
               (depth (metadata b))) in *.
  clearbody bo p.
  unfold Matrix.TransformCoordinates, Matrix.TransformNormal, getWorldMatrix.
  cbn [Vector3.x Vector3.y Vector3.z Matrix.c Matrix.s Matrix.tx Matrix.ty
       Matrix.tz position rotationY metadata rebuildMesh set_children
       set_position set_metadata Vector3.add width depth height slope
       set_depth set_width].
  assert (Vector3.x
            (cornerLocal index (maxX bo - minX bo) (maxZ bo - minZ bo)
               (height (metadata b) + slope (metadata b) + 1))
          = Vector3.x
              (cornerLocal index (maxX bo - minX bo) (maxZ bo - minZ bo) 0)) as Ex
    by (by destruct index as [| [| [| ]]]).
  assert (Vector3.z
            (cornerLocal index (maxX bo - minX bo) (maxZ bo - minZ bo)
               (height (metadata b) + slope (metadata b) + 1))
          = Vector3.z
              (cornerLocal index (maxX bo - minX bo) (maxZ bo - minZ bo) 0)) as Ez
    by (by destruct index as [| [| [| ]]]).
  rewrite Ex, Ez.
  generalize dependent
    (Vector3.x (cornerLocal index (maxX bo - minX bo) (maxZ bo - minZ bo) 0)).
  generalize dependent
    (Vector3.z (cornerLocal index (maxX bo - minX bo) (maxZ bo - minZ bo) 0)).
  intros lz Hbz _ lx Hbx _.
  rewrite <- Hbx, <- Hbz. split; ring.
Qed.

Lemma corner_follows_pointer_witness :
  exists h,
    dragTarget (handleResize demoCos demoSin (Vector3.mk (-3) 0 (-1)) pressedDemo)
    = Some h
    /\ Vector3.x
         (absolutePosition demoCos demoSin
            (handleResize demoCos demoSin (Vector3.mk (-3) 0 (-1)) pressedDemo) h)
       == Vector3.x (Vector3.mk (-3) 0 (-1))
    /\ Vector3.z
         (absolutePosition demoCos demoSin
            (handleResize demoCos demoSin (Vector3.mk (-3) 0 (-1)) pressedDemo) h)
       == Vector3.z (Vector3.mk (-3) 0 (-1)).
Proof.
  apply (corner_follows_pointer demoCos demoSin (Vector3.mk (-3) 0 (-1))
           pressedDemo (Stored 0) pressedGable pressedCorner 0);
    try (by vm_compute).
  lia.
Defined.

(** ** The aspect ratio of the captured map *)

(** The viewfinder keeps the plan viewport's aspect ratio in percent of
    the map, not in pixels: for the initial viewfinder and for every
    resized one, the crop of the captured canvas is [aspect] times the
    aspect ratio of the canvas wide, so it has the aspect ratio of the plan
    viewport exactly when the captured canvas is square; the size in
    metres handed on is [aspect] times the aspect ratio of the visible map,
    at the metres per pixel of the captured map in both directions. *)
Theorem viewfinder_aspect aspect startX startW vw vh canvasWidth canvasHeight
    mapWidthMeters mapHeightMeters clientX viewfinderSize :
  0 < aspect -> 0 < vw -> 0 < vh -> 0 < canvasWidth -> 0 < canvasHeight ->
  viewfinderSize = MapSelector.initialViewfinder aspect
  \/ viewfinderSize = MapSelector.resize aspect startX startW vw clientX ->
  MapSelector.cropW (MapSelector.crop vw vh canvasWidth canvasHeight viewfinderSize)
  * canvasHeight
  == aspect
     * (MapSelector.cropH
          (MapSelector.crop vw vh canvasWidth canvasHeight viewfinderSize)
        * canvasWidth)
  /\ (MapSelector.cropW
        (MapSelector.crop vw vh canvasWidth canvasHeight viewfinderSize)
      == aspect
         * MapSelector.cropH
             (MapSelector.crop vw vh canvasWidth canvasHeight viewfinderSize)
      <-> canvasWidth == canvasHeight)
  /\ (MapSelector.finalMeters mapWidthMeters mapHeightMeters viewfinderSize).1
     * mapHeightMeters
     == aspect
        * ((MapSelector.finalMeters mapWidthMeters mapHeightMeters viewfinderSize).2
           * mapWidthMeters)
  /\ (MapSelector.finalMeters mapWidthMeters mapHeightMeters viewfinderSize).1
     * canvasWidth
     == mapWidthMeters
        * MapSelector.cropW
            (MapSelector.crop vw vh canvasWidth canvasHeight viewfinderSize)
  /\ (MapSelector.finalMeters mapWidthMeters mapHeightMeters viewfinderSize).2
     * canvasHeight
     == mapHeightMeters
        * MapSelector.cropH
            (MapSelector.crop vw vh canvasWidth canvasHeight viewfinderSize).
Proof.
  intros Ha Hvw Hvh Hcw Hch Hvf.
  assert (MapSelector.h viewfinderSize * aspect == MapSelector.w viewfinderSize
          /\ 0 < MapSelector.h viewfinderSize) as [Hratio Hpos].
  { destruct Hvf as [-> | ->]; simpl.
    - split; [field; lra | apply Qlt_shift_div_l; lra].
    - assert (0 < Qmax 20 (Qmin 90 (startW + (clientX - startX) / vw * 100 * 2)))
        as Hw by (split_all_minmax; lra).
      split; [field; lra | apply Qlt_shift_div_l; lra]. }
  clear Hvf. unfold MapSelector.crop, MapSelector.finalMeters. simpl.
  generalize dependent (MapSelector.w viewfinderSize).
  generalize dependent (MapSelector.h viewfinderSize).
  intros h Hpos w Hratio.
  assert (vw * w / 100 * (canvasWidth / vw) == canvasWidth * w / 100) as ->
    by (field; lra).
  assert (vh * h / 100 * (canvasHeight / vh) == canvasHeight * h / 100) as ->
    by (field; lra).
  unfold Qdiv. change (/ 100) with (1 # 100).
  assert (0 < h * aspect * (1 # 100)) as Hscale by nra.
  rewrite <- Hratio.
  split; [ring |]. split; [| repeat split; ring].
  split; intros Heq.
  - apply (Qmult_inj_l _ _ (h * aspect * (1 # 100))); [lra |].
    rewrite <- (Qmult_comm canvasHeight).
    transitivity (canvasWidth * (h * aspect) * (1 # 100)); [ring |].
    rewrite Heq. ring.
  - rewrite Heq. ring.
Qed.

(** On a 1000 x 800 map captured at 2000 x 1600, with the plan viewport
    at 13/12: the initial viewfinder crops 1200 x 886.15 pixels, wider
    than 13/12 by the canvas's own 5/4. *)
Lemma viewfinder_aspect_witness :
  MapSelector.cropW
    (MapSelector.crop 1000 800 2000 1600 (MapSelector.initialViewfinder (13 # 12)))
  * 1600
  == (13 # 12)
     * (MapSelector.cropH
          (MapSelector.crop 1000 800 2000 1600
             (MapSelector.initialViewfinder (13 # 12)))
        * 2000)
  /\ (MapSelector.cropW
        (MapSelector.crop 1000 800 2000 1600
           (MapSelector.initialViewfinder (13 # 12)))
      == (13 # 12)
         * MapSelector.cropH
             (MapSelector.crop 1000 800 2000 1600
                (MapSelector.initialViewfinder (13 # 12)))
      <-> 2000 == 1600)
  /\ (MapSelector.finalMeters 500 400 (MapSelector.initialViewfinder (13 # 12))).1
     * 400
     == (13 # 12)
        * ((MapSelector.finalMeters 500 400
              (MapSelector.initialViewfinder (13 # 12))).2
           * 500)
  /\ (MapSelector.finalMeters 500 400 (MapSelector.initialViewfinder (13 # 12))).1
     * 2000
     == 500
        * MapSelector.cropW
            (MapSelector.crop 1000 800 2000 1600
               (MapSelector.initialViewfinder (13 # 12)))
  /\ (MapSelector.finalMeters 500 400 (MapSelector.initialViewfinder (13 # 12))).2
     * 1600
     == 400
        * MapSelector.cropH
            (MapSelector.crop 1000 800 2000 1600
               (MapSelector.initialViewfinder (13 # 12))).
Proof.
  apply (viewfinder_aspect (13 # 12) 0 60 1000 800 2000 1600 500 400 0
           (MapSelector.initialViewfinder (13 # 12)));
    try reflexivity.
  by left.
Defined.

Example initial_crop_evaluated :
  Qred (MapSelector.cropW
          (MapSelector.crop 1000 800 2000 1600
             (MapSelector.initialViewfinder (13 # 12))))
  = 1200
  /\ Qred (MapSelector.cropH
             (MapSelector.crop 1000 800 2000 1600
                (MapSelector.initialViewfinder (13 # 12))))
     = 11520 # 13.
Proof. by vm_compute. Qed.
